(** * The per-request data-resolution pipeline of the marketplace gateway

    A shallow embedding of the resolver pipeline (cursor pager, batch
    loaders, persisted-query store, response cache, authentication and
    authorization helpers) and the properties its specification states.

    Conventions of the embedding.
    - An [async] function that resolves or rejects, and a function that
      returns or throws, both produce an [outcome]: [Returns v] or
      [Throws e].
    - Text is held as a [string] of bytes, the UTF-8 form of the text.
    - The pager computes with integer-valued numbers and with [NaN] only
      (the clients declare [first] as [Int], offsets are row counts); an
      integer-valued number is a [Z], which is what the host computes
      with from [-(2^53 - 1)] to [2^53 - 1].
    - Collaborators outside the pipeline (the entity stores, the token
      library, the key-value client, the JSON codec) are records of
      functions passed as arguments. *)

From Stdlib Require Import ZArith NArith List String Ascii Bool Lia.
From Stdlib Require Import Decimal Hexadecimal DecimalString DecimalN DecimalZ.
From stdpp Require Import base option list gmap strings.

Import ListNotations.
Local Open Scope string_scope.

(** ** Values of the host language *)

Module Js.

(** A thrown value. [Error msg] is [new Error(msg)]; [ZodError] is what
    a schema's [parse] throws, with the messages of its issues;
    [Foreign] is any value thrown by a collaborator. *)
Inductive exn : Type :=
| Error (message : string)
| ZodError (messages : list string)
| Foreign (what : string).

Inductive outcome (A : Type) : Type :=
| Returns (a : A)
| Throws (e : exn).
Arguments Returns {A} a.
Arguments Throws {A} e.

Definition returns {A} (o : outcome A) : bool :=
  match o with Returns _ => true | Throws _ => false end.

(** Computations over a state [S] that may throw; the state survives a
    throw, as the heap does. *)
Definition M (S A : Type) : Type := S -> outcome A * S.

Definition ret {S A} (a : A) : M S A := fun s => (Returns a, s).
Definition throw {S A} (e : exn) : M S A := fun s => (Throws e, s).
Definition bind {S A B} (m : M S A) (k : A -> M S B) : M S B :=
  fun s => match m s with
           | (Returns a, s') => k a s'
           | (Throws e, s') => (Throws e, s')
           end.
(** [try { m } catch (error) { h error }] *)
Definition try_catch {S A} (m : M S A) (h : exn -> M S A) : M S A :=
  fun s => match m s with
           | (Returns a, s') => (Returns a, s')
           | (Throws e, s') => h e s'
           end.
(** The computation [m], started in state [s], throws. *)
Definition throwsAt {S A} (m : M S A) (s : S) : Prop :=
  returns (fst (m s)) = false.


Declare Scope js_scope.
Delimit Scope js_scope with js.
Notation "x <- m ;; k" := (bind m (fun x => k))
  (at level 100, m at next level, right associativity) : js_scope.
Notation "m ;;; k" := (bind m (fun _ => k))
  (at level 100, right associativity) : js_scope.

(** Truthiness of a string: every string but the empty one. *)
Definition truthy (s : string) : bool :=
  match s with EmptyString => false | String _ _ => true end.

(** Truthiness of [string | null | undefined]. *)
Definition truthy_opt (o : option string) : bool :=
  match o with Some s => truthy s | None => false end.

(** Numbers as the pager meets them: [NaN] or an integer. The host
    holds an integer exactly from [-(2^53 - 1)] to [2^53 - 1]; [add],
    [toString] and [parseInt] below are the host's operations on that
    range, and a statement that leans on their results names it. *)
Inductive number : Type :=
| NaN
| Int (z : Z).

(** [Number.MAX_SAFE_INTEGER] *)
Definition MAX_SAFE_INTEGER : Z := 9007199254740991.

(** [Number.isSafeInteger], on an integer. *)
Definition isSafeInteger (z : Z) : bool :=
  ((- MAX_SAFE_INTEGER <=? z) && (z <=? MAX_SAFE_INTEGER))%Z.

(** A number the host holds exactly: [NaN] or a safe integer. *)
Definition isExact (n : number) : bool :=
  match n with
  | NaN => true
  | Int z => isSafeInteger z
  end.

Definition add (a b : number) : number :=
  match a, b with
  | Int x, Int y => Int (x + y)
  | _, _ => NaN
  end.

(** [a < b]; false as soon as one side is [NaN]. *)
Definition lt (a b : number) : bool :=
  match a, b with
  | Int x, Int y => (x <? y)%Z
  | _, _ => false
  end.

Definition gt (a b : number) : bool := lt b a.

(** [String.prototype.split(sep)] for a one-character separator. *)
Fixpoint split (sep : ascii) (s : string) : list string :=
  match s with
  | EmptyString => [EmptyString]
  | String c r =>
      if Ascii.eqb c sep then EmptyString :: split sep r
      else match split sep r with
           | [] => [String c EmptyString]
           | w :: ws => String c w :: ws
           end
  end.

(** [Array.prototype.join(sep)] on strings. *)
Fixpoint join (sep : string) (l : list string) : string :=
  match l with
  | [] => ""
  | [x] => x
  | x :: r => x ++ sep ++ join sep r
  end.

(** *** [Number.prototype.toString] on [NaN] or an integer: plain
    decimal, as the host prints every integer below 10^21. *)
Definition toString (n : number) : string :=
  match n with
  | NaN => "NaN"
  | Int z => NilZero.string_of_int (Z.to_int z)
  end.

(** *** [parseInt(text)] with no radix argument *)

Definition code (c : ascii) : N := N_of_ascii c.

(** One-byte white space and line terminators: TAB, LF, VT, FF, CR, SP. *)
Definition isWhite1 (c : ascii) : bool :=
  ((9 <=? code c) && (code c <=? 13) || (code c =? 32))%N.

(** U+00A0, two bytes. *)
Definition isWhite2 (c d : ascii) : bool :=
  ((code c =? 194) && (code d =? 160))%N.

(** U+1680, U+2000..U+200A, U+2028, U+2029, U+202F, U+205F, U+3000,
    U+FEFF, three bytes each. *)
Definition isWhite3 (c d e : ascii) : bool :=
  let '(x, y, z) := (code c, code d, code e) in
  ((x =? 225) && (y =? 154) && (z =? 128)
   || (x =? 226) && (y =? 128)
      && ((128 <=? z) && (z <=? 138) || (z =? 168) || (z =? 169) || (z =? 175))
   || (x =? 226) && (y =? 129) && (z =? 159)
   || (x =? 227) && (y =? 128) && (z =? 128)
   || (x =? 239) && (y =? 187) && (z =? 191))%N.

Fixpoint trimStart (s : string) : string :=
  match s with
  | EmptyString => s
  | String c r =>
      if isWhite1 c then trimStart r
      else match r with
           | EmptyString => s
           | String d r2 =>
               if isWhite2 c d then trimStart r2
               else match r2 with
                    | EmptyString => s
                    | String e r3 => if isWhite3 c d e then trimStart r3 else s
                    end
           end
  end.

Definition decDigit (c : ascii) : option (Decimal.uint -> Decimal.uint) :=
  match code c with
  | 48 => Some Decimal.D0 | 49 => Some Decimal.D1
  | 50 => Some Decimal.D2 | 51 => Some Decimal.D3
  | 52 => Some Decimal.D4 | 53 => Some Decimal.D5
  | 54 => Some Decimal.D6 | 55 => Some Decimal.D7
  | 56 => Some Decimal.D8 | 57 => Some Decimal.D9
  | _ => None
  end%N.

(** The longest prefix of decimal digits. *)
Fixpoint decDigits (s : string) : Decimal.uint :=
  match s with
  | EmptyString => Decimal.Nil
  | String c r =>
      match decDigit c with
      | Some d => d (decDigits r)
      | None => Decimal.Nil
      end
  end.

Definition hexDigit (c : ascii) : option (Hexadecimal.uint -> Hexadecimal.uint) :=
  match code c with
  | 48 => Some Hexadecimal.D0 | 49 => Some Hexadecimal.D1
  | 50 => Some Hexadecimal.D2 | 51 => Some Hexadecimal.D3
  | 52 => Some Hexadecimal.D4 | 53 => Some Hexadecimal.D5
  | 54 => Some Hexadecimal.D6 | 55 => Some Hexadecimal.D7
  | 56 => Some Hexadecimal.D8 | 57 => Some Hexadecimal.D9
  | 65 | 97 => Some Hexadecimal.Da | 66 | 98 => Some Hexadecimal.Db
  | 67 | 99 => Some Hexadecimal.Dc | 68 | 100 => Some Hexadecimal.Dd
  | 69 | 101 => Some Hexadecimal.De | 70 | 102 => Some Hexadecimal.Df
  | _ => None
  end%N.

Fixpoint hexDigits (s : string) : Hexadecimal.uint :=
  match s with
  | EmptyString => Hexadecimal.Nil
  | String c r =>
      match hexDigit c with
      | Some d => d (hexDigits r)
      | None => Hexadecimal.Nil
      end
  end.

(** A leading sign, then the text after it. *)
Definition signOf (s : string) : Z * string :=
  match s with
  | String c r =>
      if (code c =? 45)%N then ((-1)%Z, r)
      else if (code c =? 43)%N then (1%Z, r)
      else (1%Z, s)
  | EmptyString => (1%Z, s)
  end.

(** The text after a [0x] or [0X] prefix, when there is one. *)
Definition hexPrefix (s : string) : option string :=
  match s with
  | String c (String x r) =>
      if ((code c =? 48) && ((code x =? 120) || (code x =? 88)))%N
      then Some r else None
  | _ => None
  end.

Definition parseInt (text : string) : number :=
  let '(sign, body) := signOf (trimStart text) in
  match hexPrefix body with
  | Some digits =>
      match hexDigits digits with
      | Hexadecimal.Nil => NaN
      | d => Int (sign * Z.of_N (N.of_hex_uint d))
      end
  | None =>
      match decDigits body with
      | Decimal.Nil => NaN
      | d => Int (sign * Z.of_N (N.of_uint d))
      end
  end.

End Js.

Import Js.

(** ** Byte buffers: the text encodings the cursor helpers go through *)

Module Buffer.

Definition Buffer : Type := list ascii.

(** [Buffer.from(text)]: the UTF-8 bytes of the text. *)
Definition from (text : string) : Buffer := list_ascii_of_string text.

Definition alphabet : string :=
  "ABCDEFGHIJKLMNOPQRSTUVWXYZabcdefghijklmnopqrstuvwxyz0123456789+/".

Definition pad : ascii := "="%char.

Definition b64char (sextet : N) : ascii :=
  match String.get (N.to_nat sextet) alphabet with
  | Some c => c
  | None => pad
  end.

(** The four sextets of three bytes. *)
Definition sextet0 (a : N) : N := (a / 4)%N.
Definition sextet1 (a b : N) : N := ((a mod 4) * 16 + b / 16)%N.
Definition sextet2 (b c : N) : N := ((b mod 16) * 4 + c / 64)%N.
Definition sextet3 (c : N) : N := (c mod 64)%N.

(** [buf.toString('base64')]: padded standard base64. *)
Fixpoint toBase64 (buf : Buffer) : string :=
  match buf with
  | [] => ""
  | [a] =>
      String (b64char (sextet0 (code a)))
        (String (b64char (sextet1 (code a) 0%N)) "==")
  | [a; b] =>
      String (b64char (sextet0 (code a)))
        (String (b64char (sextet1 (code a) (code b)))
           (String (b64char (sextet2 (code b) 0%N)) "="))
  | a :: b :: c :: rest =>
      String (b64char (sextet0 (code a)))
        (String (b64char (sextet1 (code a) (code b)))
           (String (b64char (sextet2 (code b) (code c)))
              (String (b64char (sextet3 (code c))) (toBase64 rest))))
  end.

(** The value of a base64 character; the URL-safe [-] and [_] count as
    [+] and [/]. *)
Definition unbase64 (c : ascii) : option N :=
  let n := code c in
  (if (65 <=? n) && (n <=? 90) then Some (n - 65)
   else if (97 <=? n) && (n <=? 122) then Some (n - 71)
   else if (48 <=? n) && (n <=? 57) then Some (n + 4)
   else if (n =? 43) || (n =? 45) then Some 62
   else if (n =? 47) || (n =? 95) then Some 63
   else None)%N.

(** The sextets of a base64 text: characters outside the alphabet are
    skipped and the first [=] ends the data. *)
Fixpoint sextetsOf (text : string) : list N :=
  match text with
  | EmptyString => []
  | String c r =>
      if Ascii.eqb c pad then []
      else match unbase64 c with
           | Some n => n :: sextetsOf r
           | None => sextetsOf r
           end
  end.

Definition byte0 (s0 s1 : N) : ascii := ascii_of_N (s0 * 4 + s1 / 16)%N.
Definition byte1 (s1 s2 : N) : ascii := ascii_of_N ((s1 mod 16) * 16 + s2 / 4)%N.
Definition byte2 (s2 s3 : N) : ascii := ascii_of_N ((s2 mod 4) * 64 + s3)%N.

(** Four sextets give three bytes; a last group of three gives two
    bytes, of two gives one, and a lone sextet gives none. *)
Fixpoint bytesOf (sextets : list N) : Buffer :=
  match sextets with
  | s0 :: s1 :: s2 :: s3 :: rest =>
      byte0 s0 s1 :: byte1 s1 s2 :: byte2 s2 s3 :: bytesOf rest
  | [s0; s1; s2] => [byte0 s0 s1; byte1 s1 s2]
  | [s0; s1] => [byte0 s0 s1]
  | _ => []
  end.

(** [Buffer.from(text, 'base64')]: never throws. *)
Definition fromBase64 (text : string) : Buffer := bytesOf (sextetsOf text).

(** *** Decoding bytes as UTF-8, ill-formed parts replaced by U+FFFD *)

Definition replacement : Buffer :=
  [ascii_of_N 239; ascii_of_N 191; ascii_of_N 189].

Inductive lead : Type :=
| LeadAscii
| LeadMulti (needed : nat) (lower upper : N)
| LeadInvalid.

Definition leadOf (b : ascii) : lead :=
  let n := code b in
  (if n <=? 127 then LeadAscii
   else if (194 <=? n) && (n <=? 223) then LeadMulti 1 128 191
   else if (224 <=? n) && (n <=? 239) then
     LeadMulti 2 (if n =? 224 then 160 else 128) (if n =? 237 then 159 else 191)
   else if (240 <=? n) && (n <=? 244) then
     LeadMulti 3 (if n =? 240 then 144 else 128) (if n =? 244 then 143 else 191)
   else LeadInvalid)%N.

(** [needed] continuation bytes are still due, the next of them within
    [lower..upper]; [pending] is the sequence read so far. *)
Fixpoint utf8Go (buf : Buffer) (needed : nat) (lower upper : N)
    (pending : Buffer) : Buffer :=
  match buf with
  | [] => match needed with O => [] | S _ => replacement end
  | b :: rest =>
      let start (prefix : Buffer) :=
        match leadOf b with
        | LeadAscii => (prefix ++ b :: utf8Go rest O 128%N 191%N [])%list
        | LeadMulti n lo hi => (prefix ++ utf8Go rest n lo hi [b])%list
        | LeadInvalid => (prefix ++ replacement ++ utf8Go rest O 128%N 191%N [])%list
        end in
      match needed with
      | O => start []
      | S n =>
          if ((lower <=? code b) && (code b <=? upper))%N then
            match n with
            | O => (pending ++ b :: utf8Go rest O 128%N 191%N [])%list
            | S _ => utf8Go rest n 128%N 191%N (pending ++ [b])%list
            end
          else start replacement
      end
  end.

(** [buf.toString('utf-8')] *)
Definition toUtf8 (buf : Buffer) : string :=
  string_of_list_ascii (utf8Go buf O 128%N 191%N []).

(** Text of one-byte characters only. *)
Definition plain (text : string) : Prop :=
  Forall (fun c => (code c <= 127)%N) (list_ascii_of_string text).

End Buffer.

(** ** Schema validation (the parts of zod the schemas use) *)

Module Zod.

(** A raw input value, before validation. *)
Inductive value : Type :=
| VUndefined
| VNull
| VBool (b : bool)
| VNumber (z : Z)
| VString (s : string).

Definition typeName (v : value) : string :=
  match v with
  | VUndefined => "undefined"
  | VNull => "null"
  | VBool _ => "boolean"
  | VNumber _ => "number"
  | VString _ => "string"
  end.

(** Issue messages, the library's default texts. *)
Definition invalid_type (expected : string) (v : value) : string :=
  "Expected " ++ expected ++ ", received " ++ typeName v.
Definition too_small_positive : string := "Number must be greater than 0".
Definition too_big (maximum : Z) : string :=
  "Number must be less than or equal to " ++ toString (Int maximum).

(** The result of checking one field: the issues found, and the
    validated value. *)
Definition checked (A : Type) : Type := (list string * option A)%type.

(** [z.number().positive().max(maximum).optional()] *)
Definition positiveMaxOptional (maximum : Z) (v : value) : checked Z :=
  match v with
  | VUndefined => ([], None)
  | VNumber z =>
      ((if (0 <? z)%Z then [] else [too_small_positive])
         ++ (if (z <=? maximum)%Z then [] else [too_big maximum]),
       Some z)%list
  | _ => ([invalid_type "number" v], None)
  end.

(** [z.string().optional()] *)
Definition stringOptional (v : value) : checked string :=
  match v with
  | VUndefined => ([], None)
  | VString s => ([], Some s)
  | _ => ([invalid_type "string" v], None)
  end.

End Zod.

(** ** Authentication service: the bearer-token helpers *)

Module Auth.

Record JWTPayload : Type := {
  userId : string;
  email : string;
  isAdmin : bool;
  iat : option Z;
  exp : option Z;
}.

(** The token library: [verify token secret issuer audience] returns
    the payload or throws (malformed, expired, bad signature, wrong
    issuer or audience). *)
Record Jwt : Type := {
  verify : string -> string -> string -> string -> outcome JWTPayload;
}.

Record AuthService : Type := {
  jwtSecret : string;
  refreshSecret : string;
}.

Definition verifyAccessToken (jwt : Jwt) (this : AuthService)
    (token : string) : option JWTPayload :=
  match verify jwt token (jwtSecret this) "marketplace-api" "marketplace-client" with
  | Returns payload => Some payload
  | Throws _ => None
  end.

Definition extractTokenFromHeader (authHeader : option string) : option string :=
  match authHeader with
  | None => None
  | Some header =>
      if negb (truthy header) then None
      else
        let parts := split " " header in
        if negb (Nat.eqb (length parts) 2)
           || negb (String.eqb (nth 0 parts "") "Bearer")
        then None
        else
          let token := nth 1 parts "" in
          if truthy token then Some token else None
  end.

End Auth.

(** ** Request context and the authorization guards *)

Module Context.
Import Auth.

Record Request : Type := {
  authorization : option string;
  x_request_id : option string;
}.

Record GraphQLContext : Type := {
  req : Request;
  user : option JWTPayload;
  requestId : string;
}.

(** The credential part of [createContext]: the header is read, the
    token extracted and verified inside a [try]; anything thrown there
    is logged and leaves the user [null]. *)
Definition resolveUser (jwt : Jwt) (authService : AuthService)
    (request : Request) : outcome (option JWTPayload) :=
  let attempt : outcome (option JWTPayload) :=
    match authorization request with
    | Some authHeader =>
        if truthy authHeader then
          match extractTokenFromHeader (Some authHeader) with
          | Some token =>
              if truthy token
              then Returns (verifyAccessToken jwt authService token)
              else Returns None
          | None => Returns None
          end
        else Returns None
    | None => Returns None
    end in
  match attempt with
  | Returns u => Returns u
  | Throws _ => Returns None
  end.

(** [createContext]; [fresh] is the identifier generated when the
    request carries none. *)
Definition createContext (jwt : Jwt) (authService : AuthService)
    (fresh : string) (request : Request) : outcome GraphQLContext :=
  let requestId :=
    match x_request_id request with
    | Some id => if truthy id then id else fresh
    | None => fresh
    end in
  match resolveUser jwt authService request with
  | Returns u => Returns {| req := request; user := u; requestId := requestId |}
  | Throws e => Throws e
  end.

Definition requireAuth (context : GraphQLContext) : outcome JWTPayload :=
  match user context with
  | None => Throws (Error "Authentication required")
  | Some u => Returns u
  end.

Definition requireAdmin (context : GraphQLContext) : outcome JWTPayload :=
  match requireAuth context with
  | Throws e => Throws e
  | Returns u =>
      if negb (isAdmin u) then Throws (Error "Admin privileges required")
      else Returns u
  end.

Definition requireOwnership (context : GraphQLContext)
    (resourceUserId : string) : outcome JWTPayload :=
  match requireAuth context with
  | Throws e => Throws e
  | Returns u =>
      if negb (String.eqb (userId u) resourceUserId) && negb (isAdmin u)
      then Throws (Error "Access denied: insufficient permissions")
      else Returns u
  end.

End Context.

(** ** Entity stores (collaborators) *)

Module Dao.

(** Rows carry the key columns the pipeline looks at; [columns] holds
    the remaining ones. *)
Record User : Type := {
  user_id_ : string;
  user_columns : list (string * string);
}.
Record Product : Type := {
  product_id_ : string;
  product_seller_id : string;
  product_columns : list (string * string);
}.
Record Order : Type := {
  order_id_ : string;
  order_user_id : string;
  order_columns : list (string * string);
}.
Record OrderItem : Type := {
  item_id_ : string;
  item_order_id : string;
  item_columns : list (string * string);
}.
Record Review : Type := {
  review_id_ : string;
  review_product_id : string;
  review_user_id : string;
  review_columns : list (string * string);
}.
Record CartItem : Type := {
  cart_id_ : string;
  cart_user_id : string;
  cart_columns : list (string * string);
}.

(** The filters handed to the product search, already validated; the
    validation of the raw filter argument is the store module's. *)
Record FilterSchema : Type := {
  RawFilter : Type;
  Filters : Type;
  parseFilter : RawFilter -> list string + Filters;
}.

Record UserDAO : Type := {
  findUsersByIds : list string -> outcome (list User);
  findCartItemsByUsers : list string -> outcome (list CartItem);
}.

Record ProductDAO (F : FilterSchema) : Type := {
  findProductsByIds : list string -> outcome (list Product);
  findBySellers : list string -> outcome (list Product);
  findReviewsByProducts : list string -> outcome (list Review);
  (** [searchProducts(term, filters, {limit, offset})] *)
  searchProducts :
    string -> Filters F -> Z -> number -> outcome (list Product * Z);
}.
Arguments findProductsByIds {F} _ _.
Arguments findBySellers {F} _ _.
Arguments findReviewsByProducts {F} _ _.
Arguments searchProducts {F} _ _ _ _ _.

Record OrderDAO : Type := {
  findByUsers : list string -> outcome (list Order);
  findItemsByOrders : list string -> outcome (list OrderItem);
  (** [findByUser(userId, {limit, offset})] *)
  findByUser : string -> Z -> number -> outcome (list Order * Z);
}.

End Dao.

(** ** Batch loaders *)

Module Loaders.
Import Dao.

(** [keys.map(key => rows.find(row => column(row) === key) || null)]
    after the fetch. *)
Definition batchOne {Row : Type} (column : Row -> string)
    (fetch : list string -> outcome (list Row))
    (keys : list string) : outcome (list (option Row)) :=
  match fetch keys with
  | Throws e => Throws e
  | Returns rows =>
      Returns (map (fun key => find (fun row => String.eqb (column row) key) rows) keys)
  end.

(** [keys.map(key => rows.filter(row => column(row) === key))] after
    the fetch. *)
Definition batchMany {Row : Type} (column : Row -> string)
    (fetch : list string -> outcome (list Row))
    (keys : list string) : outcome (list (list Row)) :=
  match fetch keys with
  | Throws e => Throws e
  | Returns rows =>
      Returns (map (fun key => List.filter (fun row => String.eqb (column row) key) rows) keys)
  end.

(** The batch functions [createLoaders] hands to its seven loaders. *)
Record Loaders : Type := {
  userById : list string -> outcome (list (option User));
  productsByIds : list string -> outcome (list (option Product));
  productsBySeller : list string -> outcome (list (list Product));
  ordersByUser : list string -> outcome (list (list Order));
  orderItemsByOrder : list string -> outcome (list (list OrderItem));
  reviewsByProduct : list string -> outcome (list (list Review));
  cartItemsByUser : list string -> outcome (list (list CartItem));
}.

Definition createLoaders {F} (userDAO : UserDAO) (productDAO : ProductDAO F)
    (orderDAO : OrderDAO) : Loaders := {|
  userById := batchOne user_id_ (findUsersByIds userDAO);
  productsByIds := batchOne product_id_ (findProductsByIds productDAO);
  productsBySeller := batchMany product_seller_id (findBySellers productDAO);
  ordersByUser := batchMany order_user_id (findByUsers orderDAO);
  orderItemsByOrder := batchMany item_order_id (findItemsByOrders orderDAO);
  reviewsByProduct := batchMany review_product_id (findReviewsByProducts productDAO);
  cartItemsByUser := batchMany cart_user_id (findCartItemsByUsers userDAO);
|}.

(** What a one-to-one loader owes for [key]: the first fetched row
    whose column equals the key, [null] when there is none. *)
Definition answersOne {Row} (column : Row -> string) (rows : list Row)
    (key : string) (answer : option Row) : Prop :=
  answer = find (fun row => String.eqb (column row) key) rows /\
  match answer with
  | Some row => In row rows /\ column row = key
  | None => forall row, In row rows -> column row <> key
  end.

(** What a one-to-many loader owes for [key]: the fetched rows whose
    column equals the key, in the order fetched. *)
Definition answersMany {Row} (column : Row -> string) (rows : list Row)
    (key : string) (answer : list Row) : Prop :=
  answer = List.filter (fun row => String.eqb (column row) key) rows /\
  forall row, In row answer <-> In row rows /\ column row = key.

(** A batch function keeps the length and the order of its keys. *)
Definition keyed {Row Answer} (owes : list Row -> string -> Answer -> Prop)
    (fetch : list string -> outcome (list Row))
    (load : list string -> outcome (list Answer)) : Prop :=
  forall keys rows,
    fetch keys = Returns rows ->
    exists answers,
      load keys = Returns answers /\
      length answers = length keys /\
      forall (i : nat) key,
        keys !! i = Some key ->
        exists answer, answers !! i = Some answer /\ owes rows key answer.

End Loaders.

(** ** Cursor pager and the paginated resolvers *)

Module Pager.
Import Zod Auth Context Dao.

Definition encodeCursor (id : string) : string :=
  Buffer.toBase64 (Buffer.from id).

Definition decodeCursor (cursor : string) : string :=
  Buffer.toUtf8 (Buffer.fromBase64 cursor).

(** The raw [pagination] argument: an object with these four fields,
    each possibly [undefined]. *)
Record CursorInput : Type := {
  raw_first : value;
  raw_after : value;
  raw_last : value;
  raw_before : value;
}.

(** [pagination = {}] *)
Definition noPagination : CursorInput :=
  {| raw_first := VUndefined; raw_after := VUndefined;
     raw_last := VUndefined; raw_before := VUndefined |}.

Record Pagination : Type := {
  first : option Z;
  after : option string;
  last : option Z;
  before : option string;
}.

(** [CursorInputSchema.parse]: every field is checked, and the issues
    of all of them are thrown together. *)
Definition CursorInputSchema_parse (input : CursorInput) : outcome Pagination :=
  let '(i1, f) := positiveMaxOptional 100 (raw_first input) in
  let '(i2, a) := stringOptional (raw_after input) in
  let '(i3, l) := positiveMaxOptional 100 (raw_last input) in
  let '(i4, b) := stringOptional (raw_before input) in
  match (i1 ++ i2 ++ i3 ++ i4)%list with
  | [] => Returns {| first := f; after := a; last := l; before := b |}
  | issues => Throws (ZodError issues)
  end.

(** [a || b] on an optional number and a number. *)
Definition orNumber (a : option Z) (b : Z) : Z :=
  match a with
  | Some z => if (z =? 0)%Z then b else z
  | None => b
  end.

(** [Math.min(first || last || 20, 100)] *)
Definition limitOf (p : Pagination) : Z :=
  Z.min (orNumber (first p) (orNumber (last p) 20)) 100.

(** [after ? parseInt(decodeCursor(after)) : 0] *)
Definition offsetOf (p : Pagination) : number :=
  match after p with
  | Some cursor =>
      if truthy cursor then parseInt (decodeCursor cursor) else Int 0
  | None => Int 0
  end.

Record Edge (Node : Type) : Type := {
  node : Node;
  cursor : string;
}.
Arguments node {Node} _.
Arguments cursor {Node} _.

Record PageInfo : Type := {
  hasNextPage : bool;
  hasPreviousPage : bool;
  startCursor : option string;
  endCursor : option string;
}.

Record Connection (Node : Type) : Type := {
  edges : list (Edge Node);
  pageInfo : PageInfo;
  totalCount : Z;
}.
Arguments edges {Node} _.
Arguments pageInfo {Node} _.
Arguments totalCount {Node} _.

(** The edges, page info and envelope the three resolvers build, each
    with the same statements, from the rows fetched. *)
Definition makeEdges {Row Node} (transform : Row -> Node) (offset : number)
    (rows : list Row) : list (Edge Node) :=
  imap (fun index row =>
          {| node := transform row;
             cursor := encodeCursor (toString (add offset (Int (Z.of_nat index)))) |})
       rows.

Definition makeConnection {Row Node} (transform : Row -> Node)
    (limit : Z) (offset : number) (rows : list Row) (total : Z)
    : Connection Node :=
  let edges := makeEdges transform offset rows in
  let hasNextPage := lt (add offset (Int limit)) (Int total) in
  let hasPreviousPage := gt offset (Int 0) in
  let startCursor :=
    if (0 <? length edges)%nat then cursor <$> edges !! 0%nat else None in
  let endCursor :=
    if (0 <? length edges)%nat then cursor <$> edges !! (length edges - 1)%nat
    else None in
  {| edges := edges;
     pageInfo := {| hasNextPage := hasNextPage;
                    hasPreviousPage := hasPreviousPage;
                    startCursor := startCursor;
                    endCursor := endCursor |};
     totalCount := total |}.

(** The [catch] of the resolvers: a schema error is rethrown as a
    plain error listing the messages, anything else as it is. *)
Definition rethrow {A} (e : exn) : outcome A :=
  match e with
  | ZodError messages => Throws (Error ("Validation error: " ++ join ", " messages))
  | _ => Throws e
  end.

Definition guarded {A} (body : outcome A) : outcome A :=
  match body with
  | Returns a => Returns a
  | Throws e => rethrow e
  end.

(** What a resolver makes of the store's answer: the connection built
    from the rows, or the store's error rethrown. *)
Definition answer {Row N} (transform : Row -> N) (limit : Z) (offset : number)
    (fetched : outcome (list Row * Z)) : outcome (Connection N) :=
  match fetched with
  | Returns (rows, total) => Returns (makeConnection transform limit offset rows total)
  | Throws e => rethrow e
  end.

(** A raw limit the schema accepts: absent, or a number in [1..100]. *)
Definition acceptableLimit (v : value) : Prop :=
  v = VUndefined \/ exists z, v = VNumber z /\ (1 <= z <= 100)%Z.

(** A raw cursor the schema accepts: absent, or any text. *)
Definition acceptableCursor (v : value) : Prop :=
  v = VUndefined \/ exists s, v = VString s.

Definition numberOf (v : value) : option Z :=
  match v with VNumber z => Some z | _ => None end.

Definition textOf (v : value) : option string :=
  match v with VString s => Some s | _ => None end.

(** A pagination argument that carries an [after] cursor only. *)
Definition afterOnly (cursor : string) : CursorInput :=
  {| raw_first := VUndefined; raw_after := VString cursor;
     raw_last := VUndefined; raw_before := VUndefined |}.

Section Resolvers.
Context {F : FilterSchema} {Node OrderNode : Type}.
Variable productDAO : ProductDAO F.
Variable orderDAO : OrderDAO.
Variable transformProduct : Product -> Node.
Variable transformOrder : Order -> OrderNode.

Definition ProductFilterSchema_parse (filter : RawFilter F) : outcome (Filters F) :=
  match parseFilter F filter with
  | inl issues => Throws (ZodError issues)
  | inr f => Returns f
  end.

(** [products] and [searchProducts] differ in the search term only:
    the empty text for the first, [q] for the second. *)
Definition searchWith (term : string) (filter : RawFilter F)
    (pagination : CursorInput) : outcome (Connection Node) :=
  guarded
    match ProductFilterSchema_parse filter with
    | Throws e => Throws e
    | Returns validatedFilter =>
        match CursorInputSchema_parse pagination with
        | Throws e => Throws e
        | Returns validatedPagination =>
            let limit := limitOf validatedPagination in
            let offset := offsetOf validatedPagination in
            match Dao.searchProducts productDAO term validatedFilter limit offset with
            | Throws e => Throws e
            | Returns (products, total) =>
                Returns (makeConnection transformProduct limit offset products total)
            end
        end
    end.

Definition products (filter : RawFilter F) (pagination : CursorInput)
    (context : GraphQLContext) : outcome (Connection Node) :=
  searchWith "" filter pagination.

Definition searchProducts (q : string) (filter : RawFilter F)
    (pagination : CursorInput) (context : GraphQLContext)
    : outcome (Connection Node) :=
  searchWith q filter pagination.

Definition myOrders (pagination : CursorInput) (context : GraphQLContext)
    : outcome (Connection OrderNode) :=
  guarded
    match requireAuth context with
    | Throws e => Throws e
    | Returns user =>
        match CursorInputSchema_parse pagination with
        | Throws e => Throws e
        | Returns validatedPagination =>
            let limit := limitOf validatedPagination in
            let offset := offsetOf validatedPagination in
            match findByUser orderDAO (userId user) limit offset with
            | Throws e => Throws e
            | Returns (orders, total) =>
                Returns (makeConnection transformOrder limit offset orders total)
            end
        end
    end.

End Resolvers.

End Pager.

(** ** Response cache *)

Module Cache.

Section Service.
(** [W]: the key-value server and the connection to it. *)
Context {W : Type}.

Record RedisClient : Type := {
  client_get : string -> M W (option string);
  client_set : string -> string -> M W unit;
  client_setEx : string -> Z -> string -> M W unit;
  client_del : string -> M W Z;
  client_exists : string -> M W Z;
}.

Record CacheService : Type := {
  client : option RedisClient;
  isConnected : bool;
}.

(** [!this.client || !this.isConnected] *)
Definition unusable (this : CacheService) : bool :=
  match client this with
  | None => true
  | Some _ => negb (isConnected this)
  end.

Definition get (this : CacheService) (key : string) : M W (option string) :=
  match client this with
  | None => ret None
  | Some c =>
      if negb (isConnected this) then ret None
      else try_catch (client_get c key) (fun _ => ret None)
  end.

(** The client call [set] makes: [setEx] for a truthy lifetime,
    [set] otherwise. *)
Definition setCall (c : RedisClient) (key value : string)
    (ttlSeconds : option Z) : M W unit :=
  match ttlSeconds with
  | Some ttl =>
      if (ttl =? 0)%Z then client_set c key value
      else client_setEx c key ttl value
  | None => client_set c key value
  end.

Definition set (this : CacheService) (key value : string)
    (ttlSeconds : option Z) : M W bool :=
  match client this with
  | None => ret false
  | Some c =>
      if negb (isConnected this) then ret false
      else try_catch (bind (setCall c key value ttlSeconds) (fun _ => ret true))
                     (fun _ => ret false)
  end.

Definition del (this : CacheService) (key : string) : M W bool :=
  match client this with
  | None => ret false
  | Some c =>
      if negb (isConnected this) then ret false
      else try_catch (bind (client_del c key) (fun _ => ret true))
                     (fun _ => ret false)
  end.

Definition exists_ (this : CacheService) (key : string) : M W bool :=
  match client this with
  | None => ret false
  | Some c =>
      if negb (isConnected this) then ret false
      else try_catch (bind (client_exists c key)
                        (fun result => ret (result =? 1)%Z))
                     (fun _ => ret false)
  end.

Definition isHealthy (this : CacheService) : bool := isConnected this.

(** The situations the degraded mode covers: no client, a client
    that is not connected, or a client whose [call] throws. *)
Definition down {A} (this : CacheService) (call : RedisClient -> M W A)
    (w : W) : Prop :=
  unusable this = true \/
  exists c, client this = Some c /\ throwsAt (call c) w.

End Service.
Arguments RedisClient W : clear implicits.
Arguments CacheService W : clear implicits.

End Cache.

(** ** Persisted queries *)

Module PersistedQueries.
Import Cache.
Local Open Scope js_scope.

Record PersistedQuery : Type := {
  query : string;
  hash : string;
  addedAt : Z;
}.

(** The JSON codec, as used on [PersistedQuery] values. *)
Record Json : Type := {
  stringify : PersistedQuery -> string;
  parse : string -> outcome PersistedQuery;
}.

Record PersistedQueryStore : Type := {
  queries : gmap string PersistedQuery;
  useRedis : bool;
}.

Section Store.
Context {W : Type}.
Variable JSON : Json.
Variable cacheService : CacheService W.
(** The time [new Date()] reads. *)
Variable now : Z.

(** The state the store's methods run in: the store object and the
    key-value server. *)
Definition St : Type := (PersistedQueryStore * W)%type.

Definition onServer {A} (m : M W A) : M St A :=
  fun '(store, w) =>
    let '(r, w') := m w in (r, (store, w')).

Definition setQueries (f : gmap string PersistedQuery -> gmap string PersistedQuery)
    : M St unit :=
  fun '(store, w) =>
    (Returns tt, ({| queries := f (queries store); useRedis := useRedis store |}, w)).

Definition this : M St PersistedQueryStore :=
  fun '(store, w) => (Returns store, (store, w)).

Definition key_of (h : string) : string := "persisted_query:" ++ h.

Definition addQuery (h q : string) : M St unit :=
  let persistedQuery := {| query := q; hash := h; addedAt := now |} in
  setQueries (insert h persistedQuery) ;;;
  store <- this ;;
  if useRedis store then
    try_catch
      (onServer (set cacheService (key_of h) (stringify JSON persistedQuery) (Some 86400%Z)) ;;;
       ret tt)
      (fun _ => ret tt)
  else ret tt.

Definition getQuery (h : string) : M St (option string) :=
  store <- this ;;
  match queries store !! h with
  | Some memoryQuery => ret (Some (query memoryQuery))
  | None =>
      found <-
        (if useRedis store then
           try_catch
             (cachedQuery <- onServer (get cacheService (key_of h)) ;;
              if truthy_opt cachedQuery then
                match parse JSON (default "" cachedQuery) with
                | Throws e => throw e
                | Returns persistedQuery =>
                    setQueries (insert h persistedQuery) ;;;
                    ret (Some (query persistedQuery))
                end
              else ret None)
             (fun _ => ret None)
         else ret None) ;;
      ret found
  end.

Definition removeQuery (h : string) : M St unit :=
  setQueries (delete h) ;;;
  store <- this ;;
  if useRedis store then
    try_catch (onServer (del cacheService (key_of h)) ;;; ret tt)
              (fun _ => ret tt)
  else ret tt.

(** The request, as far as [handleRequest] reads it: [query] and
    [extensions?.persistedQuery?.sha256Hash]. *)
Record Request : Type := {
  request_query : option string;
  sha256Hash : option string;
}.

Record Handled : Type := {
  handled_query : option string;
  handled_hash : option string;
}.

Definition notFound (h : string) : exn :=
  Error ("Persisted query not found: " ++ h).

Definition handleRequest (request : Request) : M St Handled :=
  (* Check if this is a persisted query request *)
  if truthy_opt (sha256Hash request) then
    let h := default "" (sha256Hash request) in
    persistedQuery <- getQuery h ;;
    if truthy_opt persistedQuery then
      ret {| handled_query := persistedQuery; handled_hash := None |}
    else
      (* Query not found, return error *)
      throw (notFound h)
  else
  (* Regular query with hash *)
  if truthy_opt (request_query request) && truthy_opt (sha256Hash request) then
    let h := default "" (sha256Hash request) in
    addQuery h (default "" (request_query request)) ;;;
    ret {| handled_query := request_query request; handled_hash := Some h |}
  else
  (* Regular query without hash *)
  ret {| handled_query := request_query request; handled_hash := None |}.

Definition registerQuery (q h : string) : M St unit := addQuery h q.

End Store.

End PersistedQueries.

(** ** Sample data for the examples *)

Module Samples.
Import Auth Context Cache PersistedQueries.

Definition identity (subject : string) (privileged : bool) : JWTPayload :=
  {| userId := subject; email := "u@example.org"; isAdmin := privileged;
     iat := None; exp := None |}.

Definition contextOf (u : option JWTPayload) : GraphQLContext :=
  {| req := {| authorization := None; x_request_id := None |};
     user := u; requestId := "req_1" |}.

(** A cache service with no client behind it. *)
Definition offlineCache : CacheService unit :=
  {| client := None; isConnected := false |}.

(** A codec that writes the query text and reads nothing back. *)
Definition textJson : Json :=
  {| stringify := query; parse := fun _ => Throws (Foreign "SyntaxError") |}.

(** A fresh store, shared tier off. *)
Definition freshStore : PersistedQueryStore :=
  {| queries := ∅; useRedis := false |}.

(** A request carrying a hash together with the full query body. *)
Definition hashAndBody : PersistedQueries.Request :=
  {| request_query := Some "query { products { totalCount } }";
     sha256Hash := Some "9f86d081884c7d65" |}.

(** A product store with twenty-five products and no filters. The
    search returns the window asked for, a negative offset counting as
    zero, and refuses an offset that is not a number. *)
Definition noFilter : Dao.FilterSchema :=
  {| Dao.RawFilter := unit; Dao.Filters := unit; Dao.parseFilter := fun _ => inr tt |}.

Definition productNo (i : nat) : Dao.Product :=
  {| Dao.product_id_ := "p" ++ toString (Int (Z.of_nat i));
     Dao.product_seller_id := "s1";
     Dao.product_columns := [] |}.

Definition catalog : list Dao.Product := map productNo (seq 0 25).

Definition window {A} (limit : Z) (offset : number) (all : list A)
    : outcome (list A * Z) :=
  match offset with
  | Int o => Returns (take (Z.to_nat limit) (drop (Z.to_nat o) all),
                      Z.of_nat (length all))
  | NaN => Throws (Foreign "offset is not a number")
  end.

Definition shelf : Dao.ProductDAO noFilter :=
  {| Dao.findProductsByIds := fun _ => Returns catalog;
     Dao.findBySellers := fun _ => Returns catalog;
     Dao.findReviewsByProducts := fun _ => Returns [];
     Dao.searchProducts := fun _ _ limit offset => window limit offset catalog |}.

Definition orderNo (i : nat) : Dao.Order :=
  {| Dao.order_id_ := "o" ++ toString (Int (Z.of_nat i));
     Dao.order_user_id := "u1";
     Dao.order_columns := [] |}.

Definition ledger : Dao.OrderDAO :=
  {| Dao.findByUsers := fun _ => Returns (map orderNo (seq 0 3));
     Dao.findItemsByOrders := fun _ => Returns [];
     Dao.findByUser := fun _ limit offset => window limit offset (map orderNo (seq 0 3)) |}.

Definition anonymous : GraphQLContext := contextOf None.
Definition buyer : GraphQLContext := contextOf (Some (identity "u1" false)).

Definition firstOnly (n : Z) : Pager.CursorInput :=
  {| Pager.raw_first := Zod.VNumber n; Pager.raw_after := Zod.VUndefined;
     Pager.raw_last := Zod.VUndefined; Pager.raw_before := Zod.VUndefined |}.

Definition page (n : Z) (cursor : string) : Pager.CursorInput :=
  {| Pager.raw_first := Zod.VNumber n; Pager.raw_after := Zod.VString cursor;
     Pager.raw_last := Zod.VUndefined; Pager.raw_before := Zod.VUndefined |}.

End Samples.

(** ** Persisted queries: the store's counters *)

Module StoreStats.
Import PersistedQueries.

Record Stats : Type := {
  totalQueries : nat;
  memoryQueries : nat;
}.

Definition getStats (store : PersistedQueryStore) : Stats :=
  {| totalQueries := size (queries store);
     memoryQueries := size (queries store) |}.

End StoreStats.

(** ** More sample data *)

Module MoreSamples.
Import Cache PersistedQueries.

(** A key-value server held in memory, and a client for it. *)
Definition memoryClient : RedisClient (gmap string string) :=
  {| client_get := fun key w => (Returns (w !! key), w);
     client_set := fun key value w => (Returns tt, <[key := value]> w);
     client_setEx := fun key _ value w => (Returns tt, <[key := value]> w);
     client_del := fun key w =>
       (Returns (match w !! key with Some _ => 1%Z | None => 0%Z end), delete key w);
     client_exists := fun key w =>
       (Returns (match w !! key with Some _ => 1%Z | None => 0%Z end), w) |}.

Definition onlineCache : CacheService (gmap string string) :=
  {| client := Some memoryClient; isConnected := true |}.

(** A codec that writes the query text and reads it back. *)
Definition queryJson : Json :=
  {| stringify := query;
     parse := fun text => Returns {| query := text; hash := ""; addedAt := 0 |} |}.

(** A fresh store with the shared tier on. *)
Definition sharedStore : PersistedQueryStore :=
  {| queries := ∅; useRedis := true |}.

End MoreSamples.

(** ** Response cache: connection handling, pattern deletion, key names *)

Module CacheAdmin.
Import Cache.

(** What the client emits while it connects or runs. *)
Inductive Event : Type :=
| OnError
| OnConnect
| OnDisconnect.

(** The handlers [connect] registers: each event sets the flag. *)
Definition handle (connected : bool) (e : Event) : bool :=
  match e with
  | OnError => false
  | OnConnect => true
  | OnDisconnect => false
  end.

Section Service.
Context {W : Type}.

(** A client with all the methods the service calls: the four of
    [RedisClient], and [keys], [del] on a list of keys, [connect] (which
    returns the events emitted on the way) and [disconnect]. *)
Record FullClient : Type := {
  core : RedisClient W;
  client_keys : string -> M W (list string);
  client_delKeys : list string -> M W Z;
  client_connect : M W (list Event);
  client_disconnect : M W unit;
}.

(** The service object: [client] and [isConnected]. *)
Record FullService : Type := {
  fclient : option FullClient;
  fconnected : bool;
}.

(** The service as [get], [set], [del] and [exists] see it. *)
Definition service (this : FullService) : CacheService W :=
  {| client := core <$> fclient this; isConnected := fconnected this |}.

(** The stand-in client of the mock mode. *)
Definition mockClient : FullClient :=
  {| core := {| client_get := fun _ => ret None;
                client_set := fun _ _ => ret tt;
                client_setEx := fun _ _ _ => ret tt;
                client_del := fun _ => ret 1%Z;
                client_exists := fun _ => ret 0%Z |};
     client_keys := fun _ => ret [];
     client_delKeys := fun _ => ret 1%Z;
     client_connect := ret [];
     client_disconnect := ret tt |}.

(** [connect]; [createClient] is the library's constructor. The state
    is the service object and the server. *)
Definition connect (createClient : outcome FullClient)
    : M (FullService * W) unit :=
  fun '(this, w) =>
    match createClient with
    | Throws _ =>
        (Returns tt, ({| fclient := Some mockClient; fconnected := true |}, w))
    | Returns c =>
        match client_connect c w with
        | (Returns events, w') =>
            (Returns tt,
             ({| fclient := Some c;
                 fconnected := fold_left handle events (fconnected this) |}, w'))
        | (Throws _, w') =>
            (Returns tt, ({| fclient := Some mockClient; fconnected := true |}, w'))
        end
    end.

(** The connection attempt failed: the constructor threw, or the
    client's [connect] did. *)
Definition connectFails (createClient : outcome FullClient) (w : W) : Prop :=
  match createClient with
  | Throws _ => True
  | Returns c => returns (fst (client_connect c w)) = false
  end.

Definition disconnect : M (FullService * W) unit :=
  fun '(this, w) =>
    match fclient this with
    | Some c =>
        if fconnected this then
          match client_disconnect c w with
          | (Returns _, w') =>
              (Returns tt, ({| fclient := Some c; fconnected := false |}, w'))
          | (Throws e, w') => (Throws e, (this, w'))
          end
        else (Returns tt, (this, w))
    | None => (Returns tt, (this, w))
    end.

Definition delPattern (this : FullService) (pattern : string) : M W bool :=
  match fclient this with
  | None => ret false
  | Some c =>
      if negb (fconnected this) then ret false
      else
        try_catch
          (bind (client_keys c pattern)
             (fun keys =>
                if (0 <? length keys)%nat
                then bind (client_delKeys c keys) (fun _ => ret true)
                else ret true))
          (fun _ => ret false)
  end.

End Service.
Arguments FullClient W : clear implicits.
Arguments FullService W : clear implicits.

(** *** Cache key generators *)

Definition userKey (id : string) : string := "user:" ++ id.
Definition productKey (id : string) : string := "product:" ++ id.
Definition productsKey (filter : string) : string := "products:" ++ filter.
Definition orderKey (id : string) : string := "order:" ++ id.
Definition cartKey (userId : string) : string := "cart:" ++ userId.
Definition searchKey (query filters : string) : string :=
  "search:" ++ query ++ ":" ++ filters.

End CacheAdmin.

(** ** Authentication service: refresh tokens and session identifiers *)

Module AuthMore.
Import Auth.

Record RefreshTokenPayload : Type := {
  refresh_userId : string;
  sessionId : string;
  refresh_iat : option Z;
  refresh_exp : option Z;
}.

(** The token library, verifying a refresh token. *)
Record JwtRefresh : Type := {
  verifyRefresh : string -> string -> string -> string -> outcome RefreshTokenPayload;
}.

Definition verifyRefreshToken (jwt : JwtRefresh) (this : AuthService)
    (token : string) : option RefreshTokenPayload :=
  match verifyRefresh jwt token (refreshSecret this) "marketplace-api" "marketplace-client" with
  | Returns payload => Some payload
  | Throws _ => None
  end.

Definition chars : string :=
  "ABCDEFGHIJKLMNOPQRSTUVWXYZabcdefghijklmnopqrstuvwxyz0123456789".

(** [text.charAt(index)]: the empty text out of range. *)
Definition charAt (text : string) (index : Z) : string :=
  if (index <? 0)%Z then ""
  else match String.get (Z.to_nat index) text with
       | Some c => String c ""
       | None => ""
       end.

(** The loop of [generateSessionId], [count] rounds from round [i] on;
    [draw i] is the value of [Math.floor(Math.random() * chars.length)]
    in round [i]. *)
Fixpoint sessionIdFrom (draw : nat -> Z) (count i : nat) (result : string) : string :=
  match count with
  | O => result
  | S count' => sessionIdFrom draw count' (S i) (result ++ charAt chars (draw i))
  end.

Definition generateSessionId (draw : nat -> Z) : string :=
  sessionIdFrom draw 32 0 "".

(** Text without a space. *)
Definition spaceFree (text : string) : Prop :=
  ~ In " "%char (list_ascii_of_string text).

(** Text made of the characters of [chars] only. *)
Definition alphanumeric (text : string) : Prop :=
  Forall (fun c => In c (list_ascii_of_string chars)) (list_ascii_of_string text).

End AuthMore.

(** ** Query shape guard: the custom validation rules *)

Module ValidationRules.

(** The cost of one field, by its name. *)
Definition weight (name : string) : Z :=
  if String.eqb name "products" || String.eqb name "searchProducts" then 10
  else if String.eqb name "reviews" || String.eqb name "orderItems" then 5
  else 1.

Definition maxComplexity : Z := 1000.

Definition tooComplex (complexity : Z) : exn :=
  Error ("Query complexity " ++ toString (Int complexity)
         ++ " exceeds maximum allowed complexity of " ++ toString (Int maxComplexity)).

(** The [Field] visitor of [queryComplexityRule]; the state is the
    counter [complexity] of the rule instance. *)
Definition Field (name : string) : M Z unit :=
  fun complexity =>
    let complexity := (complexity + weight name)%Z in
    if (complexity >? maxComplexity)%Z
    then (Throws (tooComplex complexity), complexity)
    else (Returns tt, complexity).

(** The visitor applied to the fields of a document, in document
    order: a throw ends the traversal. *)
Fixpoint visitFields (names : list string) : M Z unit :=
  match names with
  | [] => ret tt
  | name :: rest => bind (Field name) (fun _ => visitFields rest)
  end.

(** One validation of a document: the counter starts at 0. *)
Definition queryComplexityRule (names : list string) : outcome unit * Z :=
  visitFields names 0%Z.

(** [noIntrospectionRule]'s visitor; [production] tells whether
    [NODE_ENV] is [production]. *)
Definition noIntrospectionField (production : bool) (name : string) : outcome unit :=
  if String.eqb name "__schema" || String.eqb name "__type" then
    if production then Throws (Error "Introspection is disabled in production")
    else Returns tt
  else Returns tt.

(** The total cost of the fields. *)
Definition totalWeight (names : list string) : Z :=
  fold_right Z.add 0%Z (map weight names).

End ValidationRules.

(** ** Database service and SQL helpers *)

Module Database.

(** *** Escaping *)

Definition quote : ascii := "'"%char.

(** [str.replace(/'/g, "''")] *)
Fixpoint doubleQuotes (str : string) : string :=
  match str with
  | EmptyString => EmptyString
  | String c rest =>
      if Ascii.eqb c quote then String quote (String quote (doubleQuotes rest))
      else String c (doubleQuotes rest)
  end.

Definition escapeString (str : string) : string :=
  if negb (truthy str) then "" else doubleQuotes str.

(** The text a SQL string literal with this body denotes: two quotes
    stand for one, a single quote would end the literal. *)
Fixpoint literalValue (body : string) : option string :=
  match body with
  | EmptyString => Some EmptyString
  | String c rest =>
      if Ascii.eqb c quote then
        match rest with
        | String c' rest' =>
            if Ascii.eqb c' quote then String quote <$> literalValue rest' else None
        | EmptyString => None
        end
      else String c <$> literalValue rest
  end.

(** *** Dynamic WHERE clauses *)

(** A value handed over as a bind. *)
Inductive bindValue : Type :=
| BNull
| BUndefined
| BBool (b : bool)
| BNumber (z : Z)
| BString (s : string)
| BArray (items : list bindValue).

(** [value !== null && value !== undefined] *)
Definition present (value : bindValue) : bool :=
  match value with
  | BNull | BUndefined => false
  | _ => true
  end.

(** [text.includes('%')] *)
Definition includesPercent (text : string) : bool :=
  existsb (Ascii.eqb "%"%char) (list_ascii_of_string text).

(** The condition pushed for a key and its value. *)
Definition condition (key : string) (value : bindValue) : string :=
  match value with
  | BArray _ => key ++ " IN (:" ++ key ++ ")"
  | BString s =>
      if includesPercent s then key ++ " LIKE :" ++ key
      else key ++ " = :" ++ key
  | _ => key ++ " = :" ++ key
  end.

Record Where : Type := {
  whereClause : string;
  binds : gmap string bindValue;
}.

(** [object[key] = value] on a plain object, seen through the
    properties of its own: the key [__proto__] names the accessor that
    [Object.prototype] hands down, so assigning to it gives the object
    no property; every other key gets the value. *)
Definition setProperty (key : string) (value : bindValue)
    (object : gmap string bindValue) : gmap string bindValue :=
  if String.eqb key "__proto__" then object else <[key := value]> object.

(** One round of the loop over [Object.entries(filters)]. *)
Definition whereStep (acc : list string * gmap string bindValue)
    (entry : string * bindValue) : list string * gmap string bindValue :=
  let '(conditions, binds) := acc in
  let '(key, value) := entry in
  if present value
  then ((conditions ++ [condition key value])%list, setProperty key value binds)
  else (conditions, binds).

Definition buildWhereClause (filters : list (string * bindValue)) : Where :=
  let '(conditions, binds) := fold_left whereStep filters ([], ∅) in
  {| whereClause :=
       if (0 <? length conditions)%nat then "WHERE " ++ join " AND " conditions else "";
     binds := binds |}.

(** The kind of condition a value asks for, its content left out. *)
Inductive shape : Type := Absent | AsList | AsPattern | AsValue.

Definition shapeOf (value : bindValue) : shape :=
  match value with
  | BNull | BUndefined => Absent
  | BArray _ => AsList
  | BString s => if includesPercent s then AsPattern else AsValue
  | _ => AsValue
  end.

(** *** The service *)

Section Service.
Context {W : Type}.

Definition Binds : Type := list (string * bindValue).

Record Result (Row : Type) : Type := {
  rows : option (list Row);
  rowsAffected : option Z;
}.
Arguments rows {Row} _.
Arguments rowsAffected {Row} _.

Record Connection : Type := {
  execute : forall Row : Type, string -> Binds -> M W (Result Row);
  close : M W unit;
}.

Record Pool : Type := {
  pool_getConnection : M W Connection;
  pool_close : M W unit;
}.

Record DatabaseService : Type := {
  pool : option Pool;
}.

(** [try { body } finally { last }] *)
Definition finally_ {A} (body : M W A) (last : M W unit) : M W A :=
  fun w =>
    let '(o, w1) := body w in
    match last w1 with
    | (Returns _, w2) => (o, w2)
    | (Throws e, w2) => (Throws e, w2)
    end.

(** The stand-in pool of the mock mode. *)
Definition mockConnection : Connection :=
  {| execute := fun Row _ _ => ret {| rows := Some []; rowsAffected := Some 0%Z |};
     close := ret tt |}.

Definition mockPool : Pool :=
  {| pool_getConnection := ret mockConnection; pool_close := ret tt |}.

(** [connect]; [createPool] is the driver's constructor. *)
Definition connect (createPool : M W Pool) : M W DatabaseService :=
  try_catch (bind createPool (fun p => ret {| pool := Some p |}))
            (fun _ => ret {| pool := Some mockPool |}).

(** [disconnect]: the pool is closed, and kept. *)
Definition disconnect (this : DatabaseService) : M W DatabaseService :=
  match pool this with
  | Some p => bind (try_catch (pool_close p) (fun _ => ret tt)) (fun _ => ret this)
  | None => ret this
  end.

Definition notInitialized : exn := Error "Database pool not initialized".

Definition getConnection (this : DatabaseService) : M W Connection :=
  match pool this with
  | None => throw notInitialized
  | Some p => try_catch (pool_getConnection p) (fun error => throw error)
  end.

Definition executeQuery (this : DatabaseService) (Row : Type) (sql : string)
    (binds : Binds) : M W (Result Row) :=
  bind (getConnection this)
    (fun connection =>
       finally_
         (try_catch (execute connection Row sql binds) (fun error => throw error))
         (close connection)).

Definition executeProcedure (this : DatabaseService) (Row : Type)
    (procedureName : string) (binds : bindValue) : M W (Result Row) :=
  bind (getConnection this)
    (fun connection =>
       finally_
         (try_catch
            (execute connection Row ("BEGIN " ++ procedureName ++ "(:binds); END;")
               [("binds", binds)])
            (fun error => throw error))
         (close connection)).

Definition executeTransaction {T} (this : DatabaseService)
    (callback : Connection -> M W T) : M W T :=
  bind (getConnection this)
    (fun connection =>
       finally_
         (try_catch
            (bind (execute connection unit "BEGIN" [])
               (fun _ =>
                  bind (callback connection)
                    (fun result =>
                       bind (execute connection unit "COMMIT" [])
                         (fun _ => ret result))))
            (fun error =>
               bind (execute connection unit "ROLLBACK" [])
                 (fun _ => throw error)))
         (close connection)).

Definition isHealthy (this : DatabaseService) : bool :=
  match pool this with Some _ => true | None => false end.

End Service.
Arguments Connection W : clear implicits.
Arguments Pool W : clear implicits.
Arguments DatabaseService W : clear implicits.
Arguments rows {Row} _.
Arguments rowsAffected {Row} _.

End Database.

(** ** A connection that keeps a log, for the examples *)

Module LogSamples.
Import Database.

(** The world is the log of what reached the database, latest last. *)
Definition logConnection : Connection (list string) :=
  {| execute := fun Row sql _ log =>
       (Returns {| rows := Some []; rowsAffected := Some 0%Z |}, (log ++ [sql])%list);
     close := fun log => (Returns tt, (log ++ ["close"])%list) |}.

Definition logPool : Pool (list string) :=
  {| pool_getConnection := fun log => (Returns logConnection, (log ++ ["open"])%list);
     pool_close := ret tt |}.

Definition logService : DatabaseService (list string) := {| pool := Some logPool |}.

(** A callback that inserts one row, and one that fails after it. *)
Definition insertOne (connection : Connection (list string)) : M (list string) Z :=
  bind (execute connection unit "INSERT" []) (fun _ => ret 1%Z).

Definition insertThenFail (connection : Connection (list string)) : M (list string) Z :=
  bind (execute connection unit "INSERT" []) (fun _ => throw (Error "out of stock")).

End LogSamples.

(** ** The user store's queries *)

Module UserDao.
Import Database Dao.

(** [result.rows?.[0] || null] *)
Definition firstRow {Row} (result : Result Row) : option Row :=
  match rows result with
  | Some (row :: _) => Some row
  | _ => None
  end.

(** [result.rows || []] *)
Definition allRows {Row} (result : Result Row) : list Row :=
  default [] (rows result).

(** [{ ...object, key: value }] *)
Fixpoint assign (key : string) (value : bindValue) (object : Binds) : Binds :=
  match object with
  | [] => [(key, value)]
  | (k, v) :: rest =>
      if String.eqb k key then (k, value) :: rest
      else (k, v) :: assign key value rest
  end.

Definition newline : string := String (ascii_of_N 10) "".

Section Dao.
Context {W : Type}.
Variable databaseService : DatabaseService W.

Definition findById (id : string) : M W (option User) :=
  try_catch
    (bind (executeQuery databaseService User
             "SELECT * FROM users WHERE id = :id" [("id", BString id)])
       (fun result => ret (firstRow result)))
    (fun error => throw error).

Definition findByIds (ids : list string) : M W (list User) :=
  if (length ids =? 0)%nat then ret []
  else
    try_catch
      (bind (executeQuery databaseService User
               "SELECT * FROM users WHERE id IN (:ids)"
               [("ids", BArray (map BString ids))])
         (fun result => ret (allRows result)))
      (fun error => throw error).

Definition findCartItemsByUsers (userIds : list string) : M W (list CartItem) :=
  if (length userIds =? 0)%nat then ret []
  else
    try_catch
      (bind (executeQuery databaseService CartItem
               "SELECT * FROM cart_items WHERE user_id IN (:userIds) ORDER BY created_at DESC"
               [("userIds", BArray (map BString userIds))])
         (fun result => ret (allRows result)))
      (fun error => throw error).

(** The SET list of an update: [key = :key] for every field. *)
Definition setClauseOf (updates : Binds) : string :=
  join ", " (map (fun key => key ++ " = :" ++ key) (map fst updates)).

Definition updateSql (setClause : string) : string :=
  "UPDATE users SET " ++ setClause ++ ", updated_at = CURRENT_TIMESTAMP "
    ++ newline ++ "         WHERE id = :id RETURNING *".

Definition update (id : string) (updates : Binds) : M W (option User) :=
  try_catch
    (let setClause := setClauseOf updates in
     if negb (truthy setClause) then findById id
     else
       bind (executeQuery databaseService User (updateSql setClause)
               (assign "id" (BString id) updates))
         (fun result => ret (firstRow result)))
    (fun error => throw error).

Definition removeFromCart (cartItemId : string) : M W bool :=
  try_catch
    (bind (executeQuery databaseService unit
             "DELETE FROM cart_items WHERE id = :cartItemId"
             [("cartItemId", BString cartItemId)])
       (fun result => ret (default 0 (rowsAffected result) >? 0)%Z))
    (fun error => throw error).

End Dao.

End UserDao.

(** ** Resolvers that check who is asking *)

Module Resolvers.
Import Auth Context Dao.

(** A column of a row, by name; the empty text when the row lacks it. *)
Definition column (name : string) (columns : list (string * string)) : string :=
  match find (fun '(k, _) => String.eqb k name) columns with
  | Some (_, v) => v
  | None => ""
  end.

(** [order.status] *)
Definition statusOf (order : Order) : string := column "status" (order_columns order).

Definition validStatuses : list string :=
  ["pending"; "confirmed"; "shipped"; "delivered"; "cancelled"].

(** [array.includes(text)] *)
Definition includes (array : list string) (text : string) : bool :=
  existsb (String.eqb text) array.

Section Stores.
Context {W : Type}.

(** The store calls the resolvers below make; [W] is the database. *)
Record ProductStore : Type := {
  productFindById : string -> M W (option Product);
  productDelete : string -> M W bool;
}.

Record OrderStore : Type := {
  orderFindById : string -> M W (option Order);
  orderUpdate : string -> list (string * string) -> M W (option Order);
}.

Record CartStore : Type := {
  cartRemove : string -> M W bool;
}.

Context {OrderNode : Type}.
Variable productDAO : ProductStore.
Variable orderDAO : OrderStore.
Variable userDAO : CartStore.
Variable transformOrder : Order -> OrderNode.
(** [text.toLowerCase()] *)
Variable toLowerCase : string -> string.

(** Lifting a guard, which only reads the context. *)
Definition check {A} (o : outcome A) : M W A :=
  match o with
  | Returns a => ret a
  | Throws e => throw e
  end.

Definition deleteProduct (id : string) (context : GraphQLContext) : M W bool :=
  try_catch
    (bind (check (requireAuth context))
       (fun user =>
          bind (productFindById productDAO id)
            (fun existingProduct =>
               match existingProduct with
               | None => throw (Error "Product not found")
               | Some product =>
                   bind (check (requireOwnership context (product_seller_id product)))
                     (fun _ => productDelete productDAO id)
               end)))
    (fun error => throw error).

Definition orderQuery (id : string) (context : GraphQLContext)
    : M W (option OrderNode) :=
  try_catch
    (bind (orderFindById orderDAO id)
       (fun order =>
          match order with
          | None => ret None
          | Some order =>
              bind (check (requireOwnership context (order_user_id order)))
                (fun _ => ret (Some (transformOrder order)))
          end))
    (fun error => throw error).

Definition cancelOrder (id : string) (context : GraphQLContext) : M W OrderNode :=
  try_catch
    (bind (check (requireAuth context))
       (fun user =>
          bind (orderFindById orderDAO id)
            (fun order =>
               match order with
               | None => throw (Error "Order not found")
               | Some order =>
                   bind (check (requireOwnership context (order_user_id order)))
                     (fun _ =>
                        if String.eqb (statusOf order) "cancelled"
                        then throw (Error "Order is already cancelled")
                        else if String.eqb (statusOf order) "delivered"
                        then throw (Error "Cannot cancel delivered order")
                        else
                          bind (orderUpdate orderDAO id [("status", "cancelled")])
                            (fun updatedOrder =>
                               match updatedOrder with
                               | None => throw (Error "Failed to cancel order")
                               | Some updated => ret (transformOrder updated)
                               end))
               end)))
    (fun error => throw error).

Definition updateOrderStatus (id status : string) (context : GraphQLContext)
    : M W OrderNode :=
  try_catch
    (bind (check (requireAuth context))
       (fun user =>
          bind (orderFindById orderDAO id)
            (fun order =>
               match order with
               | None => throw (Error "Order not found")
               | Some order =>
                   if negb (isAdmin user)
                      && negb (String.eqb (order_user_id order) (userId user))
                   then throw (Error "Access denied")
                   else if negb (includes validStatuses (toLowerCase status))
                   then throw (Error "Invalid order status")
                   else
                     bind (orderUpdate orderDAO id [("status", toLowerCase status)])
                       (fun updatedOrder =>
                          match updatedOrder with
                          | None => throw (Error "Failed to update order status")
                          | Some updated => ret (transformOrder updated)
                          end)
               end)))
    (fun error => throw error).

Definition removeFromCart (cartItemId : string) (context : GraphQLContext)
    : M W bool :=
  try_catch
    (bind (check (requireAuth context))
       (fun user =>
          bind (cartRemove userDAO cartItemId)
            (fun success =>
               if negb success then throw (Error "Cart item not found")
               else ret true)))
    (fun error => throw error).

End Stores.
Arguments ProductStore W : clear implicits.
Arguments OrderStore W : clear implicits.
Arguments CartStore W : clear implicits.

(** The identity may act on what [owner] owns: it is the owner or it is
    privileged. *)
Definition mayActFor (u : JWTPayload) (owner : string) : Prop :=
  userId u = owner \/ isAdmin u = true.

End Resolvers.

(** ** Pagination arguments that ask for a backward page *)

Module Paging.
Import Zod Pager.

(** The argument with [last] moved into [first] and [before] dropped. *)
Definition forward (input : CursorInput) : CursorInput :=
  {| raw_first := raw_last input; raw_after := raw_after input;
     raw_last := VUndefined; raw_before := VUndefined |}.

End Paging.

(** ** An order store in memory *)

Module ResolverSamples.
Import Dao Resolvers.

Definition orderWith (id owner status : string) : Order :=
  {| order_id_ := id; order_user_id := owner;
     order_columns := [("status", status)] |}.

(** The row with the columns given written over the old ones. *)
Definition written (columns : list (string * string)) (order : Order) : Order :=
  {| order_id_ := order_id_ order; order_user_id := order_user_id order;
     order_columns :=
       (columns ++ filter (fun '(k, _) => negb (existsb (String.eqb k) (map fst columns)))
                     (order_columns order))%list |}.

Definition named (id : string) (order : Order) : bool :=
  String.eqb (order_id_ order) id.

(** The store is the list of its rows. *)
Definition books : OrderStore (list Order) :=
  {| orderFindById := fun id w => (Returns (find (named id) w), w);
     orderUpdate := fun id columns w =>
       match find (named id) w with
       | Some order =>
           (Returns (Some (written columns order)),
            map (fun row => if named id row then written columns row else row) w)
       | None => (Returns None, w)
       end |}.

(** Lower case for the letters A to Z, the rest unchanged. *)
Definition lowerAscii (c : ascii) : ascii :=
  let n := N_of_ascii c in
  if ((65 <=? n) && (n <=? 90))%N then ascii_of_N (n + 32) else c.

Fixpoint lower (s : string) : string :=
  match s with
  | EmptyString => EmptyString
  | String c rest => String (lowerAscii c) (lower rest)
  end.

End ResolverSamples.

(** * Properties *)

(** ** Sample evaluations of the host-language model *)

Example b64_Man : Buffer.toBase64 (Buffer.from "Man") = "TWFu".
Proof. reflexivity. Qed.
Example b64_0 : Buffer.toBase64 (Buffer.from "0") = "MA==".
Proof. reflexivity. Qed.
Example b64_10 : Buffer.toBase64 (Buffer.from "10") = "MTA=".
Proof. reflexivity. Qed.
Example unb64_10 : Buffer.toUtf8 (Buffer.fromBase64 "MTA=") = "10".
Proof. reflexivity. Qed.
Example unb64_junk : Buffer.toUtf8 (Buffer.fromBase64 "!M*T A=zz") = "10".
Proof. reflexivity. Qed.
Example utf8_bad : Buffer.toUtf8 [ascii_of_N 255; "a"%char] =
  string_of_list_ascii (Buffer.replacement ++ ["a"%char])%list.
Proof. reflexivity. Qed.
Example utf8_trunc : Buffer.toUtf8 [ascii_of_N 226; ascii_of_N 130; "a"%char] =
  string_of_list_ascii (Buffer.replacement ++ ["a"%char])%list.
Proof. reflexivity. Qed.
Example utf8_euro : Buffer.toUtf8 [ascii_of_N 226; ascii_of_N 130; ascii_of_N 172] =
  string_of_list_ascii [ascii_of_N 226; ascii_of_N 130; ascii_of_N 172].
Proof. reflexivity. Qed.

Example parseInt_42 : parseInt "  42abc" = Int 42.
Proof. reflexivity. Qed.
Example parseInt_neg : parseInt "-17" = Int (-17).
Proof. reflexivity. Qed.
Example parseInt_hex : parseInt "0x1F" = Int 31.
Proof. reflexivity. Qed.
Example parseInt_empty : parseInt "" = NaN.
Proof. reflexivity. Qed.
Example parseInt_word : parseInt "abc" = NaN.
Proof. reflexivity. Qed.
Example toString_120 : toString (Int 120) = "120".
Proof. reflexivity. Qed.
Example toString_minus_5 : toString (Int (-5)) = "-5".
Proof. reflexivity. Qed.
Example toString_0 : toString (Int 0) = "0".
Proof. reflexivity. Qed.
Example split_bearer : split " " "Bearer abc" = ["Bearer"; "abc"].
Proof. reflexivity. Qed.
Example split_trailing : split " " "Bearer " = ["Bearer"; ""].
Proof. reflexivity. Qed.

(** ** Authentication and authorization *)

Module GuardFacts.
Import Auth Context Samples.

Lemma split_not_nil sep s : split sep s <> [].
Proof.
  destruct s as [|c r]; simpl; [discriminate|].
  destruct (Ascii.eqb c sep); [discriminate|].
  destruct (split sep r); discriminate.
Qed.

(** Joining the pieces of a split with the separator gives the text back. *)
Lemma join_split sep s : join (String sep "") (split sep s) = s.
Proof.
  induction s as [|c r IH]; simpl; [reflexivity|].
  destruct (Ascii.eqb c sep) eqn:E.
  - apply Ascii.eqb_eq in E. subst c.
    pose proof (split_not_nil sep r) as Hne.
    destruct (split sep r) as [|w ws]; [congruence|].
    simpl. simpl in IH. rewrite IH. reflexivity.
  - pose proof (split_not_nil sep r) as Hne.
    destruct (split sep r) as [|w ws]; [congruence|].
    simpl in *. destruct ws as [|w' ws'].
    + congruence.
    + rewrite <- IH. reflexivity.
Qed.

Lemma split_two sep s a b : split sep s = [a; b] -> s = a ++ String sep b.
Proof.
  intros H. rewrite <- (join_split sep s), H. reflexivity.
Qed.

(** What [extractTokenFromHeader] accepts: exactly the headers
    [Bearer <token>] with a non-empty token free of spaces. *)
Lemma extractToken_Some header token :
  extractTokenFromHeader header = Some token ->
  header = Some ("Bearer " ++ token) /\ truthy token = true.
Proof.
  unfold extractTokenFromHeader.
  destruct header as [h|]; [|discriminate].
  destruct (truthy h); simpl; [|discriminate].
  destruct (split " " h) as [|a [|b [|c l]]] eqn:Hs; simpl; try discriminate.
  destruct (String.eqb a "Bearer") eqn:Ha; simpl; [|discriminate].
  destruct (truthy b) eqn:Hb; [|discriminate].
  intros [= <-]. apply String.eqb_eq in Ha. subst a.
  apply split_two in Hs. subst h. split; reflexivity || assumption.
Qed.

Lemma extractToken_bearer token :
  extractTokenFromHeader (Some ("Bearer " ++ token)) = None \/
  extractTokenFromHeader (Some ("Bearer " ++ token)) = Some token.
Proof.
  destruct (extractTokenFromHeader (Some ("Bearer " ++ token))) as [t|] eqn:E;
    [right|left; reflexivity].
  apply extractToken_Some in E as [E _].
  assert (E' : "Bearer " ++ token = "Bearer " ++ t) by congruence.
  apply (inj (String.app "Bearer ")) in E'. congruence.
Qed.

(** The credential part of [createContext] comes down to extracting
    the token and verifying it. *)
Lemma resolveUser_eq jwt authService request :
  resolveUser jwt authService request =
  Returns match extractTokenFromHeader (authorization request) with
          | Some token => verifyAccessToken jwt authService token
          | None => None
          end.
Proof.
  unfold resolveUser. destruct (authorization request) as [h|]; [|reflexivity].
  destruct (truthy h) eqn:Hh.
  - destruct (extractTokenFromHeader (Some h)) as [t|] eqn:E; [|reflexivity].
    apply extractToken_Some in E as [_ ->]. reflexivity.
  - unfold extractTokenFromHeader. rewrite Hh. reflexivity.
Qed.

Lemma verifyAccessToken_Some jwt authService token payload :
  verifyAccessToken jwt authService token = Some payload ->
  verify jwt token (jwtSecret authService) "marketplace-api" "marketplace-client"
    = Returns payload.
Proof.
  unfold verifyAccessToken.
  destruct (verify jwt token _ _ _); intros [=]; congruence.
Qed.

(** C7. Authentication fails closed and never throws: building the
    context of a request always returns, and its user is either [null]
    or the payload the token library returned for the token of a
    [Bearer <token>] header. A token the library rejects (malformed,
    expired, bad signature: it throws) gives [null]; so do an absent
    header and a header that is not [Bearer <token>]. *)
Theorem createContext_fails_closed (jwt : Jwt) (authService : AuthService)
    (fresh : string) (request : Request) :
  exists context,
    createContext jwt authService fresh request = Returns context /\
    (user context = None \/
     exists token payload,
       authorization request = Some ("Bearer " ++ token) /\
       verify jwt token (jwtSecret authService) "marketplace-api" "marketplace-client"
         = Returns payload /\
       user context = Some payload) /\
    (forall token e,
       authorization request = Some ("Bearer " ++ token) ->
       verify jwt token (jwtSecret authService) "marketplace-api" "marketplace-client"
         = Throws e ->
       user context = None) /\
    (authorization request = None -> user context = None) /\
    (forall header,
       authorization request = Some header ->
       (forall token, header <> "Bearer " ++ token) ->
       user context = None).
Proof.
  unfold createContext. rewrite resolveUser_eq.
  eexists. split; [reflexivity|]. simpl.
  repeat split.
  - destruct (extractTokenFromHeader (authorization request)) as [t|] eqn:E;
      [|left; reflexivity].
    destruct (verifyAccessToken jwt authService t) as [p|] eqn:V;
      [|left; reflexivity].
    right. exists t, p. apply extractToken_Some in E as [E _].
    apply verifyAccessToken_Some in V. auto.
  - intros token e Hh Hv. rewrite Hh.
    destruct (extractToken_bearer token) as [-> | ->]; [reflexivity|].
    unfold verifyAccessToken. rewrite Hv. reflexivity.
  - intros ->. reflexivity.
  - intros header Hh Hnot. rewrite Hh.
    destruct (extractTokenFromHeader (Some header)) as [t|] eqn:E; [|reflexivity].
    apply extractToken_Some in E as [[= ->] _]. destruct (Hnot t). reflexivity.
Qed.

(** C9. The ownership guard admits exactly the owner or a privileged
    identity: with no identity it fails with the authentication error;
    with an identity that is neither the owner nor privileged it fails
    with the permission error; in every other case it returns the
    identity. *)
Theorem requireOwnership_owner_or_privileged (context : GraphQLContext)
    (resourceUserId : string) :
  (user context = None ->
   requireOwnership context resourceUserId
     = Throws (Error "Authentication required")) /\
  (forall u, user context = Some u ->
     userId u <> resourceUserId -> isAdmin u = false ->
     requireOwnership context resourceUserId
       = Throws (Error "Access denied: insufficient permissions")) /\
  (forall u, user context = Some u ->
     userId u = resourceUserId \/ isAdmin u = true ->
     requireOwnership context resourceUserId = Returns u).
Proof.
  unfold requireOwnership, requireAuth. repeat split.
  - intros ->. reflexivity.
  - intros u -> Hne Hadm. rewrite Hadm.
    apply String.eqb_neq in Hne. rewrite Hne. reflexivity.
  - intros u -> [Heq | Hadm].
    + apply String.eqb_eq in Heq. rewrite Heq. reflexivity.
    + rewrite Hadm. rewrite andb_false_r. reflexivity.
Qed.

(** The ownership example of the specification. *)
Example ownership_forbidden :
  requireOwnership (contextOf (Some (identity "u1" false))) "u2"
  = Throws (Error "Access denied: insufficient permissions").
Proof. reflexivity. Qed.

Example ownership_privileged :
  requireOwnership (contextOf (Some (identity "u1" true))) "u2"
  = Returns (identity "u1" true).
Proof. reflexivity. Qed.

Example ownership_anonymous :
  requireOwnership (contextOf None) "u2" = Throws (Error "Authentication required").
Proof. reflexivity. Qed.

End GuardFacts.

(** ** Response cache *)

Module CacheFacts.
Import Cache.

Section Degraded.
Context {W : Type}.
Implicit Types (this : CacheService W) (w : W).

Lemma unusable_get this key w :
  unusable this = true -> get this key w = (Returns None, w).
Proof.
  unfold unusable, get. destruct (client this); [|reflexivity].
  intros ->. reflexivity.
Qed.

Lemma unusable_set this key value ttl w :
  unusable this = true -> set this key value ttl w = (Returns false, w).
Proof.
  unfold unusable, set. destruct (client this); [|reflexivity].
  intros ->. reflexivity.
Qed.

Lemma unusable_del this key w :
  unusable this = true -> del this key w = (Returns false, w).
Proof.
  unfold unusable, del. destruct (client this); [|reflexivity].
  intros ->. reflexivity.
Qed.

Lemma unusable_exists this key w :
  unusable this = true -> exists_ this key w = (Returns false, w).
Proof.
  unfold unusable, exists_. destruct (client this); [|reflexivity].
  intros ->. reflexivity.
Qed.

(** Case analysis shared by the four operations: client or not,
    connected or not, and what the client call does. *)
Ltac cache_cases this call w :=
  unfold down, unusable, throwsAt, get, set, del, exists_, try_catch, bind, ret;
  destruct (client this) as [c|]; simpl;
  [ destruct (isConnected this); simpl;
    [ destruct (call c w) as [[a|e] w'] eqn:E; simpl | ] | ].

Lemma get_never_throws this key w : returns (fst (get this key w)) = true.
Proof. cache_cases this (fun c : RedisClient W => client_get c key) w; reflexivity. Qed.

Lemma set_never_throws this key value ttl w :
  returns (fst (set this key value ttl w)) = true.
Proof. cache_cases this (fun c : RedisClient W => setCall c key value ttl) w; reflexivity. Qed.

Lemma del_never_throws this key w : returns (fst (del this key w)) = true.
Proof. cache_cases this (fun c : RedisClient W => client_del c key) w; reflexivity. Qed.

Lemma exists_never_throws this key w : returns (fst (exists_ this key w)) = true.
Proof. cache_cases this (fun c : RedisClient W => client_exists c key) w; reflexivity. Qed.

Ltac down_cases E :=
  intros [? | (c' & [= <-] & H)]; [discriminate|];
  rewrite E in H; discriminate.

Lemma down_get this key w :
  down this (fun c => client_get c key) w -> fst (get this key w) = Returns None.
Proof.
  cache_cases this (fun c : RedisClient W => client_get c key) w; try reflexivity. down_cases E.
Qed.

Lemma down_set this key value ttl w :
  down this (fun c => setCall c key value ttl) w ->
  fst (set this key value ttl w) = Returns false.
Proof.
  cache_cases this (fun c : RedisClient W => setCall c key value ttl) w; try reflexivity.
  down_cases E.
Qed.

Lemma down_del this key w :
  down this (fun c => client_del c key) w -> fst (del this key w) = Returns false.
Proof.
  cache_cases this (fun c : RedisClient W => client_del c key) w; try reflexivity. down_cases E.
Qed.

Lemma down_exists this key w :
  down this (fun c => client_exists c key) w ->
  fst (exists_ this key w) = Returns false.
Proof.
  cache_cases this (fun c : RedisClient W => client_exists c key) w; try reflexivity.
  down_cases E.
Qed.

(** C8. Every operation of the response cache behaves as a miss and
    never throws when the client is absent, disconnected or raises an
    error: [get] gives [null], [set], [del] and [exists] give [false].
    With no usable client the server is not contacted at all. *)
Theorem cache_degrades_to_miss this (key value : string) (ttl : option Z) w :
  (returns (fst (get this key w)) = true /\
   returns (fst (set this key value ttl w)) = true /\
   returns (fst (del this key w)) = true /\
   returns (fst (exists_ this key w)) = true) /\
  (down this (fun c => client_get c key) w ->
   fst (get this key w) = Returns None) /\
  (down this (fun c => setCall c key value ttl) w ->
   fst (set this key value ttl w) = Returns false) /\
  (down this (fun c => client_del c key) w ->
   fst (del this key w) = Returns false) /\
  (down this (fun c => client_exists c key) w ->
   fst (exists_ this key w) = Returns false) /\
  (unusable this = true ->
   get this key w = (Returns None, w) /\
   set this key value ttl w = (Returns false, w) /\
   del this key w = (Returns false, w) /\
   exists_ this key w = (Returns false, w)).
Proof.
  split; [|split; [|split; [|split; [|split]]]].
  - auto using get_never_throws, set_never_throws, del_never_throws,
      exists_never_throws.
  - apply down_get.
  - apply down_set.
  - apply down_del.
  - apply down_exists.
  - auto using unusable_get, unusable_set, unusable_del, unusable_exists.
Qed.

End Degraded.

End CacheFacts.

(** ** Batch loaders *)

Module LoaderFacts.
Import Dao Loaders.

Lemma find_answersOne {Row} (column : Row -> string) rows key :
  answersOne column rows key (find (fun row => String.eqb (column row) key) rows).
Proof.
  split; [reflexivity|].
  destruct (find _ rows) as [row|] eqn:E.
  - apply find_some in E as [Hin Heq]. apply String.eqb_eq in Heq. auto.
  - intros row Hin Heq. apply (find_none _ _ E) in Hin.
    apply String.eqb_neq in Hin. contradiction.
Qed.

Lemma filter_answersMany {Row} (column : Row -> string) rows key :
  answersMany column rows key
    (List.filter (fun row => String.eqb (column row) key) rows).
Proof.
  split; [reflexivity|]. intros row. rewrite filter_In, String.eqb_eq. reflexivity.
Qed.

Lemma batchOne_keyed {Row} (column : Row -> string) fetch :
  keyed (answersOne column) fetch (batchOne column fetch).
Proof.
  intros keys rows Hfetch. unfold batchOne. rewrite Hfetch.
  eexists. split; [reflexivity|]. split; [apply length_map|].
  intros i key Hi. eexists. split.
  - rewrite list_lookup_fmap, Hi. reflexivity.
  - apply find_answersOne.
Qed.

Lemma batchMany_keyed {Row} (column : Row -> string) fetch :
  keyed (answersMany column) fetch (batchMany column fetch).
Proof.
  intros keys rows Hfetch. unfold batchMany. rewrite Hfetch.
  eexists. split; [reflexivity|]. split; [apply length_map|].
  intros i key Hi. eexists. split.
  - rewrite list_lookup_fmap, Hi. reflexivity.
  - apply filter_answersMany.
Qed.

(** A failed fetch fails the batch with the same error. *)
Lemma batchOne_throws {Row} (column : Row -> string) fetch keys e :
  fetch keys = Throws e -> batchOne column fetch keys = Throws e.
Proof. unfold batchOne. intros ->. reflexivity. Qed.

(** C6. Each of the seven batch functions returns, for the rows its
    fetch returned, a list as long as the key list whose i-th element
    answers the i-th key: the matching row, or [null] when no row
    matches, for the loaders by id; the rows whose relationship column
    equals the key for the one-to-many loaders. *)
Theorem createLoaders_keyed {F : FilterSchema} (userDAO : UserDAO)
    (productDAO : ProductDAO F) (orderDAO : OrderDAO) :
  let loaders := createLoaders userDAO productDAO orderDAO in
  keyed (answersOne user_id_) (findUsersByIds userDAO) (userById loaders) /\
  keyed (answersOne product_id_) (findProductsByIds productDAO)
    (productsByIds loaders) /\
  keyed (answersMany product_seller_id) (findBySellers productDAO)
    (productsBySeller loaders) /\
  keyed (answersMany order_user_id) (findByUsers orderDAO) (ordersByUser loaders) /\
  keyed (answersMany item_order_id) (findItemsByOrders orderDAO)
    (orderItemsByOrder loaders) /\
  keyed (answersMany review_product_id) (findReviewsByProducts productDAO)
    (reviewsByProduct loaders) /\
  keyed (answersMany cart_user_id) (findCartItemsByUsers userDAO)
    (cartItemsByUser loaders).
Proof.
  simpl. repeat split; (apply batchOne_keyed || apply batchMany_keyed).
Qed.

End LoaderFacts.

(** ** Persisted queries *)

Module PersistedQueriesFacts.
Import Cache PersistedQueries.

Section Store.
Context {W : Type}.
Variable JSON : Json.
Variable cacheService : CacheService W.
Variable now : Z.

Abbreviation getQuery := (getQuery JSON cacheService).
Abbreviation addQuery := (addQuery JSON cacheService now).
Abbreviation handleRequest := (handleRequest JSON cacheService now).

(** A lookup that misses the memory map, with the shared tier off,
    finds nothing and changes nothing. *)
Lemma getQuery_miss (store : PersistedQueryStore) (w : W) h :
  queries store !! h = None ->
  useRedis store = false ->
  getQuery h (store, w) = (Returns None, (store, w)).
Proof.
  intros Hq Hr. unfold PersistedQueries.getQuery, bind, this. simpl.
  rewrite Hq, Hr. reflexivity.
Qed.

Lemma getQuery_hit (store : PersistedQueryStore) (w : W) h pq :
  queries store !! h = Some pq ->
  getQuery h (store, w) = (Returns (Some (query pq)), (store, w)).
Proof.
  intros Hq. unfold PersistedQueries.getQuery, bind, this. simpl.
  rewrite Hq. reflexivity.
Qed.

(** Registration stores the body under the hash. *)
Lemma addQuery_registers (store : PersistedQueryStore) (w : W) h q :
  useRedis store = false ->
  addQuery h q (store, w) =
  (Returns tt,
   ({| queries := <[h := {| query := q; hash := h; addedAt := now |}]> (queries store);
       useRedis := false |}, w)).
Proof.
  intros Hr. unfold PersistedQueries.addQuery, bind, this, setQueries. simpl.
  rewrite Hr. reflexivity.
Qed.

(** A request that carries a hash is answered from the store alone:
    the branch that registers the body of a request is never taken. *)
Lemma handleRequest_with_hash request h st :
  sha256Hash request = Some h ->
  truthy h = true ->
  handleRequest request st =
  bind (getQuery h)
    (fun persistedQuery =>
       if truthy_opt persistedQuery
       then ret {| handled_query := persistedQuery; handled_hash := None |}
       else throw (notFound h)) st.
Proof.
  intros Hh Ht. unfold PersistedQueries.handleRequest.
  rewrite Hh. simpl. rewrite Ht. reflexivity.
Qed.

Lemma handleRequest_unregistered request h (store : PersistedQueryStore) (w : W) :
  sha256Hash request = Some h ->
  truthy h = true ->
  queries store !! h = None ->
  useRedis store = false ->
  handleRequest request (store, w) = (Throws (notFound h), (store, w)).
Proof.
  intros Hh Ht Hq Hr. rewrite (handleRequest_with_hash _ h) by assumption.
  unfold bind. rewrite getQuery_miss by assumption. reflexivity.
Qed.

(** Whatever the request, [handleRequest] never reports a hash it
    registered. *)
Lemma handleRequest_never_registers request st r st' :
  handleRequest request st = (Returns r, st') -> handled_hash r = None.
Proof.
  unfold PersistedQueries.handleRequest.
  destruct (truthy_opt (sha256Hash request)) eqn:Hh; simpl.
  - unfold bind. destruct (getQuery _ st) as [[pq|e] st1]; [|discriminate].
    destruct (truthy_opt pq); [|discriminate].
    intros [= <- _]. reflexivity.
  - rewrite andb_false_r. intros [= <- _]. reflexivity.
Qed.

End Store.

Import Samples.

(** C1 (it fails on this input). A request that carries a hash and the
    full query body, sent to a store that has not seen the hash, is
    answered with the not-found error, and the body is not registered:
    the store is left as it was. *)
Theorem handleRequest_hash_and_body_not_found :
  handleRequest textJson offlineCache 0 hashAndBody (freshStore, tt)
  = (Throws (Error "Persisted query not found: 9f86d081884c7d65"),
     (freshStore, tt)).
Proof.
  apply handleRequest_unregistered; reflexivity.
Qed.

(** The same body, registered first through [registerQuery], is found
    by its hash. *)
Example registered_then_found :
  let '(_, st) :=
    registerQuery textJson offlineCache 0
      "query { products { totalCount } }" "9f86d081884c7d65" (freshStore, tt) in
  fst (handleRequest textJson offlineCache 0
         {| request_query := None; sha256Hash := Some "9f86d081884c7d65" |} st)
  = Returns {| handled_query := Some "query { products { totalCount } }";
               handled_hash := None |}.
Proof.
  unfold registerQuery. rewrite addQuery_registers by reflexivity.
  rewrite (handleRequest_with_hash _ _ _ _ "9f86d081884c7d65") by reflexivity.
  unfold bind. erewrite getQuery_hit by apply lookup_insert_eq. reflexivity.
Qed.

End PersistedQueriesFacts.

(** ** Text encodings *)

Module BufferFacts.
Import Buffer.

Lemma code_lt_256 (c : ascii) : (code c < 256)%N.
Proof. apply N_ascii_bounded. Qed.

Lemma ascii_of_code (c : ascii) : ascii_of_N (code c) = c.
Proof. apply ascii_N_embedding. Qed.

(** Every sextet has its character, which is not the padding, and the
    character gives the sextet back. *)
Lemma unbase64_b64char (n : N) :
  (n < 64)%N ->
  unbase64 (b64char n) = Some n /\ Ascii.eqb (b64char n) pad = false.
Proof.
  intros Hn.
  assert (Hall : forallb
            (fun m => match unbase64 (b64char m) with
                      | Some k => (k =? m)%N && negb (Ascii.eqb (b64char m) pad)
                      | None => false
                      end) (map N.of_nat (seq 0 64)) = true)
    by (vm_compute; reflexivity).
  rewrite forallb_forall in Hall.
  assert (Hin : In n (map N.of_nat (seq 0 64))).
  { apply in_map_iff. exists (N.to_nat n). split; [apply N2Nat.id|].
    apply in_seq. lia. }
  apply Hall in Hin.
  destruct (unbase64 (b64char n)) as [k|]; [|discriminate].
  apply andb_true_iff in Hin as [Hk Hp]. apply N.eqb_eq in Hk. subst k.
  apply negb_true_iff in Hp. auto.
Qed.

Lemma sextetsOf_b64char (n : N) (rest : string) :
  (n < 64)%N -> sextetsOf (String (b64char n) rest) = n :: sextetsOf rest.
Proof.
  intros Hn. destruct (unbase64_b64char n Hn) as [Hu Hp].
  simpl. rewrite Hp, Hu. reflexivity.
Qed.

Lemma sextet0_lt a : (a < 256)%N -> (sextet0 a < 64)%N.
Proof. unfold sextet0. intros. apply N.Div0.div_lt_upper_bound. lia. Qed.

Lemma sextet1_lt a b : (b < 256)%N -> (sextet1 a b < 64)%N.
Proof.
  unfold sextet1. intros.
  assert (a mod 4 < 4)%N by (apply N.mod_lt; lia).
  assert (b / 16 < 16)%N by (apply N.Div0.div_lt_upper_bound; lia). lia.
Qed.

Lemma sextet2_lt b c : (c < 256)%N -> (sextet2 b c < 64)%N.
Proof.
  unfold sextet2. intros.
  assert (b mod 16 < 16)%N by (apply N.mod_lt; lia).
  assert (c / 64 < 4)%N by (apply N.Div0.div_lt_upper_bound; lia). lia.
Qed.

Lemma sextet3_lt c : (sextet3 c < 64)%N.
Proof. unfold sextet3. apply N.mod_lt. lia. Qed.

(** The bytes come back from their sextets. *)
Lemma byte0_sextets a b :
  (b < 256)%N -> byte0 (sextet0 a) (sextet1 a b) = ascii_of_N a.
Proof.
  intros Hb. unfold byte0, sextet0, sextet1. f_equal.
  assert (b / 16 < 16)%N by (apply N.Div0.div_lt_upper_bound; lia).
  rewrite N.div_add_l by lia.
  rewrite (N.div_small (b / 16) 16) by lia.
  pose proof (N.div_mod a 4). lia.
Qed.

Lemma byte1_sextets a b c :
  (b < 256)%N -> (c < 256)%N -> byte1 (sextet1 a b) (sextet2 b c) = ascii_of_N b.
Proof.
  intros Hb Hc. unfold byte1, sextet1, sextet2. f_equal.
  assert (b / 16 < 16)%N by (apply N.Div0.div_lt_upper_bound; lia).
  assert (c / 64 < 4)%N by (apply N.Div0.div_lt_upper_bound; lia).
  rewrite N.div_add_l by lia.
  rewrite (N.div_small (c / 64) 4) by lia.
  rewrite (N.add_comm (a mod 4 * 16)), N.Div0.mod_add.
  rewrite (N.mod_small (b / 16) 16) by lia.
  pose proof (N.div_mod b 16). lia.
Qed.

Lemma byte2_sextets b c :
  (c < 256)%N -> byte2 (sextet2 b c) (sextet3 c) = ascii_of_N c.
Proof.
  intros Hc. unfold byte2, sextet2, sextet3. f_equal.
  assert (c / 64 < 4)%N by (apply N.Div0.div_lt_upper_bound; lia).
  rewrite (N.add_comm (b mod 16 * 4)), N.Div0.mod_add.
  rewrite (N.mod_small (c / 64) 4) by lia.
  pose proof (N.div_mod c 64). lia.
Qed.

(** Induction three bytes at a time, as the encoder reads them. *)
Lemma buffer_ind3 (P : Buffer -> Prop) :
  P [] -> (forall a, P [a]) -> (forall a b, P [a; b]) ->
  (forall a b c rest, P rest -> P (a :: b :: c :: rest)) ->
  forall buf, P buf.
Proof.
  intros H0 H1 H2 H3.
  assert (Hall : forall buf, P buf /\ (forall a, P (a :: buf)) /\
                             (forall a b, P (a :: b :: buf))).
  { induction buf as [|x buf (IH0 & IH1 & IH2)].
    - auto.
    - split; [apply IH1|]. split; [intros a; apply IH2|].
      intros a b. apply H3, IH0. }
  intros buf. apply Hall.
Qed.

(** Decoding the base64 form of a buffer gives the buffer back. *)
Lemma fromBase64_toBase64 (buf : Buffer) : fromBase64 (toBase64 buf) = buf.
Proof.
  unfold fromBase64. induction buf as [|a|a b|a b c rest IH] using buffer_ind3.
  - reflexivity.
  - pose proof (code_lt_256 a).
    cbn [toBase64].
    rewrite sextetsOf_b64char by (apply sextet0_lt; assumption).
    rewrite sextetsOf_b64char by (apply sextet1_lt; lia).
    cbn [sextetsOf bytesOf]. change (Ascii.eqb "=" pad) with true. cbn [bytesOf].
    rewrite byte0_sextets by lia. rewrite ascii_of_code. reflexivity.
  - pose proof (code_lt_256 a). pose proof (code_lt_256 b).
    cbn [toBase64].
    rewrite sextetsOf_b64char by (apply sextet0_lt; assumption).
    rewrite sextetsOf_b64char by (apply sextet1_lt; lia).
    rewrite sextetsOf_b64char by (apply sextet2_lt; lia).
    cbn [sextetsOf]. change (Ascii.eqb "=" pad) with true. cbn [bytesOf].
    rewrite byte0_sextets, byte1_sextets by lia.
    rewrite !ascii_of_code. reflexivity.
  - pose proof (code_lt_256 a). pose proof (code_lt_256 b).
    pose proof (code_lt_256 c).
    cbn [toBase64].
    rewrite sextetsOf_b64char by (apply sextet0_lt; assumption).
    rewrite sextetsOf_b64char by (apply sextet1_lt; lia).
    rewrite sextetsOf_b64char by (apply sextet2_lt; lia).
    rewrite sextetsOf_b64char by (apply sextet3_lt).
    cbn [bytesOf]. rewrite IH.
    rewrite byte0_sextets, byte1_sextets, byte2_sextets by lia.
    rewrite !ascii_of_code. reflexivity.
Qed.

Lemma utf8Go_plain (buf : Buffer) :
  Forall (fun c => (code c <= 127)%N) buf -> utf8Go buf 0 128 191 [] = buf.
Proof.
  induction 1 as [|c rest Hc _ IH]; [reflexivity|].
  cbn [utf8Go]. unfold leadOf.
  apply N.leb_le in Hc. rewrite Hc. cbn [app]. rewrite IH. reflexivity.
Qed.

Lemma toUtf8_from_plain (text : string) :
  plain text -> toUtf8 (from text) = text.
Proof.
  intros H. unfold toUtf8, from. rewrite utf8Go_plain by exact H.
  apply string_of_list_ascii_of_string.
Qed.

End BufferFacts.

(** ** Printing and reading integers *)

Module NumberFacts.
Import Buffer BufferFacts.

Abbreviation print := NilEmpty.string_of_uint.

Lemma decDigits_print (d : Decimal.uint) : decDigits (print d) = d.
Proof. induction d; simpl; congruence. Qed.

Lemma print_plain (d : Decimal.uint) : plain (print d).
Proof.
  unfold plain. induction d; simpl; constructor; try assumption;
    vm_compute; discriminate.
Qed.

Lemma hexPrefix_print (d : Decimal.uint) : hexPrefix (print d) = None.
Proof. destruct d as [|d|d|d|d|d|d|d|d|d|d]; try reflexivity; destruct d; reflexivity. Qed.

(** A first character that is neither white space nor the start of a
    multi-byte character stops the trimming. *)
Lemma trimStart_keeps (c : ascii) (r : string) :
  isWhite1 c = false -> (code c <= 127)%N -> trimStart (String c r) = String c r.
Proof.
  intros Hw Hc. cbn [trimStart]. rewrite Hw.
  destruct r as [|d r2]; [reflexivity|].
  assert (H2 : isWhite2 c d = false).
  { unfold isWhite2. destruct (N.eqb_spec (code c) 194); [lia|reflexivity]. }
  rewrite H2. destruct r2 as [|e r3]; [reflexivity|].
  assert (H3 : isWhite3 c d e = false).
  { unfold isWhite3.
    destruct (N.eqb_spec (code c) 225); [lia|].
    destruct (N.eqb_spec (code c) 226); [lia|].
    destruct (N.eqb_spec (code c) 227); [lia|].
    destruct (N.eqb_spec (code c) 239); [lia|]. reflexivity. }
  rewrite H3. reflexivity.
Qed.

Lemma trimStart_print (d : Decimal.uint) : trimStart (print d) = print d.
Proof.
  destruct d; [reflexivity|..]; cbn [NilEmpty.string_of_uint];
    apply trimStart_keeps; vm_compute; (reflexivity || discriminate).
Qed.

Lemma signOf_print (d : Decimal.uint) : signOf (print d) = (1%Z, print d).
Proof. destruct d; reflexivity. Qed.

Lemma parseInt_print (d : Decimal.uint) :
  d <> Decimal.Nil -> parseInt (print d) = Int (Z.of_N (N.of_uint d)).
Proof.
  intros Hd. unfold parseInt.
  rewrite trimStart_print, signOf_print, hexPrefix_print, decDigits_print.
  destruct d; [contradiction|..]; rewrite Z.mul_1_l; reflexivity.
Qed.

Lemma parseInt_minus_print (d : Decimal.uint) :
  d <> Decimal.Nil ->
  parseInt (String "-" (print d)) = Int (- Z.of_N (N.of_uint d)).
Proof.
  intros Hd. unfold parseInt.
  rewrite trimStart_keeps by (vm_compute; (reflexivity || discriminate)).
  change (signOf (String "-" (print d))) with ((-1)%Z, print d).
  cbv beta iota.
  rewrite hexPrefix_print, decDigits_print.
  destruct d; [contradiction|..]; f_equal; lia.
Qed.

Lemma toString_pos (p : positive) : toString (Int (Z.pos p)) = print (Pos.to_uint p).
Proof.
  pose proof (DecimalPos.Unsigned.to_uint_nonnil p) as Hn.
  unfold toString. cbn [Z.to_int NilZero.string_of_int].
  unfold NilZero.string_of_uint. destruct (Pos.to_uint p); [contradiction|..]; reflexivity.
Qed.

Lemma toString_neg (p : positive) :
  toString (Int (Z.neg p)) = String "-" (print (Pos.to_uint p)).
Proof.
  pose proof (DecimalPos.Unsigned.to_uint_nonnil p) as Hn.
  unfold toString. cbn [Z.to_int NilZero.string_of_int].
  unfold NilZero.string_of_uint. destruct (Pos.to_uint p); [contradiction|..]; reflexivity.
Qed.

(** Reading the decimal form of an integer gives the integer back. *)
Lemma parseInt_toString (z : Z) : parseInt (toString (Int z)) = Int z.
Proof.
  destruct z as [|p|p].
  - reflexivity.
  - rewrite toString_pos.
    rewrite parseInt_print by apply DecimalPos.Unsigned.to_uint_nonnil.
    unfold N.of_uint. rewrite DecimalPos.Unsigned.of_to. reflexivity.
  - rewrite toString_neg.
    rewrite parseInt_minus_print by apply DecimalPos.Unsigned.to_uint_nonnil.
    unfold N.of_uint. rewrite DecimalPos.Unsigned.of_to. reflexivity.
Qed.

Lemma toString_plain (z : Z) : plain (toString (Int z)).
Proof.
  destruct z as [|p|p].
  - unfold plain. simpl. constructor; [vm_compute; discriminate|constructor].
  - rewrite toString_pos. apply print_plain.
  - rewrite toString_neg. unfold plain. simpl.
    constructor; [vm_compute; discriminate|apply print_plain].
Qed.

End NumberFacts.

(** ** Cursor pager *)

Module PagerFacts.
Import Zod Auth Context Dao Pager Samples.
Import Buffer BufferFacts NumberFacts.

(** *** Cursors *)

Lemma decode_encode_plain (text : string) :
  plain text -> decodeCursor (encodeCursor text) = text.
Proof.
  intros H. unfold decodeCursor, encodeCursor.
  rewrite fromBase64_toBase64. apply toUtf8_from_plain. exact H.
Qed.

Lemma encodeCursor_truthy (text : string) :
  truthy text = true -> truthy (encodeCursor text) = true.
Proof.
  destruct text as [|c r]; [discriminate|]. intros _.
  unfold encodeCursor, from. cbn [list_ascii_of_string].
  destruct (list_ascii_of_string r) as [|b [|c' rest]]; reflexivity.
Qed.

Lemma toString_truthy (z : Z) : truthy (toString (Int z)) = true.
Proof.
  pose proof (parseInt_toString z) as H.
  destruct (toString (Int z)); [discriminate H|reflexivity].
Qed.

(** The printed form of an integer survives the trip through a cursor
    and reads back as that integer. *)
Lemma offset_round_trip (z : Z) :
  decodeCursor (encodeCursor (toString (Int z))) = toString (Int z) /\
  parseInt (decodeCursor (encodeCursor (toString (Int z)))) = Int z.
Proof.
  rewrite decode_encode_plain by apply toString_plain.
  split; [reflexivity|apply parseInt_toString].
Qed.

(** C5. Cursor encoding is reversible: for every non-negative integer
    offset that a number holds exactly (up to [2^53 - 1]), decoding the
    cursor that encodes it gives back its decimal text, which reads as
    the offset; a resolver given that cursor as [after] starts from
    that offset. *)
Theorem cursor_round_trip (o : Z) :
  (0 <= o <= MAX_SAFE_INTEGER)%Z ->
  decodeCursor (encodeCursor (toString (Int o))) = toString (Int o) /\
  parseInt (decodeCursor (encodeCursor (toString (Int o)))) = Int o /\
  forall p, after p = Some (encodeCursor (toString (Int o))) -> offsetOf p = Int o.
Proof.
  intros _. destruct (offset_round_trip o) as [Hd Hp].
  split; [exact Hd|]. split; [exact Hp|].
  intros p Hafter. unfold offsetOf. rewrite Hafter.
  rewrite encodeCursor_truthy by apply toString_truthy. exact Hp.
Qed.

Lemma cursor_round_trip_witness :
  (0 <= 20 <= MAX_SAFE_INTEGER)%Z /\
  decodeCursor (encodeCursor (toString (Int 20))) = toString (Int 20) /\
  parseInt (decodeCursor (encodeCursor (toString (Int 20)))) = Int 20 /\
  forall p, after p = Some (encodeCursor (toString (Int 20))) -> offsetOf p = Int 20.
Proof.
  split; [unfold MAX_SAFE_INTEGER; lia|].
  apply (cursor_round_trip 20). unfold MAX_SAFE_INTEGER. lia.
Defined.

Example cursor_of_20 : encodeCursor (toString (Int 20)) = "MjA=".
Proof. reflexivity. Qed.

(** *** Validation of the pagination argument *)

Lemma positiveMax_ok v :
  acceptableLimit v -> positiveMaxOptional 100 v = ([], numberOf v).
Proof.
  intros [-> | (z & -> & Hz)]; [reflexivity|]. simpl.
  destruct (Z.ltb_spec 0 z); [|lia].
  destruct (Z.leb_spec z 100); [|lia]. reflexivity.
Qed.

Lemma positiveMax_issues v :
  ~ acceptableLimit v -> fst (positiveMaxOptional 100 v) <> [].
Proof.
  intros Hn. destruct v; simpl; try discriminate.
  - destruct Hn. left. reflexivity.
  - destruct (Z.ltb_spec 0 z); [|discriminate].
    destruct (Z.leb_spec z 100); [|discriminate].
    destruct Hn. right. exists z. split; [reflexivity|lia].
Qed.

Lemma acceptableLimit_dec v : acceptableLimit v \/ ~ acceptableLimit v.
Proof.
  destruct v; try (right; intros [H | (z' & H & _)]; discriminate).
  - left. left. reflexivity.
  - destruct (Z_le_dec 1 z); [destruct (Z_le_dec z 100)|].
    + left. right. eauto.
    + right. intros [H | (z' & [= <-] & Hz)]; [discriminate|lia].
    + right. intros [H | (z' & [= <-] & Hz)]; [discriminate|lia].
Qed.

Lemma stringOptional_ok v :
  acceptableCursor v -> stringOptional v = ([], textOf v).
Proof. intros [-> | (s & ->)]; reflexivity. Qed.

Lemma stringOptional_issues v :
  ~ acceptableCursor v -> fst (stringOptional v) <> [].
Proof.
  intros Hn. destruct v; simpl; try discriminate.
  - destruct Hn. left. reflexivity.
  - destruct Hn. right. eauto.
Qed.

Lemma acceptableCursor_dec v : acceptableCursor v \/ ~ acceptableCursor v.
Proof.
  destruct v; try (right; intros [H | (s' & H)]; discriminate).
  - left. left. reflexivity.
  - left. right. eauto.
Qed.

(** The schema accepts an argument exactly when each field is
    acceptable, and then hands the fields over unchanged. *)
Lemma parse_accepts input :
  acceptableLimit (raw_first input) -> acceptableCursor (raw_after input) ->
  acceptableLimit (raw_last input) -> acceptableCursor (raw_before input) ->
  CursorInputSchema_parse input =
  Returns {| first := numberOf (raw_first input);
             after := textOf (raw_after input);
             last := numberOf (raw_last input);
             before := textOf (raw_before input) |}.
Proof.
  intros H1 H2 H3 H4. unfold CursorInputSchema_parse.
  rewrite (positiveMax_ok _ H1), (stringOptional_ok _ H2),
    (positiveMax_ok _ H3), (stringOptional_ok _ H4). reflexivity.
Qed.

Lemma parse_rejects input :
  ~ (acceptableLimit (raw_first input) /\ acceptableCursor (raw_after input) /\
     acceptableLimit (raw_last input) /\ acceptableCursor (raw_before input)) ->
  exists messages,
    messages <> [] /\ CursorInputSchema_parse input = Throws (ZodError messages).
Proof.
  intros Hn. unfold CursorInputSchema_parse.
  destruct (positiveMaxOptional 100 (raw_first input)) as [i1 f] eqn:E1.
  destruct (stringOptional (raw_after input)) as [i2 a] eqn:E2.
  destruct (positiveMaxOptional 100 (raw_last input)) as [i3 l] eqn:E3.
  destruct (stringOptional (raw_before input)) as [i4 b] eqn:E4.
  assert (Hne : (i1 ++ i2 ++ i3 ++ i4)%list <> []).
  { intros Hnil.
    apply app_eq_nil in Hnil as [-> Hnil].
    apply app_eq_nil in Hnil as [-> Hnil].
    apply app_eq_nil in Hnil as [-> ->].
    apply Hn.
    destruct (acceptableLimit_dec (raw_first input)) as [?|B];
      [|apply positiveMax_issues in B; rewrite E1 in B; destruct B; reflexivity].
    destruct (acceptableCursor_dec (raw_after input)) as [?|B];
      [|apply stringOptional_issues in B; rewrite E2 in B; destruct B; reflexivity].
    destruct (acceptableLimit_dec (raw_last input)) as [?|B];
      [|apply positiveMax_issues in B; rewrite E3 in B; destruct B; reflexivity].
    destruct (acceptableCursor_dec (raw_before input)) as [?|B];
      [|apply stringOptional_issues in B; rewrite E4 in B; destruct B; reflexivity].
    auto. }
  destruct (i1 ++ i2 ++ i3 ++ i4)%list as [|m ms] eqn:E; [congruence|].
  exists (m :: ms). split; [discriminate|reflexivity].
Qed.

Lemma parse_Returns input p :
  CursorInputSchema_parse input = Returns p ->
  (acceptableLimit (raw_first input) /\ acceptableCursor (raw_after input) /\
   acceptableLimit (raw_last input) /\ acceptableCursor (raw_before input)) /\
  first p = numberOf (raw_first input) /\ after p = textOf (raw_after input) /\
  last p = numberOf (raw_last input) /\ before p = textOf (raw_before input).
Proof.
  intros Hp.
  assert (Hacc : acceptableLimit (raw_first input) /\ acceptableCursor (raw_after input) /\
     acceptableLimit (raw_last input) /\ acceptableCursor (raw_before input)).
  { destruct (acceptableLimit_dec (raw_first input)) as [?|B1];
    [destruct (acceptableCursor_dec (raw_after input)) as [?|B2];
     [destruct (acceptableLimit_dec (raw_last input)) as [?|B3];
      [destruct (acceptableCursor_dec (raw_before input)) as [?|B4]; [auto|]|]|]|].
    all: exfalso; destruct (parse_rejects input) as (m & _ & Hm);
      [tauto | congruence]. }
  split; [exact Hacc|].
  destruct Hacc as (H1 & H2 & H3 & H4).
  rewrite (parse_accepts input H1 H2 H3 H4) in Hp. injection Hp as <-.
  repeat split.
Qed.

(** *** The effective limit *)

Lemma limitOf_accepted input p :
  CursorInputSchema_parse input = Returns p ->
  (1 <= limitOf p <= 100)%Z /\
  limitOf p = match first p, last p with
              | Some z, _ => z
              | None, Some z => z
              | None, None => 20%Z
              end.
Proof.
  intros Hp. apply parse_Returns in Hp as ((H1 & _ & H3 & _) & Hf & _ & Hl & _).
  unfold limitOf, orNumber. rewrite Hf, Hl.
  destruct H1 as [-> | (z & -> & Hz)], H3 as [-> | (z' & -> & Hz')]; simpl.
  - lia.
  - destruct (Z.eqb_spec z' 0); lia.
  - destruct (Z.eqb_spec z 0); lia.
  - destruct (Z.eqb_spec z 0); lia.
Qed.

Lemma parse_above_max input z :
  (100 < z)%Z ->
  raw_first input = VNumber z \/ raw_last input = VNumber z ->
  exists messages,
    messages <> [] /\ CursorInputSchema_parse input = Throws (ZodError messages).
Proof.
  intros Hz Hraw. apply parse_rejects. intros (H1 & _ & H3 & _).
  destruct Hraw as [Hr | Hr]; rewrite Hr in *.
  - destruct H1 as [? | (z' & [= <-] & ?)]; [discriminate|lia].
  - destruct H3 as [? | (z' & [= <-] & ?)]; [discriminate|lia].
Qed.

(** *** Page info *)

Lemma makeEdges_length {Row Node} (transform : Row -> Node) offset rows :
  length (makeEdges transform offset rows) = length rows.
Proof. unfold makeEdges. apply length_imap. Qed.

Lemma makeEdges_lookup {Row Node} (transform : Row -> Node) offset rows (i : nat) :
  makeEdges transform offset rows !! i =
  (fun row => {| node := transform row;
                 cursor := encodeCursor (toString (add offset (Int (Z.of_nat i)))) |})
    <$> rows !! i.
Proof. unfold makeEdges. apply list_lookup_imap. Qed.

Lemma makeEdges_nil {Row Node} (transform : Row -> Node) offset rows :
  makeEdges transform offset rows = [] <-> rows = [].
Proof.
  split.
  - intros H. apply (f_equal length) in H.
    rewrite makeEdges_length in H. destruct rows; [reflexivity|discriminate].
  - intros ->. reflexivity.
Qed.

(** C4. The page info of a connection built from an offset, a limit,
    the fetched rows and the total count, all of them numbers held
    exactly, as are the sums [offset + limit] and [offset + index]
    (the offset may also be [NaN]): [hasNextPage] is
    [offset + limit < totalCount], [hasPreviousPage] is [offset > 0],
    the two cursors are [null] exactly when there is no edge, and
    otherwise encode the offsets of the first and of the last row
    returned; the i-th edge carries the encoded offset [offset + i]. *)
Theorem pageInfo_of_connection {Row Node} (transform : Row -> Node)
    (limit : Z) (offset : number) (rows : list Row) (total : Z) :
  isExact offset = true ->
  isSafeInteger limit = true ->
  isSafeInteger total = true ->
  isExact (add offset (Int limit)) = true ->
  isExact (add offset (Int (Z.of_nat (length rows)))) = true ->
  let connection := makeConnection transform limit offset rows total in
  let info := pageInfo connection in
  length (edges connection) = length rows /\
  totalCount connection = total /\
  hasNextPage info = lt (add offset (Int limit)) (Int total) /\
  hasPreviousPage info = gt offset (Int 0) /\
  (forall o, offset = Int o ->
     (hasNextPage info = true <-> (o + limit < total)%Z) /\
     (hasPreviousPage info = true <-> (o > 0)%Z)) /\
  (startCursor info = None <-> edges connection = []) /\
  (endCursor info = None <-> edges connection = []) /\
  (edges connection <> [] ->
   startCursor info = Some (encodeCursor (toString (add offset (Int 0)))) /\
   endCursor info =
     Some (encodeCursor (toString (add offset (Int (Z.of_nat (length rows) - 1)))))) /\
  (forall (i : nat) row,
     rows !! i = Some row ->
     edges connection !! i =
     Some {| node := transform row;
             cursor := encodeCursor (toString (add offset (Int (Z.of_nat i)))) |}).
Proof.
  intros _ _ _ _ _. simpl. rewrite makeEdges_length.
  split; [reflexivity|]. split; [reflexivity|].
  split; [reflexivity|]. split; [reflexivity|]. split.
  { intros o ->. unfold gt, lt, add. rewrite !Z.ltb_lt. lia. }
  induction rows as [|r rows' _] using rev_ind.
  - simpl. split; [tauto|]. split; [tauto|].
    split; [intros H; destruct H; reflexivity|].
    intros i row Hi. rewrite lookup_nil in Hi. discriminate.
  - assert (Hlen : length (rows' ++ [r]) = S (length rows'))
      by (rewrite length_app; simpl; lia).
    rewrite Hlen.
    assert (Hne : makeEdges transform offset (rows' ++ [r]) <> []).
    { rewrite makeEdges_nil. destruct rows'; discriminate. }
    change (0 <? S (length rows'))%nat with true.
    replace (S (length rows') - 1)%nat with (length rows') by lia.
    rewrite !makeEdges_lookup.
    assert (Hlast : (rows' ++ [r])%list !! length rows' = Some r).
    { rewrite lookup_app_r by lia. rewrite Nat.sub_diag. reflexivity. }
    assert (Hfirst : exists r0, (rows' ++ [r])%list !! 0%nat = Some r0).
    { destruct rows'; simpl; eauto. }
    destruct Hfirst as [r0 Hfirst]. rewrite Hfirst, Hlast. simpl.
    split; [split; [discriminate|intros H; contradiction]|].
    split; [split; [discriminate|intros H; contradiction]|].
    split.
    + intros _. split; [reflexivity|].
      replace (Z.of_nat (S (length rows')) - 1)%Z with (Z.of_nat (length rows'))
        by lia.
      reflexivity.
    + intros i row Hi. rewrite makeEdges_lookup, Hi. reflexivity.
Qed.

(** The pagination example of the specification: 25 rows, 10 a page. *)
Example first_page :
  (fun c => (length (edges c), hasNextPage (pageInfo c), hasPreviousPage (pageInfo c)))
    <$> (match Pager.products shelf product_id_ tt (firstOnly 10) anonymous with
         | Returns c => Some c | Throws _ => None end)
  = Some (10%nat, true, false).
Proof. reflexivity. Qed.

Example third_page :
  (fun c => (length (edges c), hasNextPage (pageInfo c), hasPreviousPage (pageInfo c)))
    <$> (match Pager.products shelf product_id_ tt (page 10 "MjA=") anonymous with
         | Returns c => Some c | Throws _ => None end)
  = Some (5%nat, false, true).
Proof. reflexivity. Qed.

Lemma pageInfo_of_connection_witness :
  (hasNextPage (pageInfo (makeConnection product_id_ 10 (Int 20) (drop 20 catalog) 25))
     = true <-> (20 + 10 < 25)%Z) /\
  (hasPreviousPage (pageInfo (makeConnection product_id_ 10 (Int 20) (drop 20 catalog) 25))
     = true <-> (20 > 0)%Z).
Proof.
  pose proof (pageInfo_of_connection product_id_ 10 (Int 20) (drop 20 catalog) 25
                eq_refl eq_refl eq_refl eq_refl eq_refl) as H.
  cbv zeta in H. destruct H as (_ & _ & _ & _ & H & _).
  exact (H 20%Z eq_refl).
Defined.

(** *** The three resolvers *)

Section Resolvers.
Context {F : FilterSchema} {Node OrderNode : Type}.
Variable productDAO : ProductDAO F.
Variable orderDAO : OrderDAO.
Variable transformProduct : Product -> Node.
Variable transformOrder : Order -> OrderNode.

Abbreviation searchWith := (searchWith productDAO transformProduct).
Abbreviation products := (Pager.products productDAO transformProduct).
Abbreviation searchProducts := (Pager.searchProducts productDAO transformProduct).
Abbreviation myOrders := (Pager.myOrders orderDAO transformOrder).

Lemma searchWith_accepted term filter f input p :
  parseFilter F filter = inr f ->
  CursorInputSchema_parse input = Returns p ->
  searchWith term filter input =
  answer transformProduct (limitOf p) (offsetOf p)
    (Dao.searchProducts productDAO term f (limitOf p) (offsetOf p)).
Proof.
  intros Hf Hp. unfold Pager.searchWith, ProductFilterSchema_parse, answer.
  rewrite Hf, Hp.
  destruct (Dao.searchProducts _ _ _ _ _) as [[rows total]|e]; reflexivity.
Qed.

Lemma searchWith_rejected term filter f input messages :
  parseFilter F filter = inr f ->
  CursorInputSchema_parse input = Throws (ZodError messages) ->
  searchWith term filter input =
  Throws (Error ("Validation error: " ++ join ", " messages)).
Proof.
  intros Hf Hp. unfold Pager.searchWith, ProductFilterSchema_parse.
  rewrite Hf, Hp. reflexivity.
Qed.

Lemma myOrders_accepted input p context u :
  user context = Some u ->
  CursorInputSchema_parse input = Returns p ->
  myOrders input context =
  answer transformOrder (limitOf p) (offsetOf p)
    (findByUser orderDAO (userId u) (limitOf p) (offsetOf p)).
Proof.
  intros Hu Hp. unfold Pager.myOrders, requireAuth, answer. rewrite Hu, Hp.
  destruct (findByUser _ _ _ _) as [[rows total]|e]; reflexivity.
Qed.

(** A connection a resolver returns is the one built from the
    validated limit and offset and from what the store returned. *)
Lemma searchWith_Returns term filter input connection :
  searchWith term filter input = Returns connection ->
  exists f p rows total,
    parseFilter F filter = inr f /\
    CursorInputSchema_parse input = Returns p /\
    Dao.searchProducts productDAO term f (limitOf p) (offsetOf p) = Returns (rows, total) /\
    connection = makeConnection transformProduct (limitOf p) (offsetOf p) rows total.
Proof.
  unfold Pager.searchWith, ProductFilterSchema_parse, guarded.
  destruct (parseFilter F filter) as [issues|f]; [discriminate|].
  destruct (CursorInputSchema_parse input) as [p|e]; [|destruct e; discriminate].
  destruct (Dao.searchProducts _ _ _ _ _) as [[rows total]|e] eqn:E;
    [|destruct e; discriminate].
  intros [= <-]. exists f, p, rows, total. auto.
Qed.

Lemma myOrders_Returns input context connection :
  myOrders input context = Returns connection ->
  exists u p rows total,
    user context = Some u /\
    CursorInputSchema_parse input = Returns p /\
    findByUser orderDAO (userId u) (limitOf p) (offsetOf p) = Returns (rows, total) /\
    connection = makeConnection transformOrder (limitOf p) (offsetOf p) rows total.
Proof.
  unfold Pager.myOrders, requireAuth, guarded.
  destruct (user context) as [u|]; [|discriminate].
  destruct (CursorInputSchema_parse input) as [p|e]; [|destruct e; discriminate].
  destruct (findByUser _ _ _ _) as [[rows total]|e] eqn:E;
    [|destruct e; discriminate].
  intros [= <-]. exists u, p, rows, total. auto.
Qed.

Lemma myOrders_rejected input context u messages :
  user context = Some u ->
  CursorInputSchema_parse input = Throws (ZodError messages) ->
  myOrders input context =
  Throws (Error ("Validation error: " ++ join ", " messages)).
Proof.
  intros Hu Hp. unfold Pager.myOrders, requireAuth. rewrite Hu, Hp. reflexivity.
Qed.

(** C2 (as the code has it). When the pagination argument passes
    validation, the effective limit is greater than 0 and at most 100,
    the two bounds the schema checks: it is [first] when given, else
    [last] when given, else 20. A [first] or [last] above 100 is not
    capped: validation rejects the argument and the resolvers throw a
    validation error. *)
Theorem limit_within_bounds_or_rejected (input : CursorInput) :
  match CursorInputSchema_parse input with
  | Returns p =>
      (0 < limitOf p <= 100)%Z /\
      limitOf p = match first p, last p with
                  | Some z, _ => z
                  | None, Some z => z
                  | None, None => 20%Z
                  end
  | Throws e => exists messages, e = ZodError messages /\ messages <> []
  end /\
  (forall z, (100 < z)%Z ->
     raw_first input = VNumber z \/ raw_last input = VNumber z ->
     exists messages,
       CursorInputSchema_parse input = Throws (ZodError messages) /\
       (forall q filter context f,
          parseFilter F filter = inr f ->
          products filter input context =
          Throws (Error ("Validation error: " ++ join ", " messages)) /\
          searchProducts q filter input context =
          Throws (Error ("Validation error: " ++ join ", " messages))) /\
       (forall context u,
          user context = Some u ->
          myOrders input context =
          Throws (Error ("Validation error: " ++ join ", " messages)))).
Proof.
  split.
  - destruct (CursorInputSchema_parse input) as [p|e] eqn:Hp.
    + destruct (limitOf_accepted input p Hp) as [Hb He].
      split; [lia|exact He].
    + unfold CursorInputSchema_parse in Hp.
      destruct (positiveMaxOptional 100 (raw_first input)) as [i1 f].
      destruct (stringOptional (raw_after input)) as [i2 a].
      destruct (positiveMaxOptional 100 (raw_last input)) as [i3 l].
      destruct (stringOptional (raw_before input)) as [i4 b].
      destruct (i1 ++ i2 ++ i3 ++ i4)%list as [|m ms]; [discriminate|].
      injection Hp as <-. exists (m :: ms). split; [reflexivity|discriminate].
  - intros z Hz Hraw.
    destruct (parse_above_max input z Hz Hraw) as (messages & _ & Hm).
    exists messages. split; [exact Hm|]. split.
    + intros q filter context f Hf.
      split; eapply searchWith_rejected; eassumption.
    + intros context u Hu. eapply myOrders_rejected; eassumption.
Qed.

(** C10 (as the code has it). When the pagination argument omits
    both [first] and [last], the limit is 20; when it omits [after]
    as well (or gives the empty text), the offset is 0, and the
    three resolvers ask the store for 20 rows from offset 0. *)
Theorem default_page_size (input : CursorInput) (p : Pagination) :
  CursorInputSchema_parse input = Returns p ->
  raw_first input = VUndefined ->
  raw_last input = VUndefined ->
  limitOf p = 20%Z /\
  (raw_after input = VUndefined \/ raw_after input = VString "" ->
   offsetOf p = Int 0 /\
   (forall q filter context f,
      parseFilter F filter = inr f ->
      products filter input context =
      answer transformProduct 20 (Int 0)
        (Dao.searchProducts productDAO "" f 20 (Int 0)) /\
      searchProducts q filter input context =
      answer transformProduct 20 (Int 0)
        (Dao.searchProducts productDAO q f 20 (Int 0))) /\
   (forall context u,
      user context = Some u ->
      myOrders input context =
      answer transformOrder 20 (Int 0)
        (findByUser orderDAO (userId u) 20 (Int 0)))).
Proof.
  intros Hp Hfirst Hlast.
  pose proof (parse_Returns _ _ Hp) as (_ & Hf & Ha & Hl & _).
  assert (Hlimit : limitOf p = 20%Z).
  { unfold limitOf. rewrite Hf, Hl, Hfirst, Hlast. reflexivity. }
  split; [exact Hlimit|]. intros Hafter.
  assert (Hoffset : offsetOf p = Int 0).
  { unfold offsetOf. rewrite Ha. destruct Hafter as [-> | ->]; reflexivity. }
  split; [exact Hoffset|]. split.
  - intros q filter context f Hfilter.
    unfold Pager.products, Pager.searchProducts.
    rewrite !(searchWith_accepted _ filter f input p Hfilter Hp).
    rewrite Hlimit, Hoffset. split; reflexivity.
  - intros context u Hu.
    rewrite (myOrders_accepted input p context u Hu Hp).
    rewrite Hlimit, Hoffset. reflexivity.
Qed.

(** C3 (as the code has it). For every text supplied as the
    [after] cursor of a pagination argument that passes validation,
    decoding does not fail: the offset is what [parseInt] reads in
    the decoded text, which is [NaN] when no integer can be read and
    may be negative, and 0 for the empty text. The resolvers hand
    this offset to the store unchecked and answer with the
    connection built from the store's rows; they throw only what the
    store throws. *)
Theorem after_cursor_never_rejected (input : CursorInput) (p : Pagination)
    (cursor : string) :
  CursorInputSchema_parse input = Returns p ->
  raw_after input = VString cursor ->
  offsetOf p = (if truthy cursor then parseInt (decodeCursor cursor) else Int 0) /\
  (forall q filter context f,
     parseFilter F filter = inr f ->
     products filter input context =
     answer transformProduct (limitOf p) (offsetOf p)
       (Dao.searchProducts productDAO "" f (limitOf p) (offsetOf p)) /\
     searchProducts q filter input context =
     answer transformProduct (limitOf p) (offsetOf p)
       (Dao.searchProducts productDAO q f (limitOf p) (offsetOf p))) /\
  (forall context u,
     user context = Some u ->
     myOrders input context =
     answer transformOrder (limitOf p) (offsetOf p)
       (findByUser orderDAO (userId u) (limitOf p) (offsetOf p))).
Proof.
  intros Hp Hafter.
  pose proof (parse_Returns _ _ Hp) as (_ & _ & Ha & _).
  split.
  - unfold offsetOf. rewrite Ha, Hafter. reflexivity.
  - split.
    + intros q filter context f Hf. unfold Pager.products, Pager.searchProducts.
      rewrite !(searchWith_accepted _ filter f input p Hf Hp). split; reflexivity.
    + intros context u Hu. apply myOrders_accepted; assumption.
Qed.

(** Any text at all is accepted as a cursor. *)
Lemma any_cursor_accepted (cursor : string) :
  CursorInputSchema_parse (afterOnly cursor) =
  Returns {| first := None; after := Some cursor; last := None; before := None |}.
Proof. reflexivity. Qed.

End Resolvers.

(** C3, as stated, fails: the cursor [LTU=] decodes to [-5], which is
    not a non-negative offset, and the query is answered all the same,
    from offset -5; the cursor [%%%] decodes to the empty text and the
    offset handed to the store is [NaN]. *)
Lemma undecodable_cursor_is_not_rejected :
  decodeCursor "LTU=" = "-5" /\
  (exists connection,
     Pager.products shelf product_id_ tt (afterOnly "LTU=") anonymous
       = Returns connection /\
     length (edges connection) = 20%nat /\
     startCursor (pageInfo connection) = Some "LTU=") /\
  decodeCursor "%%%" = "" /\
  exists p, CursorInputSchema_parse (afterOnly "%%%") = Returns p /\
            offsetOf p = NaN.
Proof.
  split; [reflexivity|]. split.
  - eexists. split; [reflexivity|]. split; reflexivity.
  - split; [reflexivity|]. eexists. split; reflexivity.
Qed.

Lemma after_cursor_never_rejected_witness :
  offsetOf {| first := None; after := Some "%%%"; last := None; before := None |} = NaN /\
  Pager.products shelf product_id_ tt (afterOnly "%%%") anonymous =
  answer product_id_ 20 NaN (Dao.searchProducts shelf "" tt 20 NaN).
Proof.
  destruct (after_cursor_never_rejected shelf ledger product_id_ order_id_
              (afterOnly "%%%")
              {| first := None; after := Some "%%%"; last := None; before := None |}
              "%%%" eq_refl eq_refl) as (Ho & Hs & _).
  split; [exact Ho|].
  destruct (Hs "" tt anonymous tt eq_refl) as [H _]. exact H.
Defined.

(** C2, as stated, fails: a request for 101 rows is not capped to 100,
    it is rejected. *)
Lemma limit_above_max_is_rejected :
  returns (Pager.products shelf product_id_ tt (firstOnly 101) anonymous) = false /\
  ~ exists p, CursorInputSchema_parse (firstOnly 101) = Returns p.
Proof.
  split; [reflexivity|]. intros [p Hp]. discriminate Hp.
Qed.

(** A request for 100 rows, and one that names no limit, pass. *)
Example limit_100_accepted :
  limitOf <$> (match CursorInputSchema_parse (firstOnly 100) with
               | Returns p => Some p | Throws _ => None end) = Some 100%Z.
Proof. reflexivity. Qed.

Lemma limit_within_bounds_or_rejected_witness :
  exists messages,
    CursorInputSchema_parse (firstOnly 101) = Throws (ZodError messages).
Proof.
  destruct (limit_within_bounds_or_rejected shelf ledger product_id_ order_id_
              (firstOnly 101)) as [_ H].
  destruct (H 101%Z) as (messages & Hm & _); [lia | left; reflexivity |].
  exists messages. exact Hm.
Defined.

(** C10, as stated, fails: with [first] and [last] omitted the offset
    is still the one the [after] cursor names, here 5. *)
Lemma default_offset_follows_after :
  raw_first (afterOnly "NQ==") = VUndefined /\
  raw_last (afterOnly "NQ==") = VUndefined /\
  exists p, CursorInputSchema_parse (afterOnly "NQ==") = Returns p /\
            limitOf p = 20%Z /\ offsetOf p = Int 5 /\ offsetOf p <> Int 0.
Proof.
  split; [reflexivity|]. split; [reflexivity|].
  eexists. split; [reflexivity|]. split; [reflexivity|].
  split; [reflexivity|discriminate].
Qed.

Lemma default_page_size_witness :
  limitOf {| first := None; after := None; last := None; before := None |} = 20%Z /\
  (raw_after noPagination = VUndefined \/ raw_after noPagination = VString "" ->
   offsetOf {| first := None; after := None; last := None; before := None |} = Int 0 /\
   (forall q filter context f,
      parseFilter noFilter filter = inr f ->
      Pager.products shelf product_id_ filter noPagination context =
      answer product_id_ 20 (Int 0) (Dao.searchProducts shelf "" f 20 (Int 0)) /\
      Pager.searchProducts shelf product_id_ q filter noPagination context =
      answer product_id_ 20 (Int 0) (Dao.searchProducts shelf q f 20 (Int 0))) /\
   (forall context u,
      user context = Some u ->
      Pager.myOrders ledger order_id_ noPagination context =
      answer order_id_ 20 (Int 0) (findByUser ledger (userId u) 20 (Int 0)))).
Proof.
  apply (default_page_size shelf ledger product_id_ order_id_ noPagination);
    reflexivity.
Defined.

End PagerFacts.

(** ** Persisted queries: registration, lookup and removal *)

Module StoreFacts.
Import Cache PersistedQueries StoreStats Samples MoreSamples.

Section Store.
Context {W : Type}.
Variable JSON : Json.
Variable cacheService : CacheService W.
Variable now : Z.

Abbreviation getQuery := (getQuery JSON cacheService).
Abbreviation addQuery := (addQuery JSON cacheService now).
Abbreviation removeQuery := (removeQuery cacheService).
Abbreviation handleRequest := (handleRequest JSON cacheService now).

(** Registration never throws, whatever the shared tier does, and
    leaves the memory map with the body under the hash. *)
Lemma addQuery_memory (store : PersistedQueryStore) (w : W) h q :
  exists w',
    addQuery h q (store, w) =
    (Returns tt,
     ({| queries := <[h := {| query := q; hash := h; addedAt := now |}]> (queries store);
         useRedis := useRedis store |}, w')).
Proof.
  unfold PersistedQueries.addQuery, bind, this, setQueries, try_catch, onServer, ret.
  simpl. destruct (useRedis store); [|eexists; reflexivity].
  destruct (set cacheService _ _ _ w) as [[b|e] w']; eexists; reflexivity.
Qed.

Lemma removeQuery_memory (store : PersistedQueryStore) (w : W) h :
  exists w',
    removeQuery h (store, w) =
    (Returns tt,
     ({| queries := delete h (queries store); useRedis := useRedis store |}, w')).
Proof.
  unfold PersistedQueries.removeQuery, bind, this, setQueries, try_catch, onServer, ret.
  simpl. destruct (useRedis store); [|eexists; reflexivity].
  destruct (del cacheService _ w) as [[b|e] w']; eexists; reflexivity.
Qed.

Lemma getQuery_memory (store : PersistedQueryStore) (w : W) h pq :
  queries store !! h = Some pq ->
  getQuery h (store, w) = (Returns (Some (query pq)), (store, w)).
Proof.
  intros Hq. unfold PersistedQueries.getQuery, bind, this. simpl.
  rewrite Hq. reflexivity.
Qed.

(** X1. A body registered under a hash is found by that hash, from
    memory, whatever state the store and the shared tier were in; a
    request carrying the hash alone is answered with it. *)
Theorem register_then_resolve (st : St) (h q : string) :
  let st1 := snd (addQuery h q st) in
  fst (addQuery h q st) = Returns tt /\
  getQuery h st1 = (Returns (Some q), st1) /\
  (truthy h = true -> truthy q = true ->
   handleRequest {| request_query := None; sha256Hash := Some h |} st1 =
   (Returns {| handled_query := Some q; handled_hash := None |}, st1)).
Proof.
  destruct st as [store w].
  destruct (addQuery_memory store w h q) as [w' Ha]. rewrite Ha. simpl.
  assert (Hg : getQuery h
                 ({| queries := <[h := {| query := q; hash := h; addedAt := now |}]>
                                  (queries store);
                     useRedis := useRedis store |}, w')
               = (Returns (Some q),
                  ({| queries := <[h := {| query := q; hash := h; addedAt := now |}]>
                                   (queries store);
                      useRedis := useRedis store |}, w'))).
  { apply (getQuery_memory _ _ h {| query := q; hash := h; addedAt := now |}).
    apply lookup_insert_eq. }
  split; [reflexivity|]. split; [exact Hg|].
  intros Hh Hq. unfold PersistedQueries.handleRequest. simpl. rewrite Hh.
  unfold bind. rewrite Hg. simpl. rewrite Hq. reflexivity.
Qed.

(** X2. Registering a hash again replaces the body without complaint:
    the last body registered is the one found, and the other hashes in
    memory keep their bodies. *)
Theorem last_registration_wins (st : St) (h q1 q2 : string) :
  let st2 := snd (addQuery h q2 (snd (addQuery h q1 st))) in
  getQuery h st2 = (Returns (Some q2), st2) /\
  forall h', h' <> h -> queries (fst st2) !! h' = queries (fst st) !! h'.
Proof.
  destruct st as [store w].
  destruct (addQuery_memory store w h q1) as [w1 H1]. rewrite H1. simpl.
  match goal with |- context [addQuery h q2 (?s, w1)] =>
    destruct (addQuery_memory s w1 h q2) as [w2 H2] end.
  rewrite H2. simpl. split.
  - apply (getQuery_memory _ _ h {| query := q2; hash := h; addedAt := now |}).
    apply lookup_insert_eq.
  - intros h' Hne. rewrite !lookup_insert_ne by congruence. reflexivity.
Qed.

(** X3. A lookup never throws: an error of the shared tier or of the
    codec is swallowed. It leaves the [useRedis] flag and the entry of
    every other hash as they were, and with the shared tier off it
    changes nothing at all. *)
Theorem getQuery_never_throws (st : St) (h : string) :
  exists found st',
    getQuery h st = (Returns found, st') /\
    useRedis (fst st') = useRedis (fst st) /\
    (forall h', h' <> h -> queries (fst st') !! h' = queries (fst st) !! h') /\
    (useRedis (fst st) = false -> st' = st).
Proof.
  destruct st as [store w].
  unfold PersistedQueries.getQuery, bind, this, try_catch, onServer, setQueries, ret, throw.
  simpl. destruct (queries store !! h) as [pq|] eqn:Hq.
  - eexists _, _. split; [reflexivity|]. split; [reflexivity|]. split; reflexivity.
  - destruct (useRedis store) eqn:Hr.
    + destruct (get cacheService (key_of h) w) as [[cached|e] w1].
      * destruct (truthy_opt cached).
        -- destruct (parse JSON (default "" cached)) as [pq|e].
           ++ eexists _, _. split; [reflexivity|]. simpl.
              split; [auto|]. split; [|discriminate].
              intros h' Hne. rewrite lookup_insert_ne by congruence. reflexivity.
           ++ eexists _, _. split; [reflexivity|]. simpl.
              split; [auto|]. split; [reflexivity|discriminate].
        -- eexists _, _. split; [reflexivity|]. simpl.
           split; [auto|]. split; [reflexivity|discriminate].
      * eexists _, _. split; [reflexivity|]. simpl.
        split; [auto|]. split; [reflexivity|discriminate].
    + eexists _, _. split; [reflexivity|]. simpl.
      split; [auto|]. split; [reflexivity|]. intros _. reflexivity.
Qed.

(** X4. A hash missing from memory but present in the shared tier is
    read from there, decoded, and copied into memory: the next lookup
    is answered from memory and leaves the server alone. *)
Theorem getQuery_backfills (store : PersistedQueryStore) (w w1 : W)
    (h text : string) (pq : PersistedQuery) :
  queries store !! h = None ->
  useRedis store = true ->
  get cacheService (key_of h) w = (Returns (Some text), w1) ->
  truthy text = true ->
  parse JSON text = Returns pq ->
  let st1 := ({| queries := <[h := pq]> (queries store); useRedis := true |}, w1) in
  getQuery h (store, w) = (Returns (Some (query pq)), st1) /\
  getQuery h st1 = (Returns (Some (query pq)), st1).
Proof.
  intros Hq Hr Hget Ht Hp st1. split.
  - unfold PersistedQueries.getQuery, bind, this, try_catch, onServer, setQueries, ret.
    simpl. rewrite Hq, Hr, Hget. simpl. rewrite Ht, Hp. simpl. rewrite Hr. reflexivity.
  - apply getQuery_memory. simpl. apply lookup_insert_eq.
Qed.

(** X5. Removal never throws and forgets the hash in memory, leaving
    the other hashes alone; with the shared tier off, the hash is not
    found any more and a request for it is answered not-found. *)
Theorem removeQuery_forgets (st : St) (h : string) :
  let st1 := snd (removeQuery h st) in
  fst (removeQuery h st) = Returns tt /\
  queries (fst st1) !! h = None /\
  (forall h', h' <> h -> queries (fst st1) !! h' = queries (fst st) !! h') /\
  (useRedis (fst st) = false ->
   getQuery h st1 = (Returns None, st1) /\
   (truthy h = true ->
    forall body,
      handleRequest {| request_query := body; sha256Hash := Some h |} st1 =
      (Throws (notFound h), st1))).
Proof.
  destruct st as [store w].
  destruct (removeQuery_memory store w h) as [w' Hrm]. rewrite Hrm. simpl.
  split; [reflexivity|]. split; [apply lookup_delete_eq|].
  split; [intros h' Hne; apply lookup_delete_ne; congruence|].
  intros Hr.
  assert (Hg : getQuery h ({| queries := delete h (queries store);
                              useRedis := useRedis store |}, w')
               = (Returns None, ({| queries := delete h (queries store);
                                    useRedis := useRedis store |}, w'))).
  { unfold PersistedQueries.getQuery, bind, this, ret. simpl.
    rewrite lookup_delete_eq, Hr. reflexivity. }
  split; [exact Hg|]. intros Hh body.
  unfold PersistedQueries.handleRequest. simpl. rewrite Hh.
  unfold bind. rewrite Hg. reflexivity.
Qed.

(** X6. A request whose hash is known in memory is answered with the
    stored text alone: the body it carries, if any, is neither returned
    nor registered, and nothing changes. A hash stored with the empty
    text is answered not-found. *)
Theorem handleRequest_known_hash (store : PersistedQueryStore) (w : W)
    (h : string) (pq : PersistedQuery) (body : option string) :
  truthy h = true ->
  queries store !! h = Some pq ->
  handleRequest {| request_query := body; sha256Hash := Some h |} (store, w) =
  (if truthy (query pq)
   then Returns {| handled_query := Some (query pq); handled_hash := None |}
   else Throws (notFound h),
   (store, w)).
Proof.
  intros Hh Hq. unfold PersistedQueries.handleRequest. simpl. rewrite Hh.
  unfold bind. rewrite (getQuery_memory store w h pq Hq). simpl.
  destruct (truthy (query pq)); reflexivity.
Qed.

(** X7. The counters report the number of distinct hashes held in
    memory: registering a new hash adds one, registering a known hash
    changes nothing. *)
Theorem getStats_counts_hashes (st : St) (h q : string) :
  let before := getStats (fst st) in
  let after := getStats (fst (snd (addQuery h q st))) in
  totalQueries after =
    match queries (fst st) !! h with
    | Some _ => totalQueries before
    | None => S (totalQueries before)
    end /\
  memoryQueries after = totalQueries after.
Proof.
  destruct st as [store w].
  destruct (addQuery_memory store w h q) as [w' Ha]. rewrite Ha. simpl.
  split; [|reflexivity].
  destruct (queries store !! h) eqn:Hq.
  - apply map_size_insert_Some. eauto.
  - apply map_size_insert_None. exact Hq.
Qed.

End Store.

Lemma getQuery_backfills_witness :
  getQuery queryJson onlineCache "abc"
    (sharedStore, {[ "persisted_query:abc" := "query { me }" ]})
  = (Returns (Some "query { me }"),
     ({| queries := {[ "abc" := {| query := "query { me }"; hash := ""; addedAt := 0 |} ]};
         useRedis := true |},
      {[ "persisted_query:abc" := "query { me }" ]})).
Proof.
  refine (proj1 (getQuery_backfills queryJson onlineCache sharedStore
                   {[ "persisted_query:abc" := "query { me }" ]}
                   {[ "persisted_query:abc" := "query { me }" ]}
                   "abc" "query { me }"
                   {| query := "query { me }"; hash := ""; addedAt := 0 |}
                   _ _ _ _ _)); reflexivity.
Defined.

Lemma handleRequest_known_hash_witness :
  handleRequest textJson offlineCache 0
    {| request_query := Some "query { orders }"; sha256Hash := Some "abc" |}
    ({| queries := {[ "abc" := {| query := "query { me }"; hash := "abc"; addedAt := 0 |} ]};
        useRedis := false |}, tt)
  = (Returns {| handled_query := Some "query { me }"; handled_hash := None |},
     ({| queries := {[ "abc" := {| query := "query { me }"; hash := "abc"; addedAt := 0 |} ]};
         useRedis := false |}, tt)).
Proof.
  apply (handleRequest_known_hash textJson offlineCache 0
           {| queries := {[ "abc" := {| query := "query { me }"; hash := "abc";
                                        addedAt := 0 |} ]};
              useRedis := false |} tt "abc"
           {| query := "query { me }"; hash := "abc"; addedAt := 0 |}
           (Some "query { orders }")); reflexivity.
Defined.

End StoreFacts.

(** ** Response cache: connection handling, pattern deletion, key names *)

Module CacheAdminFacts.
Import Cache CacheAdmin.

Section Service.
Context {W : Type}.
Implicit Types (this : FullService W) (w : W).

(** X8. [connect] never throws. When the connection attempt fails the
    service goes into mock mode: it reports itself healthy, every [get]
    misses and [exists] says no, while [set], [del] and [delPattern]
    report success although nothing is stored; none of them reaches a
    server. *)
Theorem connect_failure_is_mock_mode (createClient : outcome (FullClient W)) this w :
  returns (fst (connect createClient (this, w))) = true /\
  (connectFails createClient w ->
   let this' := fst (snd (connect createClient (this, w))) in
   isHealthy (service this') = true /\
   forall key value ttl pattern w',
     get (service this') key w' = (Returns None, w') /\
     set (service this') key value ttl w' = (Returns true, w') /\
     del (service this') key w' = (Returns true, w') /\
     exists_ (service this') key w' = (Returns false, w') /\
     delPattern this' pattern w' = (Returns true, w')).
Proof.
  unfold connect, connectFails. split.
  - destruct createClient as [c|e]; [|reflexivity].
    destruct (client_connect c w) as [[events|e] w']; reflexivity.
  - intros Hfail.
    assert (Hmock : fst (snd (match createClient with
                              | Returns c =>
                                  match client_connect c w with
                                  | (Returns events, w') =>
                                      (Returns tt,
                                       ({| fclient := Some c;
                                           fconnected := fold_left handle events
                                                           (fconnected this) |}, w'))
                                  | (Throws _, w') =>
                                      (Returns tt,
                                       ({| fclient := Some mockClient;
                                           fconnected := true |}, w'))
                                  end
                              | Throws _ =>
                                  (Returns tt,
                                   ({| fclient := Some mockClient;
                                       fconnected := true |}, w))
                              end))
                    = {| fclient := Some mockClient; fconnected := true |}).
    { destruct createClient as [c|e]; [|reflexivity].
      destruct (client_connect c w) as [[events|e] w']; [discriminate Hfail|reflexivity]. }
    rewrite Hmock. split; [reflexivity|].
    intros key value ttl pattern w'. repeat split.
    destruct ttl as [ttl|]; [|reflexivity].
    unfold set, setCall. simpl. destruct (ttl =? 0)%Z; reflexivity.
Qed.

(** X9. [delPattern] never throws; it answers [false] when there is no
    client, when the client is not connected and when listing or
    deleting the keys throws; when no key matches it answers [true]
    without issuing a delete. *)
Theorem delPattern_degrades this (pattern : string) w :
  returns (fst (delPattern this pattern w)) = true /\
  (unusable (service this) = true -> delPattern this pattern w = (Returns false, w)) /\
  (forall c, fclient this = Some c -> fconnected this = true ->
     (forall e w', client_keys c pattern w = (Throws e, w') ->
        delPattern this pattern w = (Returns false, w')) /\
     (forall w', client_keys c pattern w = (Returns [], w') ->
        delPattern this pattern w = (Returns true, w')) /\
     (forall keys w', client_keys c pattern w = (Returns keys, w') -> keys <> [] ->
        delPattern this pattern w =
        match client_delKeys c keys w' with
        | (Returns _, w'') => (Returns true, w'')
        | (Throws _, w'') => (Returns false, w'')
        end)).
Proof.
  unfold delPattern, unusable, service, try_catch, bind, ret. simpl.
  destruct (fclient this) as [c|]; simpl.
  - destruct (fconnected this); simpl.
    + split.
      * destruct (client_keys c pattern w) as [[keys|e] w1]; [|reflexivity].
        destruct keys as [|k keys]; simpl; [reflexivity|].
        destruct (client_delKeys c (k :: keys) w1) as [[n|e] w2]; reflexivity.
      * split; [discriminate|]. intros c' [= <-] _. repeat split.
        -- intros e w' ->. reflexivity.
        -- intros w' ->. reflexivity.
        -- intros keys w' -> Hne. destruct keys as [|k keys]; [contradiction|].
           simpl. destruct (client_delKeys c (k :: keys) w') as [[n|e] w2]; reflexivity.
    + split; [reflexivity|]. split; [reflexivity|]. intros c' _ [=].
  - split; [reflexivity|]. split; [reflexivity|]. intros c' [=].
Qed.

(** X10. [disconnect] does nothing when there is no client or the
    client is not connected. Otherwise it asks the client to
    disconnect: when that returns, the service is no longer healthy and
    [get], [set], [del] and [exists] miss without reaching the server;
    when that throws, [disconnect] throws and the service still counts
    as connected. *)
Theorem disconnect_then_miss this w :
  (unusable (service this) = true -> disconnect (this, w) = (Returns tt, (this, w))) /\
  (forall c, fclient this = Some c -> fconnected this = true ->
     (forall w', client_disconnect c w = (Returns tt, w') ->
        exists this',
          disconnect (this, w) = (Returns tt, (this', w')) /\
          isHealthy (service this') = false /\
          forall key value ttl w'',
            get (service this') key w'' = (Returns None, w'') /\
            set (service this') key value ttl w'' = (Returns false, w'') /\
            del (service this') key w'' = (Returns false, w'') /\
            exists_ (service this') key w'' = (Returns false, w'')) /\
     (forall e w', client_disconnect c w = (Throws e, w') ->
        disconnect (this, w) = (Throws e, (this, w')) /\
        isHealthy (service this) = true)).
Proof.
  unfold disconnect, unusable, service. simpl. split.
  - destruct (fclient this) as [c|]; simpl; [|reflexivity].
    destruct (fconnected this); [discriminate|reflexivity].
  - intros c Hc Hconn. rewrite Hc, Hconn. split.
    + intros w' Hd. rewrite Hd. eexists. split; [reflexivity|].
      split; [reflexivity|]. intros key value ttl w''. repeat split.
    + intros e w' Hd. rewrite Hd. split; reflexivity.
Qed.

End Service.

(** X11. Cache keys of different kinds never coincide, and each kind
    names its entity without ambiguity: equal keys mean equal ids. *)
Theorem cacheKeys_do_not_collide (a b : string) :
  (userKey a = userKey b -> a = b) /\
  (productKey a = productKey b -> a = b) /\
  (productsKey a = productsKey b -> a = b) /\
  (orderKey a = orderKey b -> a = b) /\
  (cartKey a = cartKey b -> a = b) /\
  userKey a <> productKey b /\ userKey a <> productsKey b /\
  userKey a <> orderKey b /\ userKey a <> cartKey b /\
  productKey a <> productsKey b /\ productKey a <> orderKey b /\
  productKey a <> cartKey b /\ productsKey a <> orderKey b /\
  productsKey a <> cartKey b /\ orderKey a <> cartKey b /\
  (forall q f, userKey a <> searchKey q f /\ productKey a <> searchKey q f /\
               productsKey a <> searchKey q f /\ orderKey a <> searchKey q f /\
               cartKey a <> searchKey q f).
Proof.
  unfold userKey, productKey, productsKey, orderKey, cartKey, searchKey.
  repeat split; try (intros H; apply (inj (String.app _)) in H; exact H);
    try (intros H; discriminate H).
  all: intros; intros H; discriminate H.
Qed.

(** The search key, by contrast, does not separate its two parts. *)
Example searchKey_ambiguous : searchKey "a:b" "c" = searchKey "a" "b:c".
Proof. reflexivity. Qed.

End CacheAdminFacts.

(** ** Authentication service: headers, guards and session identifiers *)

Module AuthFacts.
Import Auth Context AuthMore GuardFacts.

Lemma split_cons_other (sep c : ascii) (r : string) :
  Ascii.eqb c sep = false ->
  exists w ws, split sep r = w :: ws /\ split sep (String c r) = String c w :: ws.
Proof.
  intros Hc. pose proof (split_not_nil sep r) as Hne. simpl. rewrite Hc.
  destruct (split sep r) as [|w ws]; [congruence|]. eauto.
Qed.

(** A text splits into one piece exactly when the separator is absent. *)
Lemma split_single_iff (sep : ascii) (s : string) :
  (exists a, split sep s = [a]) <-> ~ In sep (list_ascii_of_string s).
Proof.
  induction s as [|c r IH]; simpl.
  - split; [intros _ []|eauto].
  - destruct (Ascii.eqb c sep) eqn:Hc.
    + apply Ascii.eqb_eq in Hc. subst c. split.
      * intros [a Ha]. pose proof (split_not_nil sep r).
        destruct (split sep r); [congruence|discriminate].
      * intros Hn. destruct Hn. left. reflexivity.
    + pose proof (split_not_nil sep r) as Hne.
      assert (Hcs : c <> sep) by (intros ->; rewrite Ascii.eqb_refl in Hc; discriminate).
      destruct (split sep r) as [|w ws] eqn:Hs; [congruence|]. split.
      * intros [a [= <- ->]]. intros [Heq | Hin]; [congruence|].
        apply IH in Hin; [exact Hin|eauto].
      * intros Hn. assert (Hr : ~ In sep (list_ascii_of_string r)) by tauto.
        apply IH in Hr as [a [= -> ->]]. eauto.
Qed.

Lemma split_after_bearer (token : string) :
  split " " ("Bearer " ++ token) = "Bearer" :: split " " token.
Proof.
  pose proof (split_not_nil " " token) as Hne.
  change ("Bearer " ++ token) with
    (String "B" (String "e" (String "a" (String "r" (String "e" (String "r"
       (String " " token))))))).
  simpl. destruct (split " " token) as [|w ws]; [congruence|reflexivity].
Qed.

(** X12. [extractTokenFromHeader] returns a token exactly for the
    headers [Bearer <token>] whose token is not empty and holds no
    space; any other header, and no header, gives [null]. *)
Theorem extractTokenFromHeader_exact (header : option string) (token : string) :
  extractTokenFromHeader header = Some token <->
  header = Some ("Bearer " ++ token) /\ token <> "" /\ spaceFree token.
Proof.
  split.
  - intros H. pose proof (extractToken_Some _ _ H) as [-> Ht].
    split; [reflexivity|]. split; [destruct token; [discriminate|discriminate]|].
    unfold extractTokenFromHeader in H. rewrite split_after_bearer in H. simpl in H.
    apply split_single_iff.
    destruct (split " " token) as [|a [|b l]]; try discriminate; eauto.
  - intros (-> & Hne & Hsf). unfold extractTokenFromHeader.
    rewrite split_after_bearer. apply split_single_iff in Hsf as [a Ha].
    pose proof Ha as Ha'. rewrite Ha. simpl.
    rewrite <- (join_split " " token), Ha' in Hne |- *. simpl in *.
    destruct a; [congruence|reflexivity].
Qed.

(** X13. [requireAdmin] admits exactly the privileged identities: no
    identity gives the authentication error, an identity without the
    privilege gives the privilege error; and whoever it admits,
    [requireOwnership] admits for every resource. *)
Theorem requireAdmin_exact (context : GraphQLContext) :
  (user context = None ->
   requireAdmin context = Throws (Error "Authentication required")) /\
  (forall u, user context = Some u -> isAdmin u = false ->
     requireAdmin context = Throws (Error "Admin privileges required")) /\
  (forall u, requireAdmin context = Returns u <->
     user context = Some u /\ isAdmin u = true) /\
  (forall u, requireAdmin context = Returns u ->
     forall resourceUserId, requireOwnership context resourceUserId = Returns u).
Proof.
  unfold requireAdmin, requireOwnership, requireAuth.
  destruct (user context) as [u0|]; simpl.
  - destruct (isAdmin u0) eqn:Ha; simpl.
    + split; [discriminate|]. split; [intros u [= <-]; congruence|]. split.
      * intros u. split; [intros [= <-]; auto|intros [[= <-] _]; reflexivity].
      * intros u [= <-] r. rewrite andb_false_r. reflexivity.
    + split; [discriminate|]. split; [reflexivity|]. split.
      * intros u. split; [discriminate|intros [[= <-] H]; congruence].
      * discriminate.
  - split; [reflexivity|]. split; [discriminate|]. split.
    + intros u. split; [discriminate|intros [[=] _]].
    + discriminate.
Qed.

Lemma charAt_chars (i : Z) :
  (0 <= i < 62)%Z -> exists c, charAt chars i = String c "" /\
                               In c (list_ascii_of_string chars).
Proof.
  intros Hi. unfold charAt. destruct (Z.ltb_spec i 0); [lia|].
  assert (Hn : (Z.to_nat i < 62)%nat) by lia.
  remember (Z.to_nat i) as n eqn:En. clear En Hi H.
  do 62 (destruct n as [|n]; [eexists; split; [reflexivity|]; simpl; tauto|]).
  lia.
Qed.

Lemma list_ascii_app (a b : string) :
  list_ascii_of_string (a ++ b) =
  (list_ascii_of_string a ++ list_ascii_of_string b)%list.
Proof.
  induction a as [|c a IH]; [reflexivity|].
  change (String c a ++ b) with (String c (a ++ b)). simpl. rewrite IH. reflexivity.
Qed.

Lemma length_string_app (a b : string) :
  String.length (a ++ b) = (String.length a + String.length b)%nat.
Proof.
  induction a as [|c a IH]; [reflexivity|].
  change (String c a ++ b) with (String c (a ++ b)). simpl. rewrite IH. reflexivity.
Qed.

Lemma sessionIdFrom_invariant (draw : nat -> Z) (count i : nat) (result : string) :
  (forall k, (0 <= draw k < 62)%Z) ->
  alphanumeric result ->
  String.length (sessionIdFrom draw count i result) = (String.length result + count)%nat /\
  alphanumeric (sessionIdFrom draw count i result).
Proof.
  intros Hd. revert i result. induction count as [|count IH]; intros i result Hr.
  - simpl. split; [lia|exact Hr].
  - simpl. destruct (charAt_chars (draw i) (Hd i)) as (c & Hc & Hin).
    rewrite Hc.
    assert (Ha : alphanumeric (result ++ String c "")).
    { unfold alphanumeric in *. rewrite list_ascii_app.
      apply Forall_app. split; [exact Hr|]. constructor; [exact Hin|constructor]. }
    destruct (IH (S i) (result ++ String c "") Ha) as [Hl Hal].
    split; [|exact Hal]. rewrite Hl, length_string_app. simpl. lia.
Qed.

(** X14. A session identifier has thirty-two characters, each a letter
    or a digit, provided every draw is an index into the alphabet. *)
Theorem generateSessionId_shape (draw : nat -> Z) :
  (forall k, (0 <= draw k < 62)%Z) ->
  String.length (generateSessionId draw) = 32%nat /\
  alphanumeric (generateSessionId draw).
Proof.
  intros Hd. unfold generateSessionId.
  destruct (sessionIdFrom_invariant draw 32 0 "" Hd) as [Hl Ha];
    [constructor|]. split; [exact Hl|exact Ha].
Qed.

Lemma generateSessionId_shape_witness :
  String.length (generateSessionId (fun k => Z.of_nat (k mod 62))) = 32%nat /\
  alphanumeric (generateSessionId (fun k => Z.of_nat (k mod 62))).
Proof.
  apply (generateSessionId_shape (fun k => Z.of_nat (k mod 62))).
  intros k. pose proof (Nat.mod_upper_bound k 62). lia.
Defined.

Example sessionId_sample :
  generateSessionId (fun k => Z.of_nat (k mod 62)) = "ABCDEFGHIJKLMNOPQRSTUVWXYZabcdef".
Proof. reflexivity. Qed.

(** A draw outside the alphabet adds nothing: the identifier is shorter. *)
Example sessionId_short :
  String.length (generateSessionId (fun k => if (k =? 0)%nat then 62%Z else 0%Z)) = 31%nat.
Proof. reflexivity. Qed.

End AuthFacts.

(** ** Query shape guard *)

Module ValidationFacts.
Import ValidationRules.

Lemma weight_bounds (name : string) : (1 <= weight name <= 10)%Z.
Proof.
  unfold weight.
  destruct (String.eqb name "products" || String.eqb name "searchProducts"); [lia|].
  destruct (String.eqb name "reviews" || String.eqb name "orderItems"); lia.
Qed.

Lemma visitFields_from (names : list string) (start : Z) :
  (start <= maxComplexity)%Z ->
  ((start + totalWeight names <= maxComplexity)%Z ->
   visitFields names start = (Returns tt, (start + totalWeight names)%Z)) /\
  ((start + totalWeight names > maxComplexity)%Z ->
   exists c,
     (maxComplexity < c <= maxComplexity + 10)%Z /\
     (c <= start + totalWeight names)%Z /\
     visitFields names start = (Throws (tooComplex c), c)).
Proof.
  revert start. induction names as [|name rest IH]; intros start Hs.
  - unfold totalWeight. simpl. split.
    + intros _. unfold ret. f_equal. lia.
    + intros H. lia.
  - pose proof (weight_bounds name) as Hw.
    assert (Hrest : forall l, (0 <= totalWeight l)%Z).
    { induction l as [|x l IHl]; unfold totalWeight in *; simpl; [lia|].
      pose proof (weight_bounds x). lia. }
    pose proof (Hrest rest) as Hr.
    assert (Ht : totalWeight (name :: rest) = (weight name + totalWeight rest)%Z)
      by reflexivity.
    rewrite Ht. cbn [visitFields]. unfold bind, Field.
    destruct (Z.gtb_spec (start + weight name) maxComplexity) as [Hgt|Hle].
    + split; [intros H; lia|]. intros _.
      exists (start + weight name)%Z. split; [lia|]. split; [lia|reflexivity].
    + destruct (IH (start + weight name)%Z Hle) as [IHok IHbad]. split.
      * intros H. rewrite IHok by lia. f_equal. lia.
      * intros H. destruct IHbad as (c & Hc1 & Hc2 & Hv); [lia|].
        exists c. split; [exact Hc1|]. split; [lia|exact Hv].
Qed.

(** X15. The complexity rule accepts a document exactly when the
    weighted sum of its fields (10 for [products] and [searchProducts],
    5 for [reviews] and [orderItems], 1 for any other) is at most 1000.
    A heavier document is rejected at the first field that takes the
    running sum over 1000, and the error names that running sum, which
    is between 1001 and 1010. *)
Theorem queryComplexityRule_threshold (names : list string) :
  ((totalWeight names <= 1000)%Z ->
   queryComplexityRule names = (Returns tt, totalWeight names)) /\
  ((totalWeight names > 1000)%Z ->
   exists c,
     (1000 < c <= 1010)%Z /\ (c <= totalWeight names)%Z /\
     queryComplexityRule names = (Throws (tooComplex c), c)).
Proof.
  unfold queryComplexityRule.
  destruct (visitFields_from names 0%Z) as [Hok Hbad]; [unfold maxComplexity; lia|].
  unfold maxComplexity in *. split.
  - intros H. apply Hok. lia.
  - intros H. destruct Hbad as (c & Hc1 & Hc2 & Hv); [lia|].
    exists c. split; [lia|]. split; [lia|exact Hv].
Qed.

Example hundred_product_lists_pass :
  fst (queryComplexityRule (repeat "products" 100)) = Returns tt.
Proof. reflexivity. Qed.

Example one_more_field_fails :
  fst (queryComplexityRule (repeat "products" 100 ++ ["id"])%list)
  = Throws (Error "Query complexity 1001 exceeds maximum allowed complexity of 1000").
Proof. reflexivity. Qed.

End ValidationFacts.

(** ** SQL helpers and the database service *)

Module DatabaseFacts.
Import Database.

Lemma literalValue_doubleQuotes (s : string) : literalValue (doubleQuotes s) = Some s.
Proof.
  induction s as [|c r IH]; [reflexivity|].
  cbn [doubleQuotes]. destruct (Ascii.eqb c quote) eqn:Hc.
  - apply Ascii.eqb_eq in Hc. subst c.
    cbn [literalValue]. rewrite Ascii.eqb_refl, IH. reflexivity.
  - cbn [literalValue]. rewrite Hc, IH. reflexivity.
Qed.

Lemma doubleQuotes_plain (s : string) :
  ~ In quote (list_ascii_of_string s) -> doubleQuotes s = s.
Proof.
  induction s as [|c r IH]; [reflexivity|]. simpl. intros Hn.
  destruct (Ascii.eqb c quote) eqn:Hc.
  - apply Ascii.eqb_eq in Hc. subst c. destruct Hn. left. reflexivity.
  - rewrite IH by tauto. reflexivity.
Qed.

Lemma doubleQuotes_length (s : string) :
  String.length (doubleQuotes s) =
  (String.length s + count_occ ascii_dec (list_ascii_of_string s) quote)%nat.
Proof.
  induction s as [|c r IH]; [reflexivity|]. simpl.
  destruct (Ascii.eqb c quote) eqn:Hc.
  - apply Ascii.eqb_eq in Hc. subst c.
    destruct (ascii_dec quote quote); [|congruence]. simpl. rewrite IH. lia.
  - assert (c <> quote) by (intros ->; rewrite Ascii.eqb_refl in Hc; discriminate).
    destruct (ascii_dec c quote); [congruence|]. simpl. rewrite IH. lia.
Qed.

(** X16. [escapeString] doubles every single quote and changes nothing
    else: read back as the body of a SQL string literal, the result
    denotes the very text given, so no quote in it can end the literal.
    A text without quotes comes back unchanged, and the result is longer
    than the text by the number of its quotes. *)
Theorem escapeString_denotes_input (str : string) :
  literalValue (escapeString str) = Some str /\
  (~ In quote (list_ascii_of_string str) -> escapeString str = str) /\
  String.length (escapeString str) =
  (String.length str + count_occ ascii_dec (list_ascii_of_string str) quote)%nat.
Proof.
  unfold escapeString. destruct str as [|c r]; [repeat split|].
  cbn [truthy negb]. split; [apply literalValue_doubleQuotes|].
  split; [apply doubleQuotes_plain|apply doubleQuotes_length].
Qed.

Example escape_obrien : escapeString "O'Brien" = "O''Brien".
Proof. reflexivity. Qed.

(** *** WHERE clauses *)

(** The entries that take part: those whose value is neither [null]
    nor [undefined]. *)
Lemma fold_whereStep (filters : list (string * bindValue)) (conditions : list string)
    (binds : gmap string bindValue) :
  fold_left whereStep filters (conditions, binds) =
  ((conditions ++ map (fun '(k, v) => condition k v)
                    (List.filter (fun '(_, v) => present v) filters))%list,
   fold_left (fun b '(k, v) => if present v then setProperty k v b else b) filters binds).
Proof.
  revert conditions binds. induction filters as [|[k v] rest IH]; intros conditions binds.
  - simpl. rewrite app_nil_r. reflexivity.
  - cbn [fold_left whereStep List.filter]. destruct (present v).
    + rewrite IH. cbn [map]. rewrite <- app_assoc. reflexivity.
    + rewrite IH. reflexivity.
Qed.

Lemma fold_binds_lookup (filters : list (string * bindValue))
    (binds : gmap string bindValue) (key : string) :
  List.NoDup (map fst filters) ->
  fold_left (fun b '(k, v) => if present v then setProperty k v b else b) filters binds !! key =
  match find (fun '(k, _) => String.eqb k key) filters with
  | Some (_, v) =>
      if present v && negb (String.eqb key "__proto__") then Some v else binds !! key
  | None => binds !! key
  end.
Proof.
  revert binds. induction filters as [|[k v] rest IH]; intros binds Hnd; [reflexivity|].
  inversion Hnd as [|? ? Hnotin Hnd']; subst. cbn [fold_left find].
  rewrite IH by exact Hnd'.
  destruct (String.eqb k key) eqn:Hk.
  - apply String.eqb_eq in Hk. subst key.
    assert (Hnone : find (fun '(k', _) => String.eqb k' k) rest = None).
    { destruct (find _ rest) as [[k' v']|] eqn:Hf; [|reflexivity].
      apply find_some in Hf as [Hin Heq]. apply String.eqb_eq in Heq. subst k'.
      destruct Hnotin. apply in_map_iff. exists (k, v'). auto. }
    rewrite Hnone. unfold setProperty.
    destruct (present v); [|reflexivity].
    destruct (String.eqb k "__proto__"); [reflexivity|apply lookup_insert_eq].
  - apply String.eqb_neq in Hk.
    assert (Hstep : (if present v then setProperty k v binds else binds) !! key
                    = binds !! key).
    { destruct (present v); [|reflexivity]. unfold setProperty.
      destruct (String.eqb k "__proto__"); [reflexivity|].
      apply lookup_insert_ne. exact Hk. }
    rewrite Hstep. reflexivity.
Qed.

(** X17. [buildWhereClause] binds exactly the entries whose value is
    neither [null] nor [undefined] and whose key is not [__proto__],
    each under its own key with its own value; an entry under the key
    [__proto__] gets its condition but no bind. The clause is empty
    exactly when every value is [null] or [undefined]. *)
Theorem buildWhereClause_binds (filters : list (string * bindValue)) :
  List.NoDup (map fst filters) ->
  (forall key value,
     binds (buildWhereClause filters) !! key = Some value <->
     In (key, value) filters /\ present value = true /\ key <> "__proto__") /\
  (whereClause (buildWhereClause filters) = "" <->
   forall key value, In (key, value) filters -> present value = false).
Proof.
  intros Hnd. unfold buildWhereClause. rewrite fold_whereStep. cbn [app]. simpl.
  split.
  - intros key value. rewrite fold_binds_lookup by exact Hnd. rewrite lookup_empty.
    split.
    + destruct (find _ filters) as [[k v]|] eqn:Hf; [|discriminate].
      apply find_some in Hf as [Hin Heq]. apply String.eqb_eq in Heq. subst k.
      destruct (present v) eqn:Hp; [|discriminate].
      destruct (String.eqb key "__proto__") eqn:Hk; [discriminate|].
      apply String.eqb_neq in Hk. intros [= <-]. auto.
    + intros (Hin & Hp & Hk). apply String.eqb_neq in Hk.
      destruct (find (fun '(k, _) => String.eqb k key) filters) as [[k v]|] eqn:Hf.
      * apply find_some in Hf as [Hin' Heq]. apply String.eqb_eq in Heq. subst k.
        assert (v = value).
        { clear -Hnd Hin Hin'. induction filters as [|[k0 v0] rest IH]; [contradiction|].
          inversion Hnd as [|? ? Hnotin Hnd']; subst. simpl in Hnotin.
          destruct Hin as [[= -> ->]|Hin], Hin' as [[= ?]|Hin']; subst.
          - reflexivity.
          - destruct Hnotin. apply in_map_iff. exists (key, v). auto.
          - destruct Hnotin. apply in_map_iff. exists (key, value). auto.
          - auto. }
        subst v. rewrite Hp, Hk. reflexivity.
      * apply (find_none _ _ Hf) in Hin. rewrite String.eqb_refl in Hin. discriminate.
  - rewrite length_map.
    destruct (List.filter (fun '(_, v) => present v) filters) as [|[k v] l] eqn:Hfl.
    + simpl. split; [|reflexivity]. intros _ key value Hin.
      destruct (present value) eqn:Hp; [|reflexivity].
      assert (Hin' : In (key, value) (List.filter (fun '(_, v) => present v) filters))
        by (apply filter_In; auto).
      rewrite Hfl in Hin'. contradiction.
    + simpl. split; [discriminate|]. intros Hall.
      assert (Hin : In (k, v) (List.filter (fun '(_, v) => present v) filters))
        by (rewrite Hfl; left; reflexivity).
      apply filter_In in Hin as [Hin Hp]. rewrite (Hall k v Hin) in Hp. discriminate.
Qed.

Lemma condition_shape k v v' : shapeOf v = shapeOf v' -> condition k v = condition k v'.
Proof.
  destruct v, v'; simpl; try reflexivity; try discriminate;
    repeat match goal with |- context [includesPercent ?s] =>
             destruct (includesPercent s) end;
    try reflexivity; discriminate.
Qed.

Lemma present_shape v v' : shapeOf v = shapeOf v' -> present v = present v'.
Proof.
  destruct v, v'; simpl; try reflexivity; try discriminate;
    repeat match goal with |- context [includesPercent ?s] =>
             destruct (includesPercent s) end; discriminate.
Qed.

(** X18. The text of the clause depends on the keys and on the kind of
    each value only (absent, list, pattern, plain value): the values
    themselves never reach the SQL text, they travel as binds. *)
Theorem whereClause_ignores_values (filters filters' : list (string * bindValue)) :
  map (fun '(k, v) => (k, shapeOf v)) filters =
  map (fun '(k, v) => (k, shapeOf v)) filters' ->
  whereClause (buildWhereClause filters) = whereClause (buildWhereClause filters').
Proof.
  intros Hs. unfold buildWhereClause. rewrite !fold_whereStep. cbn [app]. simpl.
  assert (Hc : map (fun '(k, v) => condition k v)
                 (List.filter (fun '(_, v) => present v) filters) =
               map (fun '(k, v) => condition k v)
                 (List.filter (fun '(_, v) => present v) filters')).
  { revert filters' Hs. induction filters as [|[k v] rest IH]; intros [|[k' v'] rest'] Hs;
      try discriminate; [reflexivity|].
    injection Hs as -> Hv Hrest. cbn [List.filter].
    rewrite (present_shape v v' Hv). destruct (present v').
    - cbn [map]. rewrite (condition_shape k' v v' Hv). f_equal. apply IH. exact Hrest.
    - apply IH. exact Hrest. }
  rewrite Hc. reflexivity.
Qed.

Lemma buildWhereClause_binds_witness :
  binds (buildWhereClause [("category", BString "books"); ("brand", BNull)])
    !! "category" = Some (BString "books") /\
  binds (buildWhereClause [("category", BString "books"); ("brand", BNull)])
    !! "brand" = None.
Proof.
  destruct (buildWhereClause_binds [("category", BString "books"); ("brand", BNull)])
    as [Hb _].
  { repeat constructor; simpl; intuition discriminate. }
  split.
  - apply Hb. split; [left; reflexivity|]. split; [reflexivity|discriminate].
  - destruct (binds _ !! "brand") as [v|] eqn:E; [|reflexivity].
    apply Hb in E as [[[=]|[[= <-]|[]]] [Hp _]]. discriminate Hp.
Defined.

(** An entry under [__proto__] reaches the clause and not the binds. *)
Example where_proto :
  buildWhereClause [("__proto__", BString "x"); ("name", BString "lamp")] =
  {| whereClause := "WHERE __proto__ = :__proto__ AND name = :name";
     binds := {["name" := BString "lamp"]} |}.
Proof. reflexivity. Qed.

Lemma whereClause_ignores_values_witness :
  whereClause (buildWhereClause [("name", BString "x' OR '1'='1")]) =
  whereClause (buildWhereClause [("name", BString "widget")]).
Proof.
  apply (whereClause_ignores_values [("name", BString "x' OR '1'='1")]
           [("name", BString "widget")]). reflexivity.
Defined.

Example where_sample :
  whereClause (buildWhereClause
                 [("category", BString "books"); ("brand", BNull);
                  ("name", BString "%lamp%"); ("id", BArray [BNumber 1; BNumber 2])])
  = "WHERE category = :category AND name LIKE :name AND id IN (:id)".
Proof. reflexivity. Qed.

End DatabaseFacts.

(** ** The database service *)

Module ServiceFacts.
Import Database LogSamples.

Section Service.
Context {W : Type}.
Implicit Types (this : DatabaseService W) (w : W).

(** X19. [connect] never throws and always leaves a pool behind, so the
    service reports itself healthy from then on, also after
    [disconnect], which never throws and keeps the pool. When creating
    the pool failed, the pool is the stand-in: every query then returns
    an empty result and reaches no database. *)
Theorem connect_always_healthy (createPool : M W (Pool W)) w :
  exists this w',
    connect createPool w = (Returns this, w') /\
    isHealthy this = true /\
    (forall w1, exists w2, disconnect this w1 = (Returns this, w2)) /\
    (returns (fst (createPool w)) = false ->
     forall Row sql binds w1,
       executeQuery this Row sql binds w1 =
       (Returns {| rows := Some []; rowsAffected := Some 0%Z |}, w1)).
Proof.
  unfold connect, try_catch, bind, ret.
  destruct (createPool w) as [[p|e] w'] eqn:Hc.
  - eexists _, _. split; [reflexivity|]. split; [reflexivity|]. split.
    + intros w1. unfold disconnect, bind, try_catch, ret. simpl.
      destruct (pool_close p w1) as [[u|e] w2]; eexists; reflexivity.
    + discriminate.
  - eexists _, _. split; [reflexivity|]. split; [reflexivity|]. split.
    + intros w1. eexists. reflexivity.
    + intros _ Row sql binds w1. reflexivity.
Qed.

(** X20. A transaction that returns a value has gone through [BEGIN],
    the callback, [COMMIT] and the closing of the connection, in that
    order and each without error. *)
Theorem executeTransaction_commits {T} this (callback : Connection W -> M W T)
    (p : Pool W) (connection : Connection W) w w1 (v : T) w' :
  pool this = Some p ->
  pool_getConnection p w = (Returns connection, w1) ->
  executeTransaction this callback w = (Returns v, w') ->
  exists r1 w2 w3 r2 w4,
    execute connection unit "BEGIN" [] w1 = (Returns r1, w2) /\
    callback connection w2 = (Returns v, w3) /\
    execute connection unit "COMMIT" [] w3 = (Returns r2, w4) /\
    close connection w4 = (Returns tt, w').
Proof.
  intros Hp Hg. unfold executeTransaction, getConnection, bind, try_catch, finally_,
    throw, ret. rewrite Hp, Hg.
  destruct (execute connection unit "BEGIN" [] w1) as [[r1|e1] w2] eqn:Hb.
  - destruct (callback connection w2) as [[v'|e2] w3] eqn:Hcb.
    + destruct (execute connection unit "COMMIT" [] w3) as [[r2|e3] w4] eqn:Hcm.
      * destruct (close connection w4) as [[[]|e4] w5] eqn:Hcl; [|discriminate].
        intros [= <- <-]. eauto 10.
      * destruct (execute connection unit "ROLLBACK" [] w4) as [[r|e] w5];
          destruct (close connection w5) as [[u|e'] w6]; discriminate.
    + destruct (execute connection unit "ROLLBACK" [] w3) as [[r|e] w5];
        destruct (close connection w5) as [[u|e'] w6]; discriminate.
  - destruct (execute connection unit "ROLLBACK" [] w2) as [[r|e] w5];
      destruct (close connection w5) as [[u|e'] w6]; discriminate.
Qed.

(** X21. When the callback of a transaction throws, [ROLLBACK] is sent
    on the state the callback left, then the connection is closed, and
    no [COMMIT] is sent. The caller gets the callback's error, unless
    the rollback or the closing throws, whose error then takes its
    place. *)
Theorem executeTransaction_rolls_back {T} this (callback : Connection W -> M W T)
    (p : Pool W) (connection : Connection W) w w1 r1 w2 (e : exn) w3 :
  pool this = Some p ->
  pool_getConnection p w = (Returns connection, w1) ->
  execute connection unit "BEGIN" [] w1 = (Returns r1, w2) ->
  callback connection w2 = (Throws e, w3) ->
  executeTransaction this callback w =
  (let '(rolled, w4) := execute connection unit "ROLLBACK" [] w3 in
   let '(closed, w5) := close connection w4 in
   (Throws match closed, rolled with
           | Throws e', _ => e'
           | Returns _, Throws e' => e'
           | Returns _, Returns _ => e
           end, w5)).
Proof.
  intros Hp Hg Hb Hcb. unfold executeTransaction, getConnection, bind, try_catch,
    finally_, throw, ret. rewrite Hp, Hg, Hb, Hcb.
  destruct (execute connection unit "ROLLBACK" [] w3) as [[r|e'] w4];
    destruct (close connection w4) as [[u|e''] w5]; reflexivity.
Qed.

End Service.

Lemma executeTransaction_commits_witness :
  exists r1 w2 w3 r2 w4,
    execute logConnection unit "BEGIN" [] ["open"] = (Returns r1, w2) /\
    insertOne logConnection w2 = (Returns 1%Z, w3) /\
    execute logConnection unit "COMMIT" [] w3 = (Returns r2, w4) /\
    close logConnection w4 =
    (Returns tt, ["open"; "BEGIN"; "INSERT"; "COMMIT"; "close"]).
Proof.
  apply (executeTransaction_commits logService insertOne logPool logConnection
           [] ["open"] 1%Z ["open"; "BEGIN"; "INSERT"; "COMMIT"; "close"]);
    reflexivity.
Defined.

Lemma executeTransaction_rolls_back_witness :
  executeTransaction logService insertThenFail [] =
  (Throws (Error "out of stock"), ["open"; "BEGIN"; "INSERT"; "ROLLBACK"; "close"]).
Proof.
  apply (executeTransaction_rolls_back logService insertThenFail logPool logConnection
           [] ["open"] {| rows := Some []; rowsAffected := Some 0%Z |}
           ["open"; "BEGIN"] (Error "out of stock") ["open"; "BEGIN"; "INSERT"]);
    reflexivity.
Defined.

End ServiceFacts.

(** ** The user store's queries *)

Module UserDaoFacts.
Import Database Dao Loaders UserDao.

Section Dao.
Context {W : Type}.
Implicit Types (this : DatabaseService W) (w : W).

Lemma join_cons_truthy (sep x : string) (l : list string) :
  truthy x = true -> truthy (join sep (x :: l)) = true.
Proof.
  destruct x as [|c x]; [discriminate|]. intros _.
  destruct l; reflexivity.
Qed.

Lemma setClause_truthy (updates : Binds) :
  updates <> [] -> truthy (setClauseOf updates) = true.
Proof.
  destruct updates as [|[k v] rest]; [congruence|]. intros _.
  unfold setClauseOf. cbn [map fst]. apply join_cons_truthy.
  destruct k; reflexivity.
Qed.

(** X22. [update] with no field to set sends no UPDATE: it reads the
    user and returns it. With at least one field it sends one UPDATE
    that sets exactly the fields given, by bind, and the modification
    time; the id is bound last unless the fields hold an [id], whose
    value it then replaces. *)
Theorem update_sends_update_iff_fields this (id : string) (updates : Binds) w :
  (updates = [] -> update this id updates w = findById this id w) /\
  (updates <> [] ->
   update this id updates w =
   (let '(o, w') :=
      executeQuery this User (updateSql (setClauseOf updates))
        (assign "id" (BString id) updates) w in
    (match o with
     | Returns result => Returns (firstRow result)
     | Throws e => Throws e
     end, w'))).
Proof.
  split.
  - intros ->. unfold update, setClauseOf, try_catch. simpl.
    destruct (findById this id w) as [[u|e] w']; reflexivity.
  - intros Hne. unfold update. rewrite (setClause_truthy updates Hne).
    unfold try_catch, bind, ret, throw. cbn [negb].
    destruct (executeQuery this User _ _ w) as [[r|e] w']; reflexivity.
Qed.

(** X23. On the stand-in pool of a failed connection the user store
    finds nobody and removes nothing: [findById] gives [null],
    [findByIds] the empty list, [update] [null], and [removeFromCart]
    [false], none of them throwing. *)
Theorem mock_pool_finds_nothing (createPool : M W (Pool W)) w :
  returns (fst (createPool w)) = false ->
  let this := match fst (connect createPool w) with
              | Returns service => service
              | Throws _ => {| pool := None |}
              end in
  forall id ids updates w1,
    findById this id w1 = (Returns None, w1) /\
    findByIds this ids w1 = (Returns [], w1) /\
    update this id updates w1 = (Returns None, w1) /\
    removeFromCart this id w1 = (Returns false, w1).
Proof.
  intros Hfail. unfold connect, try_catch, bind, ret.
  destruct (createPool w) as [[p|e] w']; [discriminate|]. simpl.
  intros id ids updates w1. split; [reflexivity|]. split.
  - unfold findByIds. destruct (length ids =? 0)%nat; reflexivity.
  - split; [|reflexivity].
    unfold update. destruct (negb (truthy (setClauseOf updates))); reflexivity.
Qed.

End Dao.

Lemma update_sends_update_iff_fields_witness :
  fst (update LogSamples.logService "u1"
         [("first_name", BString "Ada"); ("city", BString "Turin")] [])
  = Returns None /\
  snd (update LogSamples.logService "u1"
         [("first_name", BString "Ada"); ("city", BString "Turin")] [])
  = ["open";
     "UPDATE users SET first_name = :first_name, city = :city, updated_at = CURRENT_TIMESTAMP "
       ++ newline ++ "         WHERE id = :id RETURNING *";
     "close"].
Proof.
  destruct (update_sends_update_iff_fields LogSamples.logService "u1"
              [("first_name", BString "Ada"); ("city", BString "Turin")] [])
    as [_ H].
  rewrite H by discriminate. split; reflexivity.
Defined.

Lemma mock_pool_finds_nothing_witness :
  findById (W := unit) {| pool := Some mockPool |} "u1" tt = (Returns None, tt).
Proof.
  apply (mock_pool_finds_nothing (W := unit) (throw (Error "ORA-12541")) tt eq_refl
           "u1" [] [] tt).
Defined.

End UserDaoFacts.

(** ** Resolvers that check who is asking *)

Module ResolverFacts.
Import Auth Context Dao Resolvers Samples ResolverSamples.

Section Stores.
Context {W OrderNode : Type}.
Variable productDAO : ProductStore W.
Variable orderDAO : OrderStore W.
Variable userDAO : CartStore W.
Variable transformOrder : Order -> OrderNode.
Variable toLowerCase : string -> string.

Abbreviation deleteProduct := (deleteProduct productDAO).
Abbreviation orderQuery := (orderQuery orderDAO transformOrder).
Abbreviation cancelOrder := (cancelOrder orderDAO transformOrder).
Abbreviation updateOrderStatus := (updateOrderStatus orderDAO transformOrder toLowerCase).
Abbreviation removeFromCart := (removeFromCart userDAO).

Lemma requireOwnership_Returns context owner u :
  requireOwnership context owner = Returns u ->
  user context = Some u /\ mayActFor u owner.
Proof.
  unfold requireOwnership, requireAuth, mayActFor.
  destruct (user context) as [u0|]; [|discriminate].
  destruct (String.eqb (userId u0) owner) eqn:He; simpl.
  - intros [= <-]. apply String.eqb_eq in He. auto.
  - destruct (isAdmin u0) eqn:Ha; simpl; [|discriminate].
    intros [= <-]. auto.
Qed.

Lemma requireOwnership_stranger context owner u :
  user context = Some u -> ~ mayActFor u owner ->
  requireOwnership context owner = Throws (Error "Access denied: insufficient permissions").
Proof.
  unfold requireOwnership, requireAuth, mayActFor. intros -> Hn.
  destruct (String.eqb (userId u) owner) eqn:He.
  - apply String.eqb_eq in He. tauto.
  - destruct (isAdmin u); [tauto|reflexivity].
Qed.

Lemma requireOwnership_allowed context owner u :
  user context = Some u -> mayActFor u owner ->
  requireOwnership context owner = Returns u.
Proof.
  unfold requireOwnership, requireAuth, mayActFor. intros -> [He|Ha].
  - apply String.eqb_eq in He. rewrite He. reflexivity.
  - rewrite Ha. destruct (String.eqb (userId u) owner); reflexivity.
Qed.

(** X24. [deleteProduct] deletes only for the seller of the product or
    a privileged identity: a delete that returns was asked by such an
    identity, for a product the store found. Without identity nothing
    is read; for anyone else the product is read and nothing more. *)
Theorem deleteProduct_only_for_seller (id : string) (context : GraphQLContext) (w : W) :
  (forall b w',
     deleteProduct id context w = (Returns b, w') ->
     exists u product w1,
       user context = Some u /\
       productFindById productDAO id w = (Returns (Some product), w1) /\
       mayActFor u (product_seller_id product) /\
       productDelete productDAO id w1 = (Returns b, w')) /\
  (user context = None ->
   deleteProduct id context w = (Throws (Error "Authentication required"), w)) /\
  (forall u product w1,
     user context = Some u ->
     productFindById productDAO id w = (Returns (Some product), w1) ->
     ~ mayActFor u (product_seller_id product) ->
     deleteProduct id context w =
     (Throws (Error "Access denied: insufficient permissions"), w1)).
Proof.
  unfold Resolvers.deleteProduct, try_catch, bind, check, requireAuth, ret, throw.
  split; [|split].
  - intros b w'. destruct (user context) as [u|] eqn:Hu; [|discriminate].
    destruct (productFindById productDAO id w) as [[[product|]|e] w1] eqn:Hf;
      try discriminate.
    destruct (requireOwnership context (product_seller_id product)) as [u'|e] eqn:Ho;
      [|discriminate].
    apply requireOwnership_Returns in Ho as [Hu' Hm].
    assert (u' = u) by congruence. subst u'.
    destruct (productDelete productDAO id w1) as [[b'|e] w2] eqn:Hd; [|discriminate].
    intros [= <- <-]. exists u, product, w1. auto.
  - intros ->. reflexivity.
  - intros u product w1 Hu Hf Hn. rewrite Hu, Hf.
    rewrite (requireOwnership_stranger _ _ u Hu Hn). reflexivity.
Qed.

(** X25. [cancelOrder] writes at most one thing, the status
    [cancelled], and only for the owner of the order or a privileged
    identity, and never on an order already cancelled or delivered. *)
Theorem cancelOrder_guards (id : string) (context : GraphQLContext) (w : W)
    (node : OrderNode) (w' : W) :
  cancelOrder id context w = (Returns node, w') ->
  exists u order w1 updated,
    user context = Some u /\
    orderFindById orderDAO id w = (Returns (Some order), w1) /\
    mayActFor u (order_user_id order) /\
    statusOf order <> "cancelled" /\ statusOf order <> "delivered" /\
    orderUpdate orderDAO id [("status", "cancelled")] w1 = (Returns (Some updated), w') /\
    node = transformOrder updated.
Proof.
  unfold Resolvers.cancelOrder, try_catch, bind, check, requireAuth, ret, throw.
  destruct (user context) as [u|] eqn:Hu; [|discriminate].
  destruct (orderFindById orderDAO id w) as [[[order|]|e] w1] eqn:Hf; try discriminate.
  destruct (requireOwnership context (order_user_id order)) as [u'|e] eqn:Ho;
    [|discriminate].
  apply requireOwnership_Returns in Ho as [Hu' Hm].
  assert (u' = u) by congruence. subst u'.
  destruct (String.eqb (statusOf order) "cancelled") eqn:Hc; [discriminate|].
  destruct (String.eqb (statusOf order) "delivered") eqn:Hd; [discriminate|].
  apply String.eqb_neq in Hc, Hd.
  destruct (orderUpdate orderDAO id _ w1) as [[[updated|]|e] w2] eqn:Hup;
    try discriminate.
  intros [= <- <-]. exists u, order, w1, updated. auto 10.
Qed.

(** X26. [updateOrderStatus] stores only one of the five known
    statuses, in lower case, and only for the owner of the order or a
    privileged identity. *)
Theorem updateOrderStatus_guards (id status : string) (context : GraphQLContext)
    (w : W) (node : OrderNode) (w' : W) :
  updateOrderStatus id status context w = (Returns node, w') ->
  exists u order w1 updated,
    user context = Some u /\
    orderFindById orderDAO id w = (Returns (Some order), w1) /\
    mayActFor u (order_user_id order) /\
    In (toLowerCase status) validStatuses /\
    orderUpdate orderDAO id [("status", toLowerCase status)] w1
      = (Returns (Some updated), w') /\
    node = transformOrder updated.
Proof.
  unfold Resolvers.updateOrderStatus, try_catch, bind, check, requireAuth, ret, throw.
  destruct (user context) as [u|] eqn:Hu; [|discriminate].
  destruct (orderFindById orderDAO id w) as [[[order|]|e] w1] eqn:Hf; try discriminate.
  destruct (negb (isAdmin u) && negb (String.eqb (order_user_id order) (userId u)))
    eqn:Hperm; [discriminate|].
  destruct (includes validStatuses (toLowerCase status)) eqn:Hv; [|discriminate].
  simpl. destruct (orderUpdate orderDAO id _ w1) as [[[updated|]|e] w2] eqn:Hup;
    try discriminate.
  intros [= <- <-]. exists u, order, w1, updated.
  split; [reflexivity|]. split; [reflexivity|]. split.
  - unfold mayActFor. apply andb_false_iff in Hperm as [H|H];
      apply negb_false_iff in H; [auto|].
    apply String.eqb_eq in H. auto.
  - split; [|auto]. unfold includes in Hv. apply existsb_exists in Hv as (s & Hin & Hs).
    apply String.eqb_eq in Hs. subst s. exact Hin.
Qed.

(** X27. The [order] query shows an order to its owner and to a
    privileged identity only; but it looks the order up before it looks
    at the caller, so an id that names no order is answered [null] for
    everyone, the anonymous caller included, while an id that names an
    order is answered with an error for anyone else. *)
Theorem orderQuery_visibility (id : string) (context : GraphQLContext) (w : W) :
  (forall w1, orderFindById orderDAO id w = (Returns None, w1) ->
     orderQuery id context w = (Returns None, w1)) /\
  (forall order w1, orderFindById orderDAO id w = (Returns (Some order), w1) ->
     (user context = None ->
      orderQuery id context w = (Throws (Error "Authentication required"), w1)) /\
     (forall u, user context = Some u -> ~ mayActFor u (order_user_id order) ->
        orderQuery id context w =
        (Throws (Error "Access denied: insufficient permissions"), w1)) /\
     (forall u, user context = Some u -> mayActFor u (order_user_id order) ->
        orderQuery id context w = (Returns (Some (transformOrder order)), w1))).
Proof.
  unfold Resolvers.orderQuery, try_catch, bind, check, ret, throw. split.
  - intros w1 ->. reflexivity.
  - intros order w1 ->. repeat split.
    + intros Hu. unfold requireOwnership, requireAuth. rewrite Hu. reflexivity.
    + intros u Hu Hn. rewrite (requireOwnership_stranger _ _ u Hu Hn). reflexivity.
    + intros u Hu Hm.
      rewrite (requireOwnership_allowed _ _ u Hu Hm). reflexivity.
Qed.

(** X28. [removeFromCart] asks for an identity and nothing more: whose
    cart the item is in is never looked at, so any two callers with an
    identity get the same answer for the same item. *)
Theorem removeFromCart_ignores_owner (cartItemId : string)
    (context context' : GraphQLContext) (w : W) :
  (user context = None ->
   removeFromCart cartItemId context w = (Throws (Error "Authentication required"), w)) /\
  (user context <> None -> user context' <> None ->
   removeFromCart cartItemId context w = removeFromCart cartItemId context' w).
Proof.
  unfold Resolvers.removeFromCart, try_catch, bind, check, requireAuth, ret, throw.
  split.
  - intros ->. reflexivity.
  - destruct (user context), (user context'); congruence.
Qed.

End Stores.

Lemma cancelOrder_guards_witness :
  exists u order w1 updated,
    user buyer = Some u /\
    orderFindById books "o1" [orderWith "o1" "u1" "pending"]
      = (Returns (Some order), w1) /\
    mayActFor u (order_user_id order) /\
    statusOf order <> "cancelled" /\ statusOf order <> "delivered" /\
    orderUpdate books "o1" [("status", "cancelled")] w1
      = (Returns (Some updated), [orderWith "o1" "u1" "cancelled"]) /\
    statusOf (orderWith "o1" "u1" "cancelled") = statusOf updated.
Proof.
  exact (cancelOrder_guards books statusOf "o1" buyer
           [orderWith "o1" "u1" "pending"]
           (statusOf (orderWith "o1" "u1" "cancelled"))
           [orderWith "o1" "u1" "cancelled"] eq_refl).
Defined.

Lemma updateOrderStatus_guards_witness :
  exists u order w1 updated,
    user buyer = Some u /\
    orderFindById books "o1" [orderWith "o1" "u1" "pending"]
      = (Returns (Some order), w1) /\
    mayActFor u (order_user_id order) /\
    In (lower "SHIPPED") validStatuses /\
    orderUpdate books "o1" [("status", lower "SHIPPED")] w1
      = (Returns (Some updated), [orderWith "o1" "u1" "shipped"]) /\
    statusOf (orderWith "o1" "u1" "shipped") = statusOf updated.
Proof.
  exact (updateOrderStatus_guards books statusOf lower "o1" "SHIPPED" buyer
           [orderWith "o1" "u1" "pending"]
           (statusOf (orderWith "o1" "u1" "shipped"))
           [orderWith "o1" "u1" "shipped"] eq_refl).
Defined.

End ResolverFacts.

(** ** Paging forward and backward *)

Module PagingFacts.
Import Zod Auth Context Dao Pager Samples.
Import Buffer BufferFacts NumberFacts PagerFacts Paging.

Section Resolvers.
Context {F : FilterSchema} {Node OrderNode : Type}.
Variable productDAO : ProductDAO F.
Variable orderDAO : OrderDAO.
Variable transformProduct : Product -> Node.
Variable transformOrder : Order -> OrderNode.

Abbreviation searchWith := (Pager.searchWith productDAO transformProduct).
Abbreviation myOrders := (Pager.myOrders orderDAO transformOrder).

Lemma parse_forward input :
  raw_first input = VUndefined ->
  acceptableCursor (raw_after input) -> acceptableCursor (raw_before input) ->
  match CursorInputSchema_parse input, CursorInputSchema_parse (forward input) with
  | Returns p, Returns p' => limitOf p = limitOf p' /\ offsetOf p = offsetOf p'
  | Throws e, Throws e' => e = e'
  | _, _ => False
  end.
Proof.
  intros Hf Ha Hb. unfold CursorInputSchema_parse, forward. cbn [raw_first raw_after raw_last raw_before].
  rewrite Hf, (stringOptional_ok _ Ha), (stringOptional_ok _ Hb).
  cbn [positiveMaxOptional stringOptional].
  destruct (positiveMaxOptional 100 (raw_last input)) as [issues l].
  cbn [app]. rewrite !app_nil_r.
  destruct issues; [|reflexivity].
  unfold limitOf, offsetOf. cbn [first last after orNumber].
  split; [|reflexivity].
  destruct l as [z|]; [|reflexivity]. cbn [orNumber].
  destruct (z =? 0)%Z; reflexivity.
Qed.

(** X29. The cursor a connection gives for a row names the absolute
    position of that row, and a request [after] that cursor starts at
    that very position: the page that follows a cursor begins with the
    row the cursor was given for, not with the one behind it. The
    offset of the page and the position of the row are numbers held
    exactly. *)
Theorem cursor_resumes_at_its_own_row (term : string) (filter : RawFilter F)
    (f : Filters F) (o : Z) (rows : list Product) (i : nat) (e : Edge Node) :
  isSafeInteger o = true ->
  isSafeInteger (o + Z.of_nat i) = true ->
  parseFilter F filter = inr f ->
  makeEdges transformProduct (Int o) rows !! i = Some e ->
  (exists row, rows !! i = Some row /\ node e = transformProduct row) /\
  parseInt (decodeCursor (cursor e)) = Int (o + Z.of_nat i) /\
  searchWith term filter (afterOnly (cursor e)) =
  answer transformProduct 20 (Int (o + Z.of_nat i))
    (Dao.searchProducts productDAO term f 20 (Int (o + Z.of_nat i))).
Proof.
  intros _ _ Hf He. rewrite makeEdges_lookup in He.
  destruct (rows !! i) as [row|] eqn:Hr; [|discriminate].
  injection He as <-. unfold cursor, node. cbv beta iota.
  change (add (Int o) (Int (Z.of_nat i))) with (Int (o + Z.of_nat i)).
  destruct (offset_round_trip (o + Z.of_nat i)) as [_ Hp].
  split; [eauto|]. split; [exact Hp|].
  etransitivity;
    [exact (searchWith_accepted productDAO transformProduct term filter f
              (afterOnly (encodeCursor (toString (Int (o + Z.of_nat i)))))
              {| first := None;
                 after := Some (encodeCursor (toString (Int (o + Z.of_nat i))));
                 last := None; before := None |} Hf eq_refl)|].
  unfold limitOf, offsetOf. cbn [first last after orNumber].
  rewrite encodeCursor_truthy by apply toString_truthy.
  rewrite Hp. reflexivity.
Qed.

(** X30. Paging backward does not exist: [before] is validated and then
    never read, and [last], when [first] is absent, is taken as the
    limit of a forward page. A request with [last] and [before] gets
    what the same request with [last] moved into [first] and [before]
    dropped gets, from the product resolvers and from [myOrders], the
    error of a rejected [last] included. *)
Theorem last_is_first_and_before_is_unread (input : CursorInput) :
  raw_first input = VUndefined ->
  acceptableCursor (raw_after input) -> acceptableCursor (raw_before input) ->
  (forall term filter,
     searchWith term filter input = searchWith term filter (forward input)) /\
  (forall context, myOrders input context = myOrders (forward input) context).
Proof.
  intros Hf Ha Hb. pose proof (parse_forward input Hf Ha Hb) as H.
  split.
  - intros term filter. unfold Pager.searchWith.
    destruct (ProductFilterSchema_parse filter) as [vf|e]; [|reflexivity].
    destruct (CursorInputSchema_parse input) as [p|e],
      (CursorInputSchema_parse (forward input)) as [p'|e']; try contradiction.
    + destruct H as [-> ->]. reflexivity.
    + subst e'. reflexivity.
  - intros context. unfold Pager.myOrders.
    destruct (requireAuth context) as [u|e]; [|reflexivity].
    destruct (CursorInputSchema_parse input) as [p|e],
      (CursorInputSchema_parse (forward input)) as [p'|e']; try contradiction.
    + destruct H as [-> ->]. reflexivity.
    + subst e'. reflexivity.
Qed.

End Resolvers.

Lemma cursor_resumes_at_its_own_row_witness :
  parseInt (decodeCursor "MjI=") = Int 22 /\
  Pager.searchWith shelf product_id_ "" tt (afterOnly "MjI=") =
  answer product_id_ 20 (Int 22) (Dao.searchProducts shelf "" tt 20 (Int 22)).
Proof.
  destruct (cursor_resumes_at_its_own_row shelf product_id_ "" tt tt 20
              (take 5 catalog) 2
              {| node := "p2"; cursor := "MjI=" |} eq_refl eq_refl eq_refl eq_refl)
    as (_ & Hp & Hs).
  split; [exact Hp|exact Hs].
Defined.

Lemma last_is_first_and_before_is_unread_witness :
  Pager.searchWith shelf product_id_ "" tt
    {| raw_first := VUndefined; raw_after := VUndefined;
       raw_last := VNumber 5; raw_before := VString "MjA=" |} =
  Pager.searchWith shelf product_id_ "" tt (firstOnly 5).
Proof.
  refine (proj1 (last_is_first_and_before_is_unread shelf ledger product_id_ order_id_
                   {| raw_first := VUndefined; raw_after := VUndefined;
                      raw_last := VNumber 5; raw_before := VString "MjA=" |}
                   eq_refl _ _) "" tt).
  - left. reflexivity.
  - right. exists "MjA=". reflexivity.
Defined.

End PagingFacts.
